(** * Cross-axis update checker and download manager: a shallow embedding

  The development follows [bin/check_updates.py] (class [UpdateChecker]),
  [bin/download.py] (class [DownloadManager]) and [bin/env_loader.py].

  Conventions of the embedding:
  - a Python [str] is a [string] whose characters are the code points
    below 256 (Latin-1); comparison of strings is by code point;
  - a Python [int] is a [Z];
  - a value produced by [json.loads] or [yaml.safe_load] is a [json];
  - a call that may raise returns a [res]; a caught exception is a
    [Raise] that the handler pattern-matches on;
  - of what the methods print, the embedding keeps the lines of
    [DownloadManager] listed in [line], and every printed expression
    that can raise ([len] of a configured value, [join] of names). *)

From Stdlib Require Import String Ascii ZArith List Lia DecimalString SpecFloat Bool.
From stdpp Require Import base strings gmap list.

Local Open Scope Z_scope.
Local Set Warnings "-register-all".

(** ** Exceptions and fallible results *)

Inductive exn : Type :=
| ValueError
| KeyError
| TypeError
| AttributeError
| IndexError
| OSError.

Inductive res (A : Type) : Type :=
| Ok (a : A)
| Raise (e : exn).
Arguments Ok {A} a.
Arguments Raise {A} e.

Definition res_bind {A B : Type} (r : res A) (k : A -> res B) : res B :=
match r with
| Ok a => k a
| Raise e => Raise e
end.

Notation "'do' x <- r ; k" := (res_bind r (fun x => k))
(at level 10, x name, r at level 100, k at level 200).

(** ** Strings *)

Module Str.

(** [s.split(c)] for a one-character separator. *)
Fixpoint split (c : ascii) (s : string) : list string :=
  match s with
  | EmptyString => [EmptyString]
  | String a s' =>
      if Ascii.eqb a c then EmptyString :: split c s'
      else match split c s' with
           | [] => [String a EmptyString]
           | h :: t => String a h :: t
           end
  end.

(** [s.split(c)[0]]: the list [split] returns is never empty. *)
Definition split_head (c : ascii) (s : string) : string :=
  match split c s with
  | [] => EmptyString
  | h :: _ => h
  end.

(** [s.replace(c, '')]. *)
Fixpoint remove (c : ascii) (s : string) : string :=
  match s with
  | EmptyString => EmptyString
  | String a s' => if Ascii.eqb a c then remove c s' else String a (remove c s')
  end.

(** [a > b] and [a < b] on [str]. *)
Definition gt (a b : string) : bool :=
  match String.compare a b with Gt => true | _ => false end.
Definition lt (a b : string) : bool :=
  match String.compare a b with Lt => true | _ => false end.

(** Code points below 256 with Unicode property Numeric_Type=Decimal
    are the ASCII digits; [²], [³] and [¹] (178, 179, 185) have
    Numeric_Type=Digit: [str.isdigit] accepts them, [int] does not. *)
Definition decimal_value (c : ascii) : option Z :=
  let n := Z.of_N (N_of_ascii c) in
  if (48 <=? n) && (n <=? 57) then Some (n - 48) else None.

Definition is_digit_char (c : ascii) : bool :=
  let n := Z.of_N (N_of_ascii c) in
  ((48 <=? n) && (n <=? 57)) || (n =? 178) || (n =? 179) || (n =? 185).

Fixpoint all_digits (s : string) : bool :=
  match s with
  | EmptyString => true
  | String a s' => is_digit_char a && all_digits s'
  end.

(** [s.isdigit()]: at least one character, and all of them digits. *)
Definition isdigit (s : string) : bool :=
  match s with
  | EmptyString => false
  | _ => all_digits s
  end.

(** The value of a string of decimal digits read left to right. *)
Fixpoint decimal_from (acc : Z) (s : string) : option Z :=
  match s with
  | EmptyString => Some acc
  | String a s' =>
      match decimal_value a with
      | Some d => decimal_from (10 * acc + d) s'
      | None => None
      end
  end.

(** [str(n)] for an [int]. *)
Definition of_int (n : Z) : string :=
  match n with
  | Zneg p => String "-"%char (NilZero.string_of_uint (N.to_uint (Npos p)))
  | _ => NilZero.string_of_uint (N.to_uint (Z.to_N n))
  end.

(** The one-character string holding a double quote. *)
Definition dquote : string := String (ascii_of_N 34) EmptyString.

(** [s.split(c)[-1]]. *)
Definition split_last (c : ascii) (s : string) : string :=
  List.last (split c s) EmptyString.

(** [s.endswith(suffix)]. *)
Definition endswith (suffix s : string) : bool :=
  let n := String.length s in
  let k := String.length suffix in
  (k <=? n)%nat && String.eqb (String.substring (n - k) k s) suffix.

End Str.

(** ** The version comparator ([UpdateChecker._compare_versions]) *)

Section Comparator.

(** [sys.get_int_max_str_digits()]: 4300 by default since CPython 3.11,
    0 where the limit is switched off or the interpreter has none. *)
Variable int_max_str_digits : nat.

(** [int(x)] on a string for which [x.isdigit()] holds. CPython looks at
    the limit only for strings of more than 640 digits; a digit that is
    not decimal is an invalid literal. *)
Definition py_int (x : string) : res Z :=
  let digits := String.length x in
  if (640 <? digits)%nat && (0 <? int_max_str_digits)%nat
     && (int_max_str_digits <? digits)%nat
  then Raise ValueError
  else match Str.decimal_from 0 x with
       | Some n => Ok n
       | None => Raise ValueError
       end.

(** An element of [parts1] / [parts2]: an [int] or a [str]. *)
Inductive part : Type :=
| PInt (n : Z)
| PStr (s : string).

(** [str(p)]. *)
Definition part_str (p : part) : string :=
  match p with
  | PInt n => Str.of_int n
  | PStr s => s
  end.

(** [int(x) if x.isdigit() else x]. *)
Definition parse_segment (x : string) : res part :=
  if Str.isdigit x then (do n <- py_int x; Ok (PInt n)) else Ok (PStr x).

(** The list comprehension, evaluated left to right. *)
Fixpoint parse_segments (xs : list string) : res (list part) :=
  match xs with
  | [] => Ok []
  | x :: xs' =>
      do p <- parse_segment x;
      do ps <- parse_segments xs';
      Ok (p :: ps)
  end.

(** [v.split('+')[0].split('-')[0]]. *)
Definition clean (v : string) : string :=
  Str.split_head "-" (Str.split_head "+" v).

(** [[... for x in v_clean.replace('v', '').split('.')]]. *)
Definition version_parts (v_clean : string) : res (list part) :=
  parse_segments (Str.split "." (Str.remove "v" v_clean)).

(** [parts[i] if i < len(parts) else 0]. *)
Definition part_at (parts : list part) (i : nat) : part :=
  if (i <? length parts)%nat then nth i parts (PInt 0) else PInt 0.

(** One round of the loop body: [Some r] when it returns [r], [None]
    when the loop goes on. *)
Definition compare_step (p1 p2 : part) : option Z :=
  match p1, p2 with
  | PInt a, PInt b =>
      if a >? b then Some 1
      else if a <? b then Some (-1)
      else None
  | _, _ =>
      if Str.gt (part_str p1) (part_str p2) then Some 1
      else if Str.lt (part_str p1) (part_str p2) then Some (-1)
      else None
  end.

(** [for i in range(...)] from index [i] with [n] rounds left, and the
    [return 0] after the loop. *)
Fixpoint compare_loop (parts1 parts2 : list part) (i n : nat) : Z :=
  match n with
  | O => 0
  | S n' =>
      match compare_step (part_at parts1 i) (part_at parts2 i) with
      | Some r => r
      | None => compare_loop parts1 parts2 (S i) n'
      end
  end.

(** The body of the [try]. *)
Definition compare_try (v1 v2 : string) : res Z :=
  let v1_clean := clean v1 in
  let v2_clean := clean v2 in
  do parts1 <- version_parts v1_clean;
  do parts2 <- version_parts v2_clean;
  Ok (compare_loop parts1 parts2 0 (Nat.max (length parts1) (length parts2))).

(** The handler of the bare [except:]. *)
Definition compare_fallback (v1 v2 : string) : Z :=
  if Str.gt v1 v2 then 1
  else if Str.lt v1 v2 then -1
  else 0.

Definition _compare_versions (v1 v2 : string) : res Z :=
  match compare_try v1 v2 with
  | Ok r => Ok r
  | Raise _ => Ok (compare_fallback v1 v2)
  end.

End Comparator.


(** ** The comparison algorithm as the specification words it *)

Module Algorithm.

(** Everything before the first occurrence of [c]. *)
Fixpoint before_first (c : ascii) (s : string) : string :=
  match s with
  | EmptyString => EmptyString
  | String a s' => if Ascii.eqb a c then EmptyString else String a (before_first c s')
  end.

(** Strip a leading [v], and only a leading one. *)
Definition strip_leading_v (s : string) : string :=
  match s with
  | String a s' => if Ascii.eqb a "v" then s' else s
  | EmptyString => s
  end.

(** Pad a sequence with numeric zeros up to [n] segments. *)
Definition pad (n : nat) (ps : list part) : list part :=
  ps ++ repeat (PInt 0) (n - length ps).

(** Numeric order for a numeric pair, string order otherwise. *)
Definition segment_order (p q : part) : comparison :=
  match p, q with
  | PInt a, PInt b => Z.compare a b
  | _, _ => String.compare (part_str p) (part_str q)
  end.

(** The first differing pair decides. *)
Fixpoint first_difference (ps qs : list part) : comparison :=
  match ps, qs with
  | p :: ps', q :: qs' =>
      match segment_order p q with
      | Eq => first_difference ps' qs'
      | c => c
      end
  | _, _ => Eq
  end.

(** Segments of a version: [None] on a parsing failure. *)
Definition segments (int_max_str_digits : nat) (strip_v : string -> string)
  (v : string) : option (list part) :=
  let core := strip_v (before_first "-" (before_first "+" v)) in
  match parse_segments int_max_str_digits (Str.split "." core) with
  | Ok ps => Some ps
  | Raise _ => None
  end.

Definition compare (int_max_str_digits : nat) (strip_v : string -> string)
  (a b : string) : comparison :=
  match segments int_max_str_digits strip_v a,
        segments int_max_str_digits strip_v b with
  | Some ps, Some qs =>
      let n := Nat.max (length ps) (length qs) in
      first_difference (pad n ps) (pad n qs)
  | _, _ => String.compare a b
  end.

(** greater, less, equal as the integers the code returns. *)
Definition verdict (c : comparison) : Z :=
  match c with
  | Gt => 1
  | Lt => -1
  | Eq => 0
  end.

End Algorithm.

(** A version all of whose segments are integers. *)
Definition numeric_version (int_max_str_digits : nat) (v : string) : Prop :=
  exists ns : list Z,
    version_parts int_max_str_digits (clean v) = Ok (map PInt ns).

(** ** Values loaded from JSON and YAML *)

(** What [json.loads] and [yaml.safe_load] build: [None], [bool], [int],
    [float] (a binary64 value), [str], [list], and [dict] with [str]
    keys, kept in insertion order and read by the first binding of a
    key. *)
Inductive json : Type :=
| JNull
| JBool (b : bool)
| JInt (n : Z)
| JFloat (f : spec_float)
| JStr (s : string)
| JArr (items : list json)
| JObj (fields : list (string * json)).

Module Py.

(** [bool(v)]. *)
Definition truthy (v : json) : bool :=
  match v with
  | JNull => false
  | JBool b => b
  | JInt n => negb (n =? 0)
  | JFloat (S754_zero _) => false
  | JFloat _ => true
  | JStr s => negb (String.eqb s EmptyString)
  | JArr items => match items with [] => false | _ => true end
  | JObj fields => match fields with [] => false | _ => true end
  end.

Fixpoint lookup (k : string) (fields : list (string * json)) : option json :=
  match fields with
  | [] => None
  | (k', v) :: rest => if String.eqb k' k then Some v else lookup k rest
  end.

(** [v.get(k, default)]: only a [dict] has the method. *)
Definition get (v : json) (k : string) (default : json) : res json :=
  match v with
  | JObj fields =>
      Ok (match lookup k fields with Some x => x | None => default end)
  | _ => Raise AttributeError
  end.

(** [v[k]] for a [str] key. *)
Definition getitem (v : json) (k : string) : res json :=
  match v with
  | JObj fields =>
      match lookup k fields with
      | Some x => Ok x
      | None => Raise KeyError
      end
  | _ => Raise TypeError
  end.

(** [v[0]]. *)
Definition getitem0 (v : json) : res json :=
  match v with
  | JArr (x :: _) => Ok x
  | JArr [] => Raise IndexError
  | JStr (String c _) => Ok (JStr (String c EmptyString))
  | JStr EmptyString => Raise IndexError
  | JObj _ => Raise KeyError
  | _ => Raise TypeError
  end.

Fixpoint chars (s : string) : list json :=
  match s with
  | EmptyString => []
  | String c s' => JStr (String c EmptyString) :: chars s'
  end.

(** The elements [for x in v] draws: the items of a [list], the keys of
    a [dict], the characters of a [str]. *)
Definition iter (v : json) : res (list json) :=
  match v with
  | JArr items => Ok items
  | JObj fields => Ok (map (fun kv => JStr (fst kv)) fields)
  | JStr s => Ok (chars s)
  | _ => Raise TypeError
  end.

(** Does the integer [n] equal the float [f]? *)
Definition float_eq_int (f : spec_float) (n : Z) : bool :=
  match f with
  | S754_zero _ => n =? 0
  | S754_finite s m e =>
      let v := if s then Zneg m else Zpos m in
      if 0 <=? e then n =? v * 2 ^ e else n * 2 ^ (- e) =? v
  | _ => false
  end.

(** [a == b]: [bool], [int] and [float] compare as numbers, a [list]
    element by element, a [dict] key by key. *)
Fixpoint eq (a b : json) {struct a} : bool :=
  match a, b with
  | JNull, JNull => true
  | JStr s, JStr t => String.eqb s t
  | JArr xs, JArr ys =>
      (fix all2 (xs ys : list json) {struct xs} : bool :=
         match xs, ys with
         | [], [] => true
         | x :: xs', y :: ys' => eq x y && all2 xs' ys'
         | _, _ => false
         end) xs ys
  | JObj fs, JObj gs =>
      (length fs =? length gs)%nat &&
      (fix all_in (fs : list (string * json)) {struct fs} : bool :=
         match fs with
         | [] => true
         | (k, v) :: fs' =>
             match lookup k gs with
             | Some w => eq v w
             | None => false
             end && all_in fs'
         end) fs
  | JBool x, JBool y => Bool.eqb x y
  | JBool x, JInt n | JInt n, JBool x => n =? (if x then 1 else 0)
  | JBool x, JFloat f | JFloat f, JBool x => float_eq_int f (if x then 1 else 0)
  | JInt m, JInt n => m =? n
  | JInt n, JFloat f | JFloat f, JInt n => float_eq_int f n
  | JFloat f, JFloat g => SFeqb f g
  | _, _ => false
  end.

(** Is [t] a substring of [s]? *)
Fixpoint infix (t s : string) : bool :=
  String.prefix t s ||
  match s with
  | EmptyString => false
  | String _ s' => infix t s'
  end.

(** [x in v]. *)
Definition contains (x v : json) : res bool :=
  match v with
  | JObj fields =>
      match x with
      | JStr k => Ok (match lookup k fields with Some _ => true | None => false end)
      | JArr _ | JObj _ => Raise TypeError
      | _ => Ok false
      end
  | JArr items => Ok (existsb (fun y => eq y x) items)
  | JStr s =>
      match x with
      | JStr t => Ok (infix t s)
      | _ => Raise TypeError
      end
  | _ => Raise TypeError
  end.

(** [c.lower()] for a code point below 256. *)
Definition lower_char (c : ascii) : ascii :=
  let n := N_of_ascii c in
  if ((65 <=? n) && (n <=? 90))%N
     || ((192 <=? n) && (n <=? 222) && negb (n =? 215))%N
  then ascii_of_N (n + 32) else c.

Fixpoint lower_str (s : string) : string :=
  match s with
  | EmptyString => EmptyString
  | String c s' => String (lower_char c) (lower_str s')
  end.

(** [v.lower()]: only a [str] has the method. *)
Definition lower (v : json) : res string :=
  match v with
  | JStr s => Ok (lower_str s)
  | _ => Raise AttributeError
  end.

(** [f"{v}"], given the [repr] of floats, lists and dicts. *)
Definition format (repr : json -> string) (v : json) : string :=
  match v with
  | JStr s => s
  | JNull => "None"
  | JBool true => "True"
  | JBool false => "False"
  | JInt n => Str.of_int n
  | _ => repr v
  end.

(** [xs.index(x)] for the element [x] a loop drew from [xs] at position
    [k]: the position of the first earlier element equal to it, else
    [k] (an element is found at its own position even where [==] fails
    on it). *)
Fixpoint index_from (xs : list json) (x : json) (j k : nat) : nat :=
  match k with
  | O => j
  | S k' =>
      match xs with
      | [] => j
      | y :: ys => if eq y x then j else index_from ys x (S j) k'
      end
  end.

Definition index (xs : list json) (x : json) (k : nat) : Z :=
  Z.of_nat (index_from xs x 0 k).

(** A [dict] with keys of any hashable type, in insertion order. *)
Definition hashable (k : json) : bool :=
  match k with
  | JArr _ | JObj _ => false
  | _ => true
  end.

Fixpoint assign (d : list (json * json)) (k v : json) : list (json * json) :=
  match d with
  | [] => [(k, v)]
  | (k', v') :: rest =>
      if eq k' k then (k', v) :: rest else (k', v') :: assign rest k v
  end.

(** [d[k] = v]. *)
Definition setitem (d : list (json * json)) (k v : json) : res (list (json * json)) :=
  if hashable k then Ok (assign d k v) else Raise TypeError.

(** [v.get(k, default)] for a key of any type: a key that is not a
    [str] is in no dict of the embedding, a [list] or [dict] key cannot be
    hashed. *)
Definition get_key (v k default : json) : res json :=
  match v with
  | JObj fields =>
      match k with
      | JStr s => Ok (match lookup s fields with Some x => x | None => default end)
      | JArr _ | JObj _ => Raise TypeError
      | _ => Ok default
      end
  | _ => Raise AttributeError
  end.

(** [xs[n]] on a sequence, negative [n] counting from the end. *)
Definition seq_item {A : Type} (xs : list A) (n : Z) : res A :=
  let i := if n <? 0 then n + Z.of_nat (length xs) else n in
  if i <? 0 then Raise IndexError
  else match nth_error xs (Z.to_nat i) with
       | Some x => Ok x
       | None => Raise IndexError
       end.

(** [v[k]] for a key of any type. *)
Definition getitem_key (v k : json) : res json :=
  match v with
  | JObj fields =>
      match k with
      | JStr s =>
          match lookup s fields with
          | Some x => Ok x
          | None => Raise KeyError
          end
      | JArr _ | JObj _ => Raise TypeError
      | _ => Raise KeyError
      end
  | JArr items =>
      match k with
      | JInt n => seq_item items n
      | JBool b => seq_item items (if b then 1 else 0)
      | _ => Raise TypeError
      end
  | JStr s =>
      match k with
      | JInt n => seq_item (chars s) n
      | JBool b => seq_item (chars s) (if b then 1 else 0)
      | _ => Raise TypeError
      end
  | _ => Raise TypeError
  end.

(** [d[k] = v] on a dict with [str] keys. *)
Fixpoint set_key (d : list (string * json)) (k : string) (v : json)
  : list (string * json) :=
  match d with
  | [] => [(k, v)]
  | (k', v') :: rest =>
      if String.eqb k' k then (k', v) :: rest else (k', v') :: set_key rest k v
  end.

(** [v.items()]: only a [dict] has the method. *)
Definition items (v : json) : res (list (string * json)) :=
  match v with
  | JObj fields => Ok fields
  | _ => Raise AttributeError
  end.

(** The elements of [v[1:]], taken after [v[0]] succeeded. *)
Definition rest (v : json) : res (list json) :=
  match v with
  | JArr items => Ok (tl items)
  | JStr s => Ok (tl (chars s))
  | _ => Raise TypeError
  end.

(** [a or b]. *)
Definition or_else (a b : json) : json := if truthy a then a else b.

(** [len(v)]. *)
Definition len (v : json) : res Z :=
  match v with
  | JStr s => Ok (Z.of_nat (String.length s))
  | JArr items => Ok (Z.of_nat (length items))
  | JObj fields => Ok (Z.of_nat (length fields))
  | _ => Raise TypeError
  end.

(** [sep.join(items)]: every item must be a [str]. *)
Fixpoint join (sep : string) (items : list json) : res string :=
  match items with
  | [] => Ok EmptyString
  | JStr s :: rest =>
      do t <- join sep rest;
      Ok (match rest with [] => s | _ => s +:+ sep +:+ t end)
  | _ => Raise TypeError
  end.

(** [x in [a, b, ...]] for a list display. *)
Definition in_list (x : json) (items : list json) : bool :=
  existsb (fun y => eq y x) items.

(** A path argument of the [os] functions: anything but a [str] makes
    them raise (paths given as bytes or as file descriptors are outside
    the embedding). *)
Definition path (v : json) : res string :=
  match v with
  | JStr s => Ok s
  | _ => Raise TypeError
  end.

End Py.

(** [urllib.parse.quote(s)] with the default [safe='/']: the UTF-8 bytes
    of every character that is not a letter, a digit or one of [_.-~/]
    are percent-encoded. *)
Module Url.

Definition unreserved (c : ascii) : bool :=
  let n := N_of_ascii c in
  (((65 <=? n) && (n <=? 90)) || ((97 <=? n) && (n <=? 122))
   || ((48 <=? n) && (n <=? 57))
   || (n =? 95) || (n =? 46) || (n =? 45) || (n =? 126) || (n =? 47))%N.

Definition hex_digit (n : N) : ascii :=
  if (n <? 10)%N then ascii_of_N (48 + n) else ascii_of_N (55 + n).

Definition percent (byte : N) : string :=
  String "%" (String (hex_digit (byte / 16)) (String (hex_digit (byte mod 16)) EmptyString)).

Definition utf8 (c : ascii) : list N :=
  let n := N_of_ascii c in
  if (n <? 128)%N then [n] else [(192 + n / 64)%N; (128 + n mod 64)%N].

Fixpoint quote (s : string) : string :=
  match s with
  | EmptyString => EmptyString
  | String c s' =>
      (if unreserved c then String c EmptyString
       else String.concat EmptyString (map percent (utf8 c)))
      +:+ quote s'
  end.

End Url.

(** ** The outside world: network, console and files *)

Record request : Type := {
  req_url : string;
  req_headers : list (string * json);
  req_timeout : Z
}.

(** What [urlopen] followed by [json.loads] comes to. *)
Inductive response : Type :=
| Payload (body : json)
| HttpError (code : Z)
| Failure (msg : string).

(** How the transfer of a body ends: the whole body arrives; or the
    connection breaks or times out after [k] bytes, and reading raises; or
    the peer closes the connection after [k] bytes, and reading returns as
    it does at the end of a body ([http.client] hands out what arrived
    and reports nothing). *)
Inductive ending : Type :=
| Whole
| Broken (k : nat)
| Closed (k : nat).

(** What [urlopen] followed by [shutil.copyfileobj] comes to: [urlopen]
    raises, or the body starts to arrive and the transfer ends in one of
    the three ways. *)
Inductive transfer : Type :=
| Refused (msg : string)
| Stream (body : string) (how : ending).

(** The bytes of [body] that arrive. *)
Definition received (body : string) (how : ending) : string :=
  match how with
  | Whole => body
  | Broken k | Closed k => String.substring 0 k body
  end.

(** The file operations the operating system may refuse (permissions,
    disk space, a file in use). *)
Inductive fs_op : Type :=
| OpenWrite (path : string)
| MakeDirs (path : string)
| Remove (path : string)
| Copy (src dst : string)
| WriteText (path : string).

Inductive node : Type :=
| File (content : string)
| Dir.

(** The lines of console output the embedding keeps. *)
Inductive line : Type :=
| HttpErrorLine (code : Z) (url : string)
| FetchErrorLine (url msg : string)
| DownloadingLine (url : string)
| DownloadedLine (destination : string) (size : nat)
| DownloadErrorLine
| RemovingOldLine (destination : string) (size : nat)
| RemoveWarningLine
| CopyingLine (destination : json)
| CopyWarningLine (destination : json)
| NoDestinationLine
| FileExistsLine (destination : string) (size : nat)
| SkippingLine
| ApiKeyLine
| CacheSavedLine
| CacheWarningLine.

Record world : Type := {
  requests : list request;
  console : list line;
  files : gmap string node
}.

Definition log_request (r : request) (w : world) : world :=
  {| requests := requests w ++ [r]; console := console w; files := files w |}.

Definition print (l : line) (w : world) : world :=
  {| requests := requests w; console := console w ++ [l]; files := files w |}.

Definition set_files (f : gmap string node) (w : world) : world :=
  {| requests := requests w; console := console w; files := f |}.

(** ** Computations that read and change the world and may raise *)

Definition M (A : Type) : Type := world -> res A * world.

Definition ret {A : Type} (a : A) : M A := fun w => (Ok a, w).

Definition raise {A : Type} (e : exn) : M A := fun w => (Raise e, w).

Definition lift {A : Type} (r : res A) : M A := fun w => (r, w).

Definition bind {A B : Type} (c : M A) (k : A -> M B) : M B :=
  fun w =>
    match c w with
    | (Ok a, w') => k a w'
    | (Raise e, w') => (Raise e, w')
    end.

Notation "'let!' x ':=' c 'in' k" := (bind c (fun x => k))
  (at level 10, x name, c at level 100, k at level 200).

(** How one round of a loop body ends: it falls through or [continue]s,
    it [break]s, or it [return]s from the enclosing function. *)
Inductive flow (R : Type) : Type :=
| Next
| Break
| Return (r : R).
Arguments Next {R}.
Arguments Break {R}.
Arguments Return {R} r.

(** [for x in xs: body], threading the local variables [s] the body
    updates; [Some r] when the body returned [r]. *)
Fixpoint for_loop {X S R : Type} (xs : list X)
  (body : X -> S -> M (S * flow R)) (s : S) : M (S * option R) :=
  match xs with
  | [] => ret (s, None)
  | x :: xs' =>
      let! r := body x s in
      match snd r with
      | Next => for_loop xs' body (fst r)
      | Break => ret (fst r, None)
      | Return v => ret (fst r, Some v)
      end
  end.

(** [for x in xs: body] where the body neither breaks nor returns and
    updates no local variable. *)
Fixpoint for_each {X : Type} (xs : list X) (body : X -> M unit) : M unit :=
  match xs with
  | [] => ret tt
  | x :: xs' => let! _ := body x in for_each xs' body
  end.

(** [enumerate(xs)]. *)
Definition enumerate {X : Type} (xs : list X) : list (nat * X) :=
  combine (seq 0 (length xs)) xs.

Section Network.

(** The remote side: the answer to a request, given the requests made
    before it (registries change between calls). *)
Variable remote : list request -> request -> response.

(** [_fetch_json] of both classes, which differ in the timeout only. *)
Definition fetch_json (timeout : Z) (url : string)
  (headers : list (string * json)) : M json :=
  fun w =>
    let req := {| req_url := url; req_headers := headers; req_timeout := timeout |} in
    let w' := log_request req w in
    match remote (requests w) req with
    | Payload body => (Ok body, w')
    | HttpError code =>
        if code =? 404 then (Ok JNull, w')
        else (Ok JNull, print (HttpErrorLine code url) w')
    | Failure msg => (Ok JNull, print (FetchErrorLine url msg) w')
    end.

End Network.

(** ** [UpdateChecker] *)

Module UpdateChecker.

(** [self]: the three fields [__init__] reads from the configuration. *)
Record checker : Type := {
  mc_version : json;
  fabric_version : json;
  mods : json
}.

(** The dict [find_compatible_updates] returns: [minecraft] and [fabric]
    with their [current_version] and [new_version], [mods], and
    [tested_versions]. *)
Record update_info : Type := {
  minecraft_current : json;
  minecraft_new : json;
  fabric_current : json;
  fabric_new : json;
  mods_found : list (json * json);
  mc_versions_tested : Z;
  fabric_versions_tested : Z
}.

(** The request [_fetch_json] sends for [url] when it is called without
    headers. *)
Definition get_request (url : string) : request :=
  {| req_url := url; req_headers := []; req_timeout := 10 |}.

Section Methods.

Variable py_repr : json -> string.
Variable remote : list request -> request -> response.
Variable self : checker.

Definition _fetch_json (url : string) (headers : list (string * json)) : M json :=
  fetch_json remote 10 url headers.

(** The loop over [hits] of [_search_modrinth_project]: [Some p] when it
    returns [p]. *)
Fixpoint match_hits (mod_name : json) (hits : list json) : res (option json) :=
  match hits with
  | [] => Ok None
  | hit :: rest =>
      do slug <- Py.get hit "slug" (JStr EmptyString);
      do slug_lower <- Py.lower slug;
      do name_lower <- Py.lower mod_name;
      if String.eqb slug_lower name_lower
      then (do p <- Py.get hit "project_id" JNull; Ok (Some p))
      else
        do title <- Py.get hit "title" (JStr EmptyString);
        do title_lower <- Py.lower title;
        do name_lower' <- Py.lower mod_name;
        if String.eqb title_lower name_lower'
        then (do p <- Py.get hit "project_id" JNull; Ok (Some p))
        else match_hits mod_name rest
  end.

Definition _search_modrinth_project (mod_name : json) : M json :=
  let search_url :=
    "https://api.modrinth.com/v2/search?query=" +:+ Py.format py_repr mod_name
    +:+ "&limit=5" in
  let headers := [("User-Agent", JStr "minecraft-server-update-checker/1.0")] in
  let! results := _fetch_json search_url headers in
  let! no_hits :=
    (if negb (Py.truthy results) then ret true
     else let! has := lift (Py.contains (JStr "hits") results) in ret (negb has)) in
  if (no_hits : bool) then ret JNull
  else
    let! hits := lift (Py.getitem results "hits") in
    if negb (Py.truthy hits) then ret JNull
    else
      let! hit_list := lift (Py.iter hits) in
      let! found := lift (match_hits mod_name hit_list) in
      match found with
      | Some p => ret p
      | None =>
          let! first := lift (Py.getitem0 hits) in
          lift (Py.get first "project_id" JNull)
      end.

Definition _get_mod_versions (project_id mc_version : json) (loader : string) : M json :=
  let versions_url :=
    "https://api.modrinth.com/v2/project/" +:+ Py.format py_repr project_id
    +:+ "/version" in
  let game_versions_param :=
    Url.quote ("[" +:+ Str.dquote +:+ Py.format py_repr mc_version
               +:+ Str.dquote +:+ "]") in
  let loaders_param :=
    Url.quote ("[" +:+ Str.dquote +:+ loader +:+ Str.dquote +:+ "]") in
  let url_with_params :=
    versions_url +:+ "?game_versions=" +:+ game_versions_param
    +:+ "&loaders=" +:+ loaders_param in
  let headers := [("User-Agent", JStr "minecraft-server-update-checker/1.0")] in
  let! versions := _fetch_json url_with_params headers in
  ret (if Py.truthy versions then versions else JArr []).

(** The body of the loop of [check_full_compatibility]; the locals it
    updates are [mod_details] and [missing_mods]. *)
Definition check_mod (mc_version : json) (a_mod : json)
  (locals : list (json * json) * list json)
  : M ((list (json * json) * list json) * flow Empty_set) :=
  let mod_details := fst locals in
  let missing_mods := snd locals in
  let! mod_name := lift (Py.get a_mod "name" JNull) in
  if negb (Py.truthy mod_name) then ret (locals, Next)
  else
    let! project_id := _search_modrinth_project mod_name in
    if negb (Py.truthy project_id)
    then ret ((mod_details, missing_mods ++ [mod_name]), Next)
    else
      let! versions := _get_mod_versions project_id mc_version "fabric" in
      if negb (Py.truthy versions)
      then ret ((mod_details, missing_mods ++ [mod_name]), Next)
      else
        let! latest := lift (Py.getitem0 versions) in
        let! latest_version := lift (Py.get latest "version_number" JNull) in
        if negb (Py.truthy latest_version)
        then ret ((mod_details, missing_mods ++ [mod_name]), Next)
        else
          let! files := lift (Py.get latest "files" (JArr [JObj []])) in
          let! file := lift (Py.getitem0 files) in
          let! url := lift (Py.get file "url" (JStr "N/A")) in
          let! mod_details' :=
            lift (Py.setitem mod_details mod_name
                    (JObj [("version", latest_version); ("url", url);
                           ("project_id", project_id)])) in
          ret ((mod_details', missing_mods), Next).

(** Returns [(all_compatible, mod_details, missing_mods)]; the argument
    [fabric_version] is not used. *)
Definition check_full_compatibility (mc_version fabric_version : json)
  : M (bool * list (json * json) * list json) :=
  let! mod_list := lift (Py.iter (mods self)) in
  let! r := for_loop mod_list (check_mod mc_version) ([], []) in
  let mod_details := fst (fst r) in
  let missing_mods := snd (fst r) in
  let all_compatible := (length missing_mods =? 0)%nat in
  ret (all_compatible, mod_details, missing_mods).

(** The loop that collects [newer_mc_versions], from the versions left
    to visit and the list collected so far. *)
Fixpoint collect_newer (versions newer_mc_versions : list json) : res (list json) :=
  match versions with
  | [] => Ok newer_mc_versions
  | v :: rest =>
      do id <- Py.getitem v "id";
      if Py.eq id (mc_version self) then Ok newer_mc_versions
      else
        do type <- Py.getitem v "type";
        if Py.eq type (JStr "release")
        then (do id' <- Py.getitem v "id";
              collect_newer rest (newer_mc_versions ++ [id']))
        else collect_newer rest newer_mc_versions
  end.

(** [versions = manifest.get('versions', [])] and the loop over it. *)
Definition newer_releases (manifest : json) : res (list json) :=
  do versions <- Py.get manifest "versions" (JArr []);
  do version_list <- Py.iter versions;
  collect_newer version_list [].

(** The loop that extracts [fabric_versions] from [loader_data]. *)
Fixpoint extract_versions (items : list json) : res (list json) :=
  match items with
  | [] => Ok []
  | item :: rest =>
      do loader_info <- Py.get item "loader" (JObj []);
      do version <- Py.get loader_info "version" JNull;
      do versions <- extract_versions rest;
      Ok (if Py.truthy version then version :: versions else versions)
  end.

Definition fabric_versions_of (loader_data : json) : res (list json) :=
  do items <- Py.iter loader_data;
  extract_versions items.

(** The body of the loop over [fabric_versions]. Of its console output
    the one expression that can raise is kept: the line for a rejected
    pair joins the first five missing names ([', '.join(missing_mods[:5])]).
    The [len(self.mods)] printed for an accepted pair is evaluated after
    [self.mods] was iterated, when it cannot raise. *)
Definition test_fabric_version (newer_mc_versions : list json) (i : nat)
  (mc_ver : json) (fabric_versions : list json) (j : nat) (fabric_ver : json)
  : M (unit * flow update_info) :=
  let! checked := check_full_compatibility mc_ver fabric_ver in
  let compatible := fst (fst checked) in
  let mod_details := snd (fst checked) in
  let missing_mods := snd checked in
  if (compatible : bool)
  then ret (tt, Return {|
         minecraft_current := mc_version self;
         minecraft_new := mc_ver;
         fabric_current := fabric_version self;
         fabric_new := fabric_ver;
         mods_found := mod_details;
         mc_versions_tested := Py.index newer_mc_versions mc_ver i + 1;
         fabric_versions_tested := Py.index fabric_versions fabric_ver j + 1 |})
  else
    let! _ := lift (Py.join ", " (firstn 5 missing_mods)) in
    ret (tt, Next).

Definition manifest_url : string :=
  "https://launchermeta.mojang.com/mc/game/version_manifest.json".

Definition loader_url (mc_ver : json) : string :=
  "https://meta.fabricmc.net/v2/versions/loader/" +:+ Py.format py_repr mc_ver.

(** The body of the loop over [newer_mc_versions]: every path through it
    ends in [break] or [return]. *)
Definition test_mc_version (newer_mc_versions : list json) (i : nat)
  (mc_ver : json) : M (unit * flow update_info) :=
  let! loader_data := _fetch_json (loader_url mc_ver) [] in
  if negb (Py.truthy loader_data) then ret (tt, Break)
  else
    let! fabric_versions := lift (fabric_versions_of loader_data) in
    match fabric_versions with
    | [] => ret (tt, Break)
    | _ =>
        let! r := for_loop (enumerate fabric_versions)
                    (fun jv _ => test_fabric_version newer_mc_versions i mc_ver
                                   fabric_versions (fst jv) (snd jv)) tt in
        match snd r with
        | Some info => ret (tt, Return info)
        | None => ret (tt, Break)
        end
    end.

(** [find_compatible_updates]: the header it prints holds
    [len(self.mods)], which raises before the first request when the
    configured [mods] has no length. *)
Definition find_compatible_updates : M (option update_info) :=
  let! _ := lift (Py.len (mods self)) in
  let! manifest := _fetch_json manifest_url [] in
  if negb (Py.truthy manifest) then ret None
  else
    let! newer_mc_versions := lift (newer_releases manifest) in
    match newer_mc_versions with
    | [] => ret None
    | _ =>
        let! r := for_loop (enumerate newer_mc_versions)
                    (fun iv _ => test_mc_version newer_mc_versions (fst iv) (snd iv)) tt in
        ret (snd r)
    end.

(** [check_minecraft_updates]: returns [(current_version,
    latest_version, newer_versions)]; the loop over the versions of the
    manifest is the one of [find_compatible_updates]. *)
Definition check_minecraft_updates : M (json * json * list json) :=
  let! manifest := _fetch_json manifest_url [] in
  if negb (Py.truthy manifest) then ret (mc_version self, JNull, [])
  else
    let! latest_release :=
      lift (do latest <- Py.get manifest "latest" (JObj []);
            Py.get latest "release" JNull) in
    let! latest_snapshot :=
      lift (do latest <- Py.get manifest "latest" (JObj []);
            Py.get latest "snapshot" JNull) in
    let! newer := lift (newer_releases manifest) in
    ret (mc_version self, latest_release, newer).

(** The loop of [check_fabric_updates] that collects [newer_versions]:
    the available versions before the current one. *)
Fixpoint before_current (current : json) (available_versions : list json)
  : list json :=
  match available_versions with
  | [] => []
  | ver :: rest =>
      if Py.eq ver current then [] else ver :: before_current current rest
  end.

(** [check_fabric_updates(target_mc_version)]: returns
    [(current_version, latest_version, newer_versions)]. *)
Definition check_fabric_updates (target_mc_version : json)
  : M (json * json * list json) :=
  let mc_ver := Py.or_else target_mc_version (mc_version self) in
  let! loader_data := _fetch_json (loader_url mc_ver) [] in
  if negb (Py.truthy loader_data) then ret (fabric_version self, JNull, [])
  else
    let! available_versions := lift (fabric_versions_of loader_data) in
    match available_versions with
    | [] => ret (fabric_version self, JNull, [])
    | latest_version :: _ =>
        ret (fabric_version self, latest_version,
             before_current (fabric_version self) available_versions)
    end.

End Methods.

End UpdateChecker.

(** ** File operations *)

(** [try: body except Exception as e: handler]. *)
Definition try_except {A : Type} (body : M A) (handler : exn -> M A) : M A :=
  fun w =>
    match body w with
    | (Ok a, w') => (Ok a, w')
    | (Raise e, w') => handler e w'
    end.

Definition say (l : line) : M unit := fun w => (Ok tt, print l w).

Section FileSystem.

(** Whether the operating system refuses an operation on the files as
    they are. *)
Variable refused : gmap string node -> fs_op -> bool.

(** [os.path.join] and [os.path.basename] of the platform. *)
Variable path_join : string -> string -> string.
Variable path_basename : string -> string.

Definition os_path_exists (p : json) : M bool :=
  let! path := lift (Py.path p) in
  fun w => (Ok (match files w !! path with Some _ => true | None => false end), w).

Definition os_path_getsize (p : json) : M nat :=
  let! path := lift (Py.path p) in
  fun w =>
    match files w !! path with
    | Some (File content) => (Ok (String.length content), w)
    | Some Dir => (Ok 0%nat, w)
    | None => (Raise OSError, w)
    end.

(** [os.remove(p)]: only a file can be removed. *)
Definition os_remove (p : json) : M unit :=
  let! path := lift (Py.path p) in
  fun w =>
    match files w !! path with
    | Some (File _) =>
        if refused (files w) (Remove path) then (Raise OSError, w)
        else (Ok tt, set_files (delete path (files w)) w)
    | _ => (Raise OSError, w)
    end.

(** [os.makedirs(path, exist_ok=True)]. *)
Definition os_makedirs (path : string) : M unit :=
  fun w =>
    match files w !! path with
    | Some Dir => (Ok tt, w)
    | Some (File _) => (Raise OSError, w)
    | None =>
        if refused (files w) (MakeDirs path) then (Raise OSError, w)
        else (Ok tt, set_files (<[path := Dir]> (files w)) w)
    end.

(** [open(path, 'wb')]: the file is created, or emptied if it exists. *)
Definition open_wb (path : string) : M unit :=
  fun w =>
    match files w !! path with
    | Some Dir => (Raise OSError, w)
    | _ =>
        if refused (files w) (OpenWrite path) then (Raise OSError, w)
        else (Ok tt, set_files (<[path := File EmptyString]> (files w)) w)
    end.

(** [shutil.copyfileobj(response, out_file)] and the closing of both:
    the bytes that arrive are left in the file; the call raises when the
    connection broke, and returns when the body ended or the peer closed
    the connection early, which it cannot tell apart. *)
Definition copyfileobj (body : string) (how : ending) (path : string) : M unit :=
  fun w =>
    let w' := set_files (<[path := File (received body how)]> (files w)) w in
    match how with
    | Broken _ => (Raise OSError, w')
    | Whole | Closed _ => (Ok tt, w')
    end.

(** [shutil.copy2(src, dst)]. *)
Definition shutil_copy2 (src dst : json) : M unit :=
  let! s := lift (Py.path src) in
  let! d := lift (Py.path dst) in
  fun w =>
    match files w !! s with
    | Some (File content) =>
        let target :=
          match files w !! d with
          | Some Dir => path_join d (path_basename s)
          | _ => d
          end in
        if String.eqb s target || refused (files w) (Copy s target) then (Raise OSError, w)
        else (Ok tt, set_files (<[target := File content]> (files w)) w)
    | _ => (Raise OSError, w)
    end.

(** [with open(path, 'w') as f: f.write(content)]. *)
Definition write_text (path content : string) : M unit :=
  fun w =>
    match files w !! path with
    | Some Dir => (Raise OSError, w)
    | _ =>
        if refused (files w) (WriteText path) then (Raise OSError, w)
        else (Ok tt, set_files (<[path := File content]> (files w)) w)
    end.

End FileSystem.

(** ** [DownloadManager] *)

Module DownloadManager.

(** [self]: the fields [__init__] sets. *)
Record manager : Type := {
  config : json;
  mappings : json;
  cache_file : string;
  cache : json;
  minecraft_version : json;
  curseforge_api_key : option string
}.

Section Methods.

Variable py_repr : json -> string.
(** [template.format] with keyword arguments, for a [str] template. *)
Variable str_format : string -> list (string * json) -> res string.
(** [json.dumps(v, indent=2, ensure_ascii=False)]. *)
Variable json_dumps : json -> string.
Variable path_join : string -> string -> string.
Variable path_dirname : string -> string.
Variable path_basename : string -> string.
Variable remote : list request -> request -> response.
(** The answer to the request of a file, given the requests made before. *)
Variable transfers : list request -> request -> transfer.
Variable refused : gmap string node -> fs_op -> bool.
Variable self : manager.

(** [urllib.request.Request(url)] takes the text of its argument. *)
Definition _fetch_json (url : json) (headers : list (string * json)) : M json :=
  fetch_json remote 30 (Py.format py_repr url) headers.

(** [urlopen(req, timeout=60)] of [_download_file]. *)
Definition urlopen_file (url : json) : M (string * ending) :=
  fun w =>
    let req := {| req_url := Py.format py_repr url;
                  req_headers := [("User-Agent", JStr "minecraft-server-manager/1.0")];
                  req_timeout := 60 |} in
    let w' := log_request req w in
    match transfers (requests w) req with
    | Refused msg => (Raise OSError, w')
    | Stream body how => (Ok (body, how), w')
    end.

(** The body of the [try] of [_download_file]. *)
Definition download_try (url destination : json) : M bool :=
  let! path := lift (Py.path destination) in
  let! _ := os_makedirs refused
              (if String.eqb (path_dirname path) EmptyString then "."
               else path_dirname path) in
  let! _ := say (DownloadingLine (Py.format py_repr url)) in
  let! response := urlopen_file url in
  let! _ := open_wb refused path in
  let! _ := copyfileobj (fst response) (snd response) path in
  let! file_size := os_path_getsize destination in
  let! _ := say (DownloadedLine path file_size) in
  ret true.

(** The handler of [_download_file]. *)
Definition download_except (destination : json) (e : exn) : M bool :=
  let! _ := say DownloadErrorLine in
  let! there := os_path_exists destination in
  let! _ := (if (there : bool) then os_remove refused destination else ret tt) in
  ret false.

Definition _download_file (url destination : json) : M bool :=
  try_except (download_try url destination) (download_except destination).

(** [template.format] with keyword arguments: only a [str] has the
    method. *)
Definition format_template (template : json) (kwargs : list (string * json))
  : res json :=
  match template with
  | JStr t => do s <- str_format t kwargs; Ok (JStr s)
  | _ => Raise AttributeError
  end.

(** [os.path.join(a, b)]. *)
Definition os_path_join (a b : json) : res json :=
  match a, b with
  | JStr x, JStr y => Ok (JStr (path_join x y))
  | _, _ => Raise TypeError
  end.

(** [self.mappings['sources'][source]] for a literal [source]. *)
Definition source_config (source : string) : res json :=
  do sources <- Py.getitem (mappings self) "sources";
  Py.getitem sources source.

(** One round of the loop over the manifest's versions. *)
Definition minecraft_candidate (source_config version v : json)
  : M (unit * flow (json * json)) :=
  let! id := lift (Py.getitem v "id") in
  if Py.eq id version then
    let! url := lift (Py.getitem v "url") in
    let! version_info := _fetch_json url [] in
    if Py.truthy version_info then
      let! server_url :=
        lift (do downloads <- Py.get version_info "downloads" (JObj []);
              do server <- Py.get downloads "server" (JObj []);
              Py.get server "url" JNull) in
      if Py.truthy server_url then
        let! filename := lift (Py.getitem source_config "filename_pattern") in
        ret (tt, Return (server_url, filename))
      else ret (tt, Next)
    else ret (tt, Next)
  else ret (tt, Next).

Definition _resolve_minecraft_url (version : json) : M (option (json * json)) :=
  let! source_config := lift (source_config "mojang") in
  let! manifest_url := lift (Py.getitem source_config "manifest_url") in
  let! manifest := _fetch_json manifest_url [] in
  if negb (Py.truthy manifest) then ret None
  else
    let! versions :=
      lift (do vs <- Py.get manifest "versions" (JArr []); Py.iter vs) in
    let! r := for_loop versions
                (fun v _ => minecraft_candidate source_config version v) tt in
    ret (snd r).

Definition _resolve_fabric_url (minecraft_version fabric_version : json)
  : res (option (json * json)) :=
  do source_config <- source_config "fabric";
  do template <- Py.getitem source_config "manifest_url";
  do url <- format_template template
              [("minecraft_version", minecraft_version);
               ("version", fabric_version)];
  do filename <- Py.getitem source_config "filename_pattern";
  Ok (Some (url, filename)).

(** One round of the loop over the versions of a Modrinth project. *)
Definition modrinth_candidate (project_id version ver_info : json)
  : res (unit * flow (json * json * json)) :=
  do number <- Py.get ver_info "version_number" JNull;
  if Py.eq number version then
    do loaders <- Py.get ver_info "loaders" (JArr []);
    do game_versions <- Py.get ver_info "game_versions" (JArr []);
    do fabric <- Py.contains (JStr "fabric") loaders;
    do current <- (if (fabric : bool)
                   then Py.contains (minecraft_version self) game_versions
                   else Ok false);
    if (current : bool) then
      do files <- Py.get ver_info "files" (JArr []);
      if Py.truthy files then
        do primary_file <- Py.getitem0 files;
        do download_url <- Py.get primary_file "url" JNull;
        let filename := JStr (Py.format py_repr project_id +:+ ".jar") in
        if Py.truthy download_url
        then Ok (tt, Return (download_url, filename, project_id))
        else Ok (tt, Next)
      else Ok (tt, Next)
    else Ok (tt, Next)
  else Ok (tt, Next).

Definition _resolve_modrinth_url (mod_name version slug : json)
  : M (option (json * json * json)) :=
  let! source_config := lift (source_config "modrinth") in
  let! project_mappings :=
    lift (Py.get source_config "project_mappings" (JObj [])) in
  let! project_id :=
    lift (Py.get_key project_mappings mod_name (Py.or_else slug mod_name)) in
  let! manifest_url :=
    lift (do template <- Py.getitem source_config "manifest_url";
          format_template template [("project_id", project_id)]) in
  let! user_agent :=
    lift (Py.get source_config "user_agent" (JStr "minecraft-server-manager/1.0")) in
  let! versions := _fetch_json manifest_url [("User-Agent", user_agent)] in
  if negb (Py.truthy versions) then ret None
  else
    let! infos := lift (Py.iter versions) in
    let! r := for_loop infos
                (fun ver_info _ => lift (modrinth_candidate project_id version ver_info))
                tt in
    ret (snd r).

Definition _resolve_custom_url (mod_config : json) : res (option (json * json)) :=
  do download_url <- Py.get mod_config "download_url" JNull;
  if negb (Py.truthy download_url) then Ok None
  else
    match download_url with
    | JStr u =>
        let filename := Str.split_head "?" (Str.split_last "/" u) in
        if Str.endswith ".jar" filename
        then Ok (Some (download_url, JStr filename))
        else
          do name <- Py.get mod_config "name" (JStr "mod");
          Ok (Some (download_url, JStr (Py.format py_repr name +:+ ".jar")))
    | _ => Raise AttributeError
    end.

(** [any(x in v for v in vs)]. *)
Fixpoint any_contains (x : json) (vs : list json) : res bool :=
  match vs with
  | [] => Ok false
  | v :: vs' =>
      do found <- Py.contains x v;
      if (found : bool) then Ok true else any_contains x vs'
  end.

(** [r and 'data' in r]. *)
Definition has_data (r : json) : res bool :=
  if Py.truthy r then Py.contains (JStr "data") r else Ok false.

(** The lookup of [_resolve_curseforge_url] by file id. *)
Definition curseforge_file (source_config : json) (headers : list (string * json))
  (mod_name project_id file_id : json) : M (option (json * json)) :=
  let! api_base := lift (Py.getitem source_config "api_base") in
  let file_url :=
    JStr (Py.format py_repr api_base +:+ "/mods/" +:+ Py.format py_repr project_id
          +:+ "/files/" +:+ Py.format py_repr file_id) in
  let! file_info := _fetch_json file_url headers in
  let! found := lift (has_data file_info) in
  if (found : bool) then
    let! file_data := lift (Py.getitem file_info "data") in
    let! download_url := lift (Py.get file_data "downloadUrl" JNull) in
    let! filename :=
      lift (Py.get file_data "fileName"
              (JStr (Py.format py_repr mod_name +:+ ".jar"))) in
    if Py.truthy download_url then ret (Some (download_url, filename))
    else ret None
  else ret None.

(** One round of the loop over the files of a CurseForge project. *)
Definition curseforge_candidate (mod_name version file_info : json)
  : res (unit * flow (json * json)) :=
  do id <- Py.get file_info "id" (JStr EmptyString);
  let file_id_str := JStr (Py.format py_repr id) in
  do display_name <- Py.get file_info "displayName" (JStr EmptyString);
  do named <- (if Py.eq version file_id_str then Ok true
               else Py.contains version display_name);
  if (named : bool) then
    do listed <- Py.get file_info "gameVersions" (JArr []);
    let game_versions := Py.or_else listed (JArr []) in
    do elements <- Py.iter game_versions;
    do has_fabric <- any_contains (JStr "Fabric") elements;
    do has_mc_version <- Py.contains (minecraft_version self) game_versions;
    if (has_fabric && has_mc_version)%bool then
      do download_url <- Py.get file_info "downloadUrl" JNull;
      do filename <- Py.get file_info "fileName"
                       (JStr (Py.format py_repr mod_name +:+ ".jar"));
      if Py.truthy download_url then Ok (tt, Return (download_url, filename))
      else Ok (tt, Next)
    else Ok (tt, Next)
  else Ok (tt, Next).

(** The search of [_resolve_curseforge_url] in the list of files. *)
Definition curseforge_search (source_config : json) (headers : list (string * json))
  (mod_name version project_id : json) : M (option (json * json)) :=
  let! files_url :=
    lift (do template <- Py.getitem source_config "files_url";
          format_template template [("project_id", project_id)]) in
  let! files_response := _fetch_json files_url headers in
  let! found := lift (has_data files_response) in
  if negb found then ret None
  else
    let! files := lift (do data <- Py.getitem files_response "data"; Py.iter data) in
    let! r := for_loop files
                (fun file_info _ => lift (curseforge_candidate mod_name version file_info))
                tt in
    ret (snd r).

Definition _resolve_curseforge_url (mod_name version project_id file_id : json)
  : M (option (json * json)) :=
  match curseforge_api_key self with
  | None => let! _ := say ApiKeyLine in ret None
  | Some key =>
      if String.eqb key EmptyString then let! _ := say ApiKeyLine in ret None
      else
        let! source_config := lift (source_config "curseforge") in
        let headers := [("Accept", JStr "application/json"); ("x-api-key", JStr key)] in
        let! direct :=
          (if Py.truthy file_id
           then curseforge_file source_config headers mod_name project_id file_id
           else ret None) in
        match direct with
        | Some found => ret (Some found)
        | None => curseforge_search source_config headers mod_name version project_id
        end
  end.

(** [self.mappings['sources'][source]['target_dir']]. *)
Definition target_dir_of (source : json) : res json :=
  do sources <- Py.getitem (mappings self) "sources";
  do source_config <- Py.getitem_key sources source;
  Py.getitem source_config "target_dir".

(** The entry of the engine or of the loader. *)
Definition single_entry (type name : string)
  (version url filename target_dir destination : json) : json :=
  JObj [("type", JStr type); ("name", JStr name); ("version", version);
        ("url", url); ("filename", filename); ("target_dir", target_dir);
        ("destination", destination)].

Definition add_single (key type name : string) (version source : json)
  (result : option (json * json)) (downloads : list (string * json))
  : res (list (string * json)) :=
  match result with
  | Some (url, filename) =>
      do target_dir <- target_dir_of source;
      do destination <- os_path_join target_dir filename;
      Ok (Py.set_key downloads key
            (single_entry type name version url filename target_dir destination))
  | None => Ok downloads
  end.

Definition add_minecraft (downloads : list (string * json))
  : M (list (string * json)) :=
  let! minecraft_config := lift (Py.get (config self) "minecraft" (JObj [])) in
  if Py.truthy minecraft_config then
    let! version := lift (Py.get minecraft_config "version" JNull) in
    let! source := lift (Py.get minecraft_config "source" (JStr "mojang")) in
    let! result := _resolve_minecraft_url version in
    lift (add_single "minecraft" "minecraft" "Minecraft Server" version source
            result downloads)
  else ret downloads.

Definition add_fabric (downloads : list (string * json))
  : M (list (string * json)) :=
  let! fabric_config := lift (Py.get (config self) "fabric" (JObj [])) in
  if Py.truthy fabric_config then
    let! version := lift (Py.get fabric_config "version" JNull) in
    let! source := lift (Py.get fabric_config "source" (JStr "fabric")) in
    let! result := lift (_resolve_fabric_url (minecraft_version self) version) in
    lift (add_single "fabric" "fabric" "Fabric Loader" version source
            result downloads)
  else ret downloads.

(** The branch on [source] in the loop over the mods: [None] where the
    round [continue]s, else [result] and [resolved_slug]. *)
Definition resolve_mod (a_mod mod_name version source slug : json)
  : M (option (option (json * json) * json)) :=
  if Py.eq source (JStr "modrinth") then
    let! modrinth_result := _resolve_modrinth_url mod_name version slug in
    match modrinth_result with
    | Some (url, filename, resolved_slug) =>
        ret (Some (Some (url, filename), resolved_slug))
    | None => ret (Some (None, JNull))
    end
  else if Py.eq source (JStr "curseforge") then
    let! project_id := lift (Py.get a_mod "project_id" JNull) in
    let! file_id := lift (Py.get a_mod "file_id" JNull) in
    if Py.truthy project_id then
      let! curseforge_result :=
        _resolve_curseforge_url mod_name version project_id file_id in
      match curseforge_result with
      | Some found =>
          ret (Some (Some found, JStr ("cf_" +:+ Py.format py_repr project_id)))
      | None => ret (Some (None, JNull))
      end
    else ret None
  else if Py.eq source (JStr "custom") then
    let! result := lift (_resolve_custom_url a_mod) in
    ret (Some (result, JNull))
  else ret (Some (None, JNull)).

(** The destinations of a mod, by its environment. *)
Definition destinations_for (environment base_target_dir filename : json)
  : res (list json) :=
  do server <-
    (if Py.in_list environment [JStr "server"; JStr "both"]
     then do p <- os_path_join base_target_dir filename; Ok [p]
     else Ok []);
  do client <-
    (if Py.in_list environment [JStr "client"; JStr "both"]
     then do client_dir <- os_path_join base_target_dir (JStr "client");
          do p <- os_path_join client_dir filename; Ok [p]
     else Ok []);
  Ok (server ++ client).

Definition mod_entry (mod_name version url filename base_target_dir environment : json)
  (destinations : list json) (resolved_slug : json) : json :=
  JObj [("type", JStr "mod"); ("name", mod_name); ("version", version);
        ("url", url); ("filename", filename); ("target_dir", base_target_dir);
        ("environment", environment); ("destinations", JArr destinations);
        ("slug", resolved_slug)].

(** One round of the loop over the mods. *)
Definition add_mod (a_mod : json) (downloads : list (string * json))
  : M (list (string * json) * flow unit) :=
  let! mod_name := lift (Py.get a_mod "name" JNull) in
  let! version := lift (Py.get a_mod "version" JNull) in
  let! source := lift (Py.get a_mod "source" (JStr "modrinth")) in
  let! slug := lift (Py.get a_mod "slug" JNull) in
  let! environment := lift (Py.get a_mod "environment" (JStr "both")) in
  if negb (Py.truthy version) then ret (downloads, Next)
  else
    let! resolved := resolve_mod a_mod mod_name version source slug in
    match resolved with
    | Some (Some (url, filename), resolved_slug) =>
        let! base_target_dir := lift (target_dir_of source) in
        let! destinations :=
          lift (destinations_for environment base_target_dir filename) in
        ret (Py.set_key downloads ("mod_" +:+ Py.format py_repr mod_name)
               (mod_entry mod_name version url filename base_target_dir
                  environment destinations resolved_slug),
             Next)
    | _ => ret (downloads, Next)
    end.

Definition build_download_list : M (list (string * json)) :=
  let! downloads := add_minecraft [] in
  let! downloads := add_fabric downloads in
  let! mods_config := lift (Py.get (config self) "mods" (JArr [])) in
  if Py.truthy mods_config then
    let! _ := lift (Py.len mods_config) in
    let! mods := lift (Py.iter mods_config) in
    let! r := for_loop mods add_mod downloads in
    ret (fst r)
  else ret downloads.

(** [_save_cache] of the value [self.cache] holds. *)
Definition _save_cache (cache : json) : M unit :=
  try_except
    (let! _ := write_text refused (cache_file self) (json_dumps cache) in
     say CacheSavedLine)
    (fun _ => say CacheWarningLine).

(** The removal of an old version at [dest]. *)
Definition remove_old (dest : json) : M unit :=
  let! there := os_path_exists dest in
  if (there : bool) then
    let! old_size := os_path_getsize dest in
    let! _ := say (RemovingOldLine (Py.format py_repr dest) old_size) in
    try_except (os_remove refused dest) (fun _ => say RemoveWarningLine)
  else ret tt.

(** The copy of the downloaded file to a further destination. *)
Definition copy_to (first_dest dest : json) : M unit :=
  try_except
    (let! _ := say (CopyingLine dest) in
     shutil_copy2 refused path_join path_basename first_dest dest)
    (fun _ => say (CopyWarningLine dest)).

(** The branch of [download_all] for a mod with [destinations]; the
    counters are [success_count] and [fail_count]. *)
Definition download_mod (item : json) (counts : Z * Z) : M (Z * Z) :=
  let! destinations := lift (Py.getitem item "destinations") in
  let! slug := lift (Py.get item "slug" JNull) in
  let! _ := (if Py.truthy slug
             then let! dests := lift (Py.iter destinations) in
                  for_each dests remove_old
             else ret tt) in
  let! first_dest := lift (Py.getitem0 destinations) in
  let! url := lift (Py.getitem item "url") in
  let! done := _download_file url first_dest in
  if (done : bool) then
    let! others := lift (Py.rest destinations) in
    let! _ := for_each others (copy_to first_dest) in
    ret (fst counts + 1, snd counts)
  else ret (fst counts, snd counts + 1).

(** The branch of [download_all] for an entry with one [destination]. *)
Definition download_single (item : json) (counts : Z * Z) : M (Z * Z) :=
  let! destination := lift (Py.get item "destination" JNull) in
  if negb (Py.truthy destination) then
    let! _ := say NoDestinationLine in
    ret (fst counts, snd counts + 1)
  else
    let! there := os_path_exists destination in
    if (there : bool) then
      let! file_size := os_path_getsize destination in
      let! _ := say (FileExistsLine (Py.format py_repr destination) file_size) in
      let! _ := say SkippingLine in
      ret (fst counts + 1, snd counts)
    else
      let! url := lift (Py.getitem item "url") in
      let! done := _download_file url destination in
      if (done : bool) then ret (fst counts + 1, snd counts)
      else ret (fst counts, snd counts + 1).

(** [item.get('type') == 'mod' and 'destinations' in item]. *)
Definition has_destinations (item : json) : res bool :=
  do type <- Py.get item "type" JNull;
  if Py.eq type (JStr "mod") then Py.contains (JStr "destinations") item
  else Ok false.

(** One round of the loop of [download_all]. *)
Definition download_item (item : json) (counts : Z * Z) : M (Z * Z) :=
  let! _ := lift (Py.get item "environment" JNull) in
  let! _ := lift (Py.getitem item "name") in
  let! _ := lift (Py.getitem item "version") in
  let! several := lift (has_destinations item) in
  if (several : bool) then download_mod item counts
  else download_single item counts.

(** [download_all(download_list)]; the result is [None] where there is
    nothing to download, else the two counters of the summary. *)
Definition download_all (download_list : json) : M (option (Z * Z)) :=
  let! download_list :=
    (match download_list with
     | JNull => let! built := build_download_list in ret (JObj built)
     | _ => ret download_list
     end) in
  if negb (Py.truthy download_list) then ret None
  else
    let! entries := lift (Py.items download_list) in
    let! r := for_loop (R := unit) entries
                (fun entry counts =>
                   let! counts' := download_item (snd entry) counts in
                   ret (counts', Next))
                (0, 0) in
    let! _ := _save_cache
                (JObj [("minecraft_version", minecraft_version self);
                       ("downloads", download_list)]) in
    ret (Some (fst r)).

Definition download_from_cache : M (option (Z * Z)) :=
  let! valid := lift (if Py.truthy (cache self)
                      then Py.contains (JStr "downloads") (cache self)
                      else Ok false) in
  if negb valid then download_all JNull
  else
    let! download_list := lift (Py.getitem (cache self) "downloads") in
    let! _ := lift (Py.get (cache self) "minecraft_version" JNull) in
    let! _ := lift (Py.len download_list) in
    download_all download_list.

End Methods.

End DownloadManager.

(** ** The [.env] loader ([bin/env_loader.py]) *)

Module EnvLoader.

(** [c.isspace()] for a code point below 256. *)
Definition is_space (c : ascii) : bool :=
  let n := N_of_ascii c in
  (((9 <=? n) && (n <=? 13)) || ((28 <=? n) && (n <=? 32))
   || (n =? 133) || (n =? 160))%N.

Fixpoint lstrip (s : string) : string :=
  match s with
  | EmptyString => EmptyString
  | String c s' => if is_space c then lstrip s' else s
  end.

Fixpoint rstrip (s : string) : string :=
  match s with
  | EmptyString => EmptyString
  | String c s' =>
      match rstrip s' with
      | EmptyString => if is_space c then EmptyString else String c EmptyString
      | r => String c r
      end
  end.

(** [s.strip()]. *)
Definition strip (s : string) : string := rstrip (lstrip s).

(** [s.startswith(c)] and [s.endswith(c)] for a one-character [c]. *)
Definition startswith (c : ascii) (s : string) : bool :=
  match s with
  | EmptyString => false
  | String a _ => Ascii.eqb a c
  end.

Fixpoint endswith (c : ascii) (s : string) : bool :=
  match s with
  | EmptyString => false
  | String a EmptyString => Ascii.eqb a c
  | String _ s' => endswith c s'
  end.

(** [c in s] for a one-character [c]. *)
Fixpoint has (c : ascii) (s : string) : bool :=
  match s with
  | EmptyString => false
  | String a s' => Ascii.eqb a c || has c s'
  end.

(** [s.split(c, 1)] on a string that holds [c]: the text before the
    first [c] and the text after it. *)
Fixpoint split_once (c : ascii) (s : string) : string * string :=
  match s with
  | EmptyString => (EmptyString, EmptyString)
  | String a s' =>
      if Ascii.eqb a c then (EmptyString, s')
      else (String a (fst (split_once c s')), snd (split_once c s'))
  end.

(** [s[1:-1]]. *)
Definition inner (s : string) : string :=
  String.substring 1 (String.length s - 2) s.

(** The double and the single quote. *)
Definition dq : ascii := ascii_of_N 34.
Definition sq : ascii := ascii_of_N 39.

(** [env_vars]: a dict from [str] to [str], in insertion order. *)
Fixpoint assign (env_vars : list (string * string)) (key value : string)
  : list (string * string) :=
  match env_vars with
  | [] => [(key, value)]
  | (k, v) :: rest =>
      if String.eqb k key then (k, value) :: rest
      else (k, v) :: assign rest key value
  end.

Fixpoint lookup (key : string) (env_vars : list (string * string)) : option string :=
  match env_vars with
  | [] => None
  | (k, v) :: rest => if String.eqb k key then Some v else lookup key rest
  end.

(** The body of the loop over the lines of the file. *)
Definition parse_line (line : string) (env_vars : list (string * string))
  : list (string * string) :=
  let line := strip line in
  if String.eqb line EmptyString || startswith "#" line then env_vars
  else if has "=" line then
    let key := strip (fst (split_once "=" line)) in
    let value := strip (snd (split_once "=" line)) in
    let value :=
      if startswith dq value && endswith dq value then inner value
      else if startswith sq value && endswith sq value then inner value
      else value in
    let value :=
      if has "#" value && negb (has dq line || has sq line)
      then strip (Str.split_head "#" value)
      else value in
    assign env_vars key value
  else env_vars.

Section Process.

(** The lines the text file iterator yields for the bytes of a file, up
    to the place where decoding fails, if it does. *)
Variable text_lines : string -> list string.
(** Whether [open] fails on a file that is there. *)
Variable unreadable : gmap string node -> string -> bool.
(** The exception [os.environ[key] = value] raises, if any (an empty
    name, a NUL character). *)
Variable putenv_error : string -> string -> option exn.

(** [load_env_file(env_file)]: an exception while the file is read ends
    the loop and keeps what was read before. *)
Definition load_env_file (fs : gmap string node) (env_file : string)
  : list (string * string) :=
  match fs !! env_file with
  | Some (File content) =>
      if unreadable fs env_file then []
      else fold_left (fun env_vars line => parse_line line env_vars)
             (text_lines content) []
  | _ => []
  end.

(** [get_env(key, default, env_file)], given [os.environ]. *)
Definition get_env (fs : gmap string node) (environ : gmap string string)
  (key : string) (default : option string) (env_file : string) : option string :=
  match environ !! key with
  | Some value => Some value
  | None =>
      match lookup key (load_env_file fs env_file) with
      | Some value => Some value
      | None => default
      end
  end.

(** The loop of [load_dotenv] over [env_vars.items()], on [os.environ]. *)
Fixpoint set_all (override : bool) (items : list (string * string))
  (environ : gmap string string) : res unit * gmap string string :=
  match items with
  | [] => (Ok tt, environ)
  | (key, value) :: rest =>
      if override || match environ !! key with Some _ => false | None => true end
      then match putenv_error key value with
           | Some e => (Raise e, environ)
           | None => set_all override rest (<[key := value]> environ)
           end
      else set_all override rest environ
  end.

(** [load_dotenv(env_file, override)]. *)
Definition load_dotenv (fs : gmap string node) (environ : gmap string string)
  (env_file : string) (override : bool) : res unit * gmap string string :=
  set_all override (load_env_file fs env_file) environ.

End Process.

End EnvLoader.

(** ** Sample registries and configurations *)

Module Scenario.

(** [repr] is never consulted on the strings of these samples. *)
Definition repr (v : json) : string := "?".

Definition start : world := {| requests := []; console := []; files := ∅ |}.

Definition release (id : string) : json :=
  JObj [("id", JStr id); ("type", JStr "release")].

Definition manifest : json :=
  JObj [("versions", JArr [release "1.21.2"; release "1.21.1"; release "1.21"])].

Definition loaders : json :=
  JArr [JObj [("loader", JObj [("version", JStr "0.16.1")])];
        JObj [("loader", JObj [("version", JStr "0.16.0")])]].

Definition hits : json :=
  JObj [("hits", JArr [JObj [("slug", JStr "lithium"); ("project_id", JStr "P1")]])].

Definition mod_versions : json :=
  JArr [JObj [("version_number", JStr "1.0");
              ("files", JArr [JObj [("url", JStr "https://cdn.example/lithium.jar")]])]].

(** The configuration: Minecraft 1.21.1 with one mod. *)
Definition self : UpdateChecker.checker :=
  {| UpdateChecker.mc_version := JStr "1.21.1";
     UpdateChecker.fabric_version := JStr "0.15.0";
     UpdateChecker.mods := JArr [JObj [("name", JStr "Lithium")]] |}.

(** The same with a mod entry whose name is the empty string. *)
Definition self_unnamed : UpdateChecker.checker :=
  {| UpdateChecker.mc_version := JStr "1.21.1";
     UpdateChecker.fabric_version := JStr "0.15.0";
     UpdateChecker.mods :=
       JArr [JObj [("name", JStr EmptyString); ("slug", JStr "lithium")]] |}.

(** The configuration of a server that is two releases behind. *)
Definition self_old : UpdateChecker.checker :=
  {| UpdateChecker.mc_version := JStr "1.21";
     UpdateChecker.fabric_version := JStr "0.15.0";
     UpdateChecker.mods := JArr [JObj [("name", JStr "Lithium")]] |}.

(** A loader registry that has nothing for any engine version. *)
Definition no_loader_remote (history : list request) (r : request) : response :=
  if String.eqb (req_url r) UpdateChecker.manifest_url then Payload manifest
  else HttpError 404.

(** Registries where the loader supports every engine version but the
    newest, 1.21.2, and the mod is there for all of them. *)
Definition newest_unsupported_remote (history : list request) (r : request)
  : response :=
  let url := req_url r in
  if String.eqb url UpdateChecker.manifest_url then Payload manifest
  else if String.eqb url "https://meta.fabricmc.net/v2/versions/loader/1.21.2"
  then Payload (JArr [])
  else if String.prefix "https://meta.fabricmc.net/v2/versions/loader/" url
  then Payload loaders
  else if String.prefix "https://api.modrinth.com/v2/search" url
  then Payload hits
  else if String.prefix "https://api.modrinth.com/v2/project/" url
  then Payload mod_versions
  else Failure "no route to host".

(** Registries where the mod's versions for 1.21.2 appear only after the
    first four requests of the run. *)
Definition late_mod_remote (history : list request) (r : request) : response :=
  let url := req_url r in
  if String.eqb url UpdateChecker.manifest_url then Payload manifest
  else if String.prefix "https://meta.fabricmc.net/v2/versions/loader/" url
  then Payload loaders
  else if String.prefix "https://api.modrinth.com/v2/search" url
  then Payload hits
  else if String.prefix "https://api.modrinth.com/v2/project/" url
  then (if (length history <? 5)%nat then Payload (JArr []) else Payload mod_versions)
  else Failure "no route to host".


(** A registry that answers no request in time. *)
Definition silent_remote (history : list request) (r : request) : response :=
  Failure "timed out".

(** A file server whose transfers break off after four bytes. *)
Definition cut_transfers (history : list request) (r : request) : transfer :=
  Stream "0123456789" (Broken 4).

(** A file server whose peer closes the connection after four bytes. *)
Definition short_transfers (history : list request) (r : request) : transfer :=
  Stream "0123456789" (Closed 4).

(** An operating system that refuses nothing. *)
Definition permissive (fs : gmap string node) (op : fs_op) : bool := false.

(** An operating system that lets no file be removed. *)
Definition keeping (fs : gmap string node) (op : fs_op) : bool :=
  match op with
  | Remove _ => true
  | _ => false
  end.

(** [os.path.dirname] on the sample paths, which all lie in [mods]. *)
Definition dirname (path : string) : string := "mods".

(** A file server that delivers. *)
Definition whole_transfers (history : list request) (r : request) : transfer :=
  Stream "new" Whole.

Definition join (a b : string) : string := a +:+ "/" +:+ b.

Definition basename (path : string) : string := Str.split_last "/" path.

(** A world where an earlier run left a mod in place. *)
Definition stocked : world :=
  {| requests := []; console := [];
     files := <[("mods" : string) := Dir]>
                {[ ("mods/a.jar" : string) := File "old" ]} |}.

(** The plan entry of a server-side mod. *)
Definition mod_item : json :=
  DownloadManager.mod_entry (JStr "a") (JStr "1.0")
    (JStr "https://example.org/a.jar") (JStr "a.jar") (JStr "mods")
    (JStr "server") [JStr "mods/a.jar"] JNull.

(** Templates without replacement fields. *)
Definition plain_format (template : string) (kwargs : list (string * json))
  : res string := Ok template.

(** A configured mod with a direct download. *)
Definition custom_mod (name : string) (environment : option string) : json :=
  JObj ([("name", JStr name); ("version", JStr "1.0"); ("source", JStr "custom");
         ("download_url", JStr ("https://example.org/" +:+ name +:+ ".jar"))]
        ++ match environment with
           | Some e => [("environment", JStr e)]
           | None => []
           end).

(** A configuration of three mods: one without environment, one for the
    client, one with an environment the code does not know. *)
Definition manager : DownloadManager.manager :=
  {| DownloadManager.config :=
       JObj [("mods", JArr [custom_mod "a" None; custom_mod "b" (Some "client");
                            custom_mod "c" (Some "desktop")])];
     DownloadManager.mappings :=
       JObj [("sources", JObj [("custom", JObj [("target_dir", JStr "mods")])])];
     DownloadManager.cache_file := ".download_cache.json";
     DownloadManager.cache := JObj [];
     DownloadManager.minecraft_version := JNull;
     DownloadManager.curseforge_api_key := None |}.

Definition planned (name environment : string) (destinations : list json) : json :=
  DownloadManager.mod_entry (JStr name) (JStr "1.0")
    (JStr ("https://example.org/" +:+ name +:+ ".jar")) (JStr (name +:+ ".jar"))
    (JStr "mods") (JStr environment) destinations JNull.

(** The plan built from that configuration. *)
Definition built : list (string * json) :=
  [("mod_a", planned "a" "both" [JStr "mods/a.jar"; JStr "mods/client/a.jar"]);
   ("mod_b", planned "b" "client" [JStr "mods/client/b.jar"]);
   ("mod_c", planned "c" "desktop" [])].

(** The plan entry of the engine. *)
Definition engine_item : json :=
  DownloadManager.single_entry "minecraft" "Minecraft Server" (JStr "1.21.1")
    (JStr "https://example.org/server.jar") (JStr "server.jar") (JStr "mods")
    (JStr "mods/a.jar").

(** A stand-in for [json.dumps] on the samples. *)
Definition dumps (v : json) : string := "{}".

(** A plan of two mods, as a cache holds it. *)
Definition short_plan : json :=
  JObj [("mod_a", planned "a" "both" [JStr "mods/a.jar"; JStr "mods/client/a.jar"]);
        ("mod_b", planned "b" "client" [JStr "mods/client/b.jar"])].

(** A file server that refuses every connection. *)
Definition closed_transfers (history : list request) (r : request) : transfer :=
  Refused "connection refused".

(** The plan entry of a server-side mod resolved under the slug [a]. *)
Definition slug_item : json :=
  DownloadManager.mod_entry (JStr "a") (JStr "2.0")
    (JStr "https://example.org/a.jar") (JStr "a.jar") (JStr "mods")
    (JStr "server") [JStr "mods/a.jar"] (JStr "a").

(** The versions of a project as Modrinth lists them. *)
Definition project_versions : json :=
  JArr [JObj [("version_number", JStr "0.14.3");
              ("loaders", JArr [JStr "fabric"]);
              ("game_versions", JArr [JStr "1.21.1"]);
              ("files", JArr [JObj [("url", JStr "https://cdn.example/lithium.jar")]])]].

Definition modrinth_remote (history : list request) (r : request) : response :=
  Payload project_versions.

(** A manager whose mappings know Modrinth. *)
Definition modrinth_manager : DownloadManager.manager :=
  {| DownloadManager.config := JObj [];
     DownloadManager.mappings :=
       JObj [("sources",
              JObj [("modrinth",
                     JObj [("manifest_url",
                            JStr "https://api.modrinth.com/v2/project/lithium/version");
                           ("target_dir", JStr "mods")])])];
     DownloadManager.cache_file := ".download_cache.json";
     DownloadManager.cache := JObj [];
     DownloadManager.minecraft_version := JStr "1.21.1";
     DownloadManager.curseforge_api_key := None |}.

(** The lines of a file that is plain ASCII with [\n] line ends. *)
Definition lines (content : string) : list string :=
  Str.split (ascii_of_N 10) content.

(** Every file can be read, every variable can be set. *)
Definition readable (fs : gmap string node) (path : string) : bool := false.
Definition settable (key value : string) : option exn := None.

(** A [.env] file with an API key and a variable the process has too. *)
Definition dotenv : gmap string node :=
  {[ (".env" : string) :=
       File ("CURSEFORGE_API_KEY=abc" +:+ String (ascii_of_N 10) "HOME=/tmp") ]}.

Definition process_environ : gmap string string :=
  {[ ("HOME" : string) := ("/root" : string) ]}.

(** A manager that starts with a cache of the plan of two mods. *)
Definition cached_manager : DownloadManager.manager :=
  {| DownloadManager.config := DownloadManager.config manager;
     DownloadManager.mappings := DownloadManager.mappings manager;
     DownloadManager.cache_file := ".download_cache.json";
     DownloadManager.cache :=
       JObj [("minecraft_version", JStr "1.21.1"); ("downloads", short_plan)];
     DownloadManager.minecraft_version := JStr "1.21.1";
     DownloadManager.curseforge_api_key := None |}.

End Scenario.

(** ** What the loops keep *)

(** Every named mod seen so far is resolved or reported missing. *)
Definition accounted (seen : list json)
  (locals : list (json * json) * list json) : Prop :=
  forall a_mod name : json,
    In a_mod seen -> Py.get a_mod "name" JNull = Ok name ->
    Py.truthy name = true ->
    (exists v, In (name, v) (fst locals)) \/ In name (snd locals).

(** The compatibility checks of the pairs of the engine version [mc_ver]
    with the loader candidates [candidates], run one after the other
    from [w], each report a missing mod; the last one ends in [w']. *)
Fixpoint all_rejected (py_repr : json -> string)
  (remote : list request -> request -> response) (self : UpdateChecker.checker)
  (mc_ver : json) (candidates : list json) (w w' : world) : Prop :=
  match candidates with
  | [] => w' = w
  | fabric_ver :: rest =>
      exists (d : list (json * json)) (m : list json) (w1 : world),
        UpdateChecker.check_full_compatibility py_repr remote self mc_ver
          fabric_ver w = (Ok (false, d, m), w1)
        /\ all_rejected py_repr remote self mc_ver rest w1 w'
  end.

(** The number of destinations the specification gives an environment. *)
Definition destination_count (environment : json) : nat :=
  match environment with
  | JStr s =>
      if String.eqb s "both" then 2
      else if String.eqb s "client" || String.eqb s "server" then 1
      else 0
  | _ => 0
  end.

(** The plan entry [item] has the environment of the configured mod
    [a_mod], and the destinations its environment, target directory and
    file name give. *)
Definition planned_for (path_join : string -> string -> string)
  (a_mod item : json) : Prop :=
  exists (environment target_dir filename : json) (destinations : list json),
    Py.get a_mod "environment" (JStr "both") = Ok environment
    /\ Py.getitem item "environment" = Ok environment
    /\ Py.getitem item "target_dir" = Ok target_dir
    /\ Py.getitem item "filename" = Ok filename
    /\ Py.getitem item "destinations" = Ok (JArr destinations)
    /\ DownloadManager.destinations_for path_join environment target_dir filename
       = Ok destinations.

(** Every mod entry of the plan stems from a mod seen so far. *)
Definition plan_ok (path_join : string -> string -> string)
  (seen : list json) (downloads : list (string * json)) : Prop :=
  forall (key : string) (item : json),
    In (key, item) downloads ->
    Py.getitem item "type" = Ok (JStr "mod") ->
    exists a_mod : json, In a_mod seen /\ planned_for path_join a_mod item.

(** An entry that a round of [download_all] can read: it has a name, a
    version and a URL, and it is a mod whose destinations are paths or an
    entry of another type whose destination is a path. *)
Definition entry_ready (item : json) : Prop :=
  exists fields : list (string * json),
    item = JObj fields
    /\ (exists v : json, Py.lookup "name" fields = Some v)
    /\ (exists v : json, Py.lookup "version" fields = Some v)
    /\ (exists v : json, Py.lookup "url" fields = Some v)
    /\ ((Py.lookup "type" fields = Some (JStr "mod")
         /\ exists paths : list string,
              Py.lookup "destinations" fields = Some (JArr (map JStr paths)))
        \/ (exists type path : string,
              Py.lookup "type" fields = Some (JStr type)
              /\ type <> "mod"
              /\ Py.lookup "destination" fields = Some (JStr path))).

(** The computation [c] sends at most [n] requests, however it ends. *)
Definition sends_at_most {A : Type} (n : nat) (c : M A) : Prop :=
  forall (w : world) (r : res A) (w' : world),
    c w = (r, w') ->
    (length (requests w') <= length (requests w) + n)%nat.

(** However the computation [c] ends, the requests it sent all satisfy
    [P]. *)
Definition sends_only {A : Type} (P : request -> Prop) (c : M A) : Prop :=
  forall (w : world) (r : res A) (w' : world),
    c w = (r, w') ->
    exists sent : list request,
      requests w' = requests w ++ sent /\ Forall P sent.

(** The request of a file by [_download_file], which waits 60 seconds;
    the requests to the registries wait 10 or 30. *)
Definition file_request (r : request) : Prop := req_timeout r = 60.

(** * Theorems *)

(** ** Facts about strings *)

Lemma string_compare_refl (s : string) : String.compare s s = Eq.
Proof.
  pose proof (String.compare_antisym s s) as H.
  destruct (String.compare s s); simpl in H; congruence.
Qed.

Lemma str_gt_lt (a b : string) : Str.gt a b = Str.lt b a.
Proof.
  unfold Str.gt, Str.lt. rewrite (String.compare_antisym a b).
  destruct (String.compare b a); reflexivity.
Qed.

Lemma str_gt_irrefl (a : string) : Str.gt a a = false.
Proof. unfold Str.gt. now rewrite string_compare_refl. Qed.

Lemma str_lt_irrefl (a : string) : Str.lt a a = false.
Proof. unfold Str.lt. now rewrite string_compare_refl. Qed.

Lemma str_gt_lt_excl (a b : string) : Str.gt a b = true -> Str.lt a b = false.
Proof. unfold Str.gt, Str.lt. destruct (String.compare a b); congruence. Qed.

Lemma split_head_before_first (c : ascii) (s : string) :
  Str.split_head c s = Algorithm.before_first c s.
Proof.
  unfold Str.split_head. induction s as [|a s IH]; simpl; [reflexivity|].
  destruct (Ascii.eqb a c); [reflexivity|].
  destruct (Str.split c s); simpl in *; congruence.
Qed.

(** ** The comparison loop *)

Section ComparatorFacts.

Variable m : nat.

Lemma compare_step_refl (p : part) : compare_step p p = None.
Proof.
  destruct p as [n|s]; simpl.
  - rewrite Z.gtb_ltb, Z.ltb_irrefl. reflexivity.
  - now rewrite str_gt_irrefl, str_lt_irrefl.
Qed.

Lemma compare_step_opp (p q : part) :
  compare_step q p = option_map Z.opp (compare_step p q).
Proof.
  assert (Hs : forall a b : string,
    (if Str.gt b a then Some 1 else if Str.lt b a then Some (-1) else None)
    = option_map Z.opp
        (if Str.gt a b then Some 1 else if Str.lt a b then Some (-1) else None)).
  { intros a b. rewrite (str_gt_lt b a), <- (str_gt_lt a b).
    destruct (Str.gt a b) eqn:G.
    - now rewrite (str_gt_lt_excl _ _ G).
    - destruct (Str.lt a b); reflexivity. }
  destruct p as [a|a], q as [b|b]; simpl; try apply Hs.
  rewrite !Z.gtb_ltb.
  destruct (Z.ltb_spec a b), (Z.ltb_spec b a); simpl; try reflexivity; lia.
Qed.

Lemma compare_loop_refl (ps : list part) (n i : nat) :
  compare_loop ps ps i n = 0.
Proof.
  revert i. induction n as [|n IH]; intros i; simpl; [reflexivity|].
  now rewrite compare_step_refl.
Qed.

Lemma compare_loop_opp (ps qs : list part) (n i : nat) :
  compare_loop qs ps i n = - compare_loop ps qs i n.
Proof.
  revert i. induction n as [|n IH]; intros i; simpl; [reflexivity|].
  rewrite (compare_step_opp (part_at ps i) (part_at qs i)).
  destruct (compare_step (part_at ps i) (part_at qs i)); simpl; auto.
Qed.

Lemma compare_fallback_refl (a : string) : compare_fallback a a = 0.
Proof. unfold compare_fallback. now rewrite str_gt_irrefl, str_lt_irrefl. Qed.

Lemma compare_fallback_opp (a b : string) :
  compare_fallback b a = - compare_fallback a b.
Proof.
  unfold compare_fallback. rewrite (str_gt_lt b a), <- (str_gt_lt a b).
  destruct (Str.gt a b) eqn:G.
  - now rewrite (str_gt_lt_excl _ _ G).
  - destruct (Str.lt a b); reflexivity.
Qed.

Lemma compare_versions_refl (a : string) : _compare_versions m a a = Ok 0.
Proof.
  unfold _compare_versions, compare_try.
  destruct (version_parts m (clean a)) as [ps|e]; simpl.
  - now rewrite compare_loop_refl.
  - now rewrite compare_fallback_refl.
Qed.

Lemma compare_versions_opp (a b : string) (r : Z) :
  _compare_versions m a b = Ok r -> _compare_versions m b a = Ok (- r).
Proof.
  unfold _compare_versions, compare_try.
  destruct (version_parts m (clean a)) as [ps|e],
           (version_parts m (clean b)) as [qs|e']; simpl;
    intros H; inversion H; subst; clear H;
    try (now rewrite (compare_fallback_opp a b)).
  rewrite (Nat.max_comm (length qs) (length ps)).
  now rewrite compare_loop_opp.
Qed.

Lemma compare_versions_total (a b : string) :
  exists r : Z, _compare_versions m a b = Ok r.
Proof.
  unfold _compare_versions. destruct (compare_try m a b); eauto.
Qed.

End ComparatorFacts.

(** ** The loop seen from the head of the two lists *)

Lemma part_at_tail (ps : list part) (i : nat) :
  part_at ps (S i) = part_at (tl ps) i.
Proof.
  unfold part_at. destruct ps as [|p ps]; simpl.
  - destruct i; reflexivity.
  - reflexivity.
Qed.

Lemma compare_loop_tail (ps qs : list part) (n i : nat) :
  compare_loop ps qs (S i) n = compare_loop (tl ps) (tl qs) i n.
Proof.
  revert i. induction n as [|n IH]; intros i; simpl; [reflexivity|].
  rewrite !part_at_tail, IH. reflexivity.
Qed.

Lemma compare_loop_head (ps qs : list part) (n : nat) :
  compare_loop ps qs 0 (S n) =
  match compare_step (part_at ps 0) (part_at qs 0) with
  | Some r => r
  | None => compare_loop (tl ps) (tl qs) 0 n
  end.
Proof. simpl. now rewrite compare_loop_tail. Qed.

Lemma compare_loop_nil (n : nat) : compare_loop [] [] 0 n = 0.
Proof. apply compare_loop_refl. Qed.

Lemma length_tl_le {A : Type} (l : list A) (n : nat) :
  (length l <= S n)%nat -> (length (tl l) <= n)%nat.
Proof. destruct l; simpl; lia. Qed.

(** Rounds past the end of both lists compare zero with zero. *)
Lemma compare_loop_stable (n k : nat) (ps qs : list part) :
  (length ps <= n)%nat -> (length qs <= n)%nat ->
  compare_loop ps qs 0 (n + k) = compare_loop ps qs 0 n.
Proof.
  revert ps qs. induction n as [|n IH]; intros ps qs Hp Hq.
  - destruct ps, qs; simpl in Hp, Hq; try lia. simpl. apply compare_loop_nil.
  - replace (S n + k)%nat with (S (n + k)) by lia.
    rewrite !compare_loop_head.
    destruct (compare_step (part_at ps 0) (part_at qs 0)); [reflexivity|].
    apply IH; now apply length_tl_le.
Qed.

(** ** Refinement of the specified algorithm *)

Lemma compare_step_order (p q : part) :
  compare_step p q =
  match Algorithm.segment_order p q with
  | Eq => None
  | Gt => Some 1
  | Lt => Some (-1)
  end.
Proof.
  destruct p as [a|a], q as [b|b]; simpl;
    unfold Z.gtb, Z.ltb, Str.gt, Str.lt.
  - destruct (a ?= b); reflexivity.
  - destruct (String.compare (Str.of_int a) b); reflexivity.
  - destruct (String.compare a (Str.of_int b)); reflexivity.
  - destruct (String.compare a b); reflexivity.
Qed.

Lemma pad_step (n : nat) (ps : list part) :
  Algorithm.pad (S n) ps = part_at ps 0 :: Algorithm.pad n (tl ps).
Proof.
  unfold Algorithm.pad, part_at. destruct ps as [|p ps]; simpl.
  - now rewrite Nat.sub_0_r.
  - reflexivity.
Qed.

Lemma compare_loop_first_difference (n : nat) (ps qs : list part) :
  (length ps <= n)%nat -> (length qs <= n)%nat ->
  compare_loop ps qs 0 n =
  Algorithm.verdict (Algorithm.first_difference (Algorithm.pad n ps) (Algorithm.pad n qs)).
Proof.
  revert ps qs. induction n as [|n IH]; intros ps qs Hp Hq.
  - destruct ps, qs; simpl in Hp, Hq; try lia. reflexivity.
  - rewrite compare_loop_head, !pad_step. simpl.
    rewrite compare_step_order.
    destruct (Algorithm.segment_order (part_at ps 0) (part_at qs 0));
      simpl; try reflexivity.
    apply IH; now apply length_tl_le.
Qed.

Lemma compare_fallback_verdict (a b : string) :
  compare_fallback a b = Algorithm.verdict (String.compare a b).
Proof.
  unfold compare_fallback, Str.gt, Str.lt.
  destruct (String.compare a b); reflexivity.
Qed.

Lemma compare_versions_algorithm (m : nat) (a b : string) :
  _compare_versions m a b =
  Ok (Algorithm.verdict (Algorithm.compare m (Str.remove "v") a b)).
Proof.
  unfold _compare_versions, compare_try, Algorithm.compare, Algorithm.segments,
    version_parts, clean.
  rewrite !split_head_before_first.
  destruct (parse_segments m (Str.split "." (Str.remove "v"
              (Algorithm.before_first "-" (Algorithm.before_first "+" a)))))
    as [ps|e]; simpl.
  2: { now rewrite compare_fallback_verdict. }
  destruct (parse_segments m (Str.split "." (Str.remove "v"
              (Algorithm.before_first "-" (Algorithm.before_first "+" b)))))
    as [qs|e]; simpl.
  2: { now rewrite compare_fallback_verdict. }
  f_equal. apply compare_loop_first_difference; lia.
Qed.

(** ** Transitivity on numeric versions *)

Lemma part_at_numeric (ns : list Z) :
  part_at (map PInt ns) 0 = PInt (hd 0 ns).
Proof. destruct ns; reflexivity. Qed.

Lemma tl_map_PInt (ns : list Z) : tl (map PInt ns) = map PInt (tl ns).
Proof. destruct ns; reflexivity. Qed.

Lemma compare_loop_numeric_trans (n : nat) (xs ys zs : list Z) :
  compare_loop (map PInt xs) (map PInt ys) 0 n = 1 ->
  compare_loop (map PInt ys) (map PInt zs) 0 n = 1 ->
  compare_loop (map PInt xs) (map PInt zs) 0 n = 1.
Proof.
  revert xs ys zs. induction n as [|n IH]; intros xs ys zs; [simpl; lia|].
  rewrite !compare_loop_head, !part_at_numeric, !tl_map_PInt. simpl.
  rewrite !Z.gtb_ltb.
  destruct (Z.ltb_spec (hd 0 ys) (hd 0 xs)), (Z.ltb_spec (hd 0 xs) (hd 0 ys)),
           (Z.ltb_spec (hd 0 zs) (hd 0 ys)), (Z.ltb_spec (hd 0 ys) (hd 0 zs)),
           (Z.ltb_spec (hd 0 zs) (hd 0 xs)), (Z.ltb_spec (hd 0 xs) (hd 0 zs));
    try lia; try (intros; reflexivity); try (intros; lia).
  apply IH.
Qed.

Lemma compare_versions_numeric_trans (m : nat) (a b c : string) :
  numeric_version m a -> numeric_version m b -> numeric_version m c ->
  _compare_versions m a b = Ok 1 ->
  _compare_versions m b c = Ok 1 ->
  _compare_versions m a c = Ok 1.
Proof.
  intros [xs Ha] [ys Hb] [zs Hc].
  unfold _compare_versions, compare_try. rewrite Ha, Hb, Hc. simpl.
  intros Hab Hbc. injection Hab as Hab'. injection Hbc as Hbc'.
  set (N := Nat.max (length (map PInt xs))
              (Nat.max (length (map PInt ys)) (length (map PInt zs)))).
  assert (Hx : (length (map PInt xs) <= N)%nat) by (unfold N; lia).
  assert (Hy : (length (map PInt ys) <= N)%nat) by (unfold N; lia).
  assert (Hz : (length (map PInt zs) <= N)%nat) by (unfold N; lia).
  assert (stable : forall ps qs : list part,
    (length ps <= N)%nat -> (length qs <= N)%nat ->
    compare_loop ps qs 0 (Nat.max (length ps) (length qs)) = compare_loop ps qs 0 N).
  { intros ps qs Hp Hq.
    pose proof (compare_loop_stable (Nat.max (length ps) (length qs))
                  (N - Nat.max (length ps) (length qs)) ps qs
                  ltac:(lia) ltac:(lia)) as E.
    replace (Nat.max (length ps) (length qs)
             + (N - Nat.max (length ps) (length qs)))%nat with N in E by lia.
    now symmetry. }
  rewrite stable in Hab', Hbc' by assumption.
  rewrite stable by assumption. f_equal.
  eapply compare_loop_numeric_trans; eassumption.
Qed.

(** ** Claims on the version comparator *)

(** C4 (as amended): for all version strings, [_compare_versions] never
    raises and returns what the specified algorithm returns once "strip a
    leading v" is read as "remove every v": cut at the first [+], then at
    the first [-], remove every [v], split on [.], read all-digit segments
    as integers, pad the shorter list with zeros, let the first differing
    pair decide (numeric order for two integers, string order otherwise),
    and compare the raw strings when a segment fails to parse. In
    particular "1.2.10" is greater than "1.2.9". *)
Theorem compare_versions_follows_algorithm (m : nat) :
  (forall a b : string,
     _compare_versions m a b =
     Ok (Algorithm.verdict (Algorithm.compare m (Str.remove "v") a b)))
  /\ _compare_versions m "1.2.10" "1.2.9" = Ok 1.
Proof.
  split.
  - apply compare_versions_algorithm.
  - reflexivity.
Qed.

(** C4 as stated fails: "1.v2" has no leading [v], so the specified
    algorithm keeps the token "v2" and answers greater, while the code
    removes the inner [v] and answers equal. *)
Lemma compare_versions_removes_inner_v :
  _compare_versions 4300 "1.v2" "1.2" = Ok 0
  /\ Algorithm.compare 4300 Algorithm.strip_leading_v "1.v2" "1.2" = Gt
  /\ _compare_versions 4300 "1.v2" "1.2" <>
     Ok (Algorithm.verdict
           (Algorithm.compare 4300 Algorithm.strip_leading_v "1.v2" "1.2")).
Proof.
  split; [reflexivity|]. split; [reflexivity|]. vm_compute. discriminate.
Qed.

(** C5 (as amended): [_compare_versions] is reflexive, it answers greater
    one way exactly when it answers less the other way, and greater is
    transitive on versions all of whose segments are integers. *)
Theorem compare_versions_order (m : nat) :
  (forall a : string, _compare_versions m a a = Ok 0)
  /\ (forall a b : string,
        _compare_versions m a b = Ok 1 <-> _compare_versions m b a = Ok (-1))
  /\ (forall a b c : string,
        numeric_version m a -> numeric_version m b -> numeric_version m c ->
        _compare_versions m a b = Ok 1 ->
        _compare_versions m b c = Ok 1 ->
        _compare_versions m a c = Ok 1).
Proof.
  split; [apply compare_versions_refl|].
  split; [|apply compare_versions_numeric_trans].
  intros a b. split; intros H.
  - apply (compare_versions_opp m a b 1 H).
  - apply (compare_versions_opp m b a (-1) H).
Qed.

Lemma compare_versions_order_witness :
  numeric_version 4300 "1.10" /\ numeric_version 4300 "1.9"
  /\ numeric_version 4300 "1.2"
  /\ _compare_versions 4300 "1.10" "1.2" = Ok 1.
Proof.
  assert (H10 : numeric_version 4300 "1.10") by (exists [1; 10]; reflexivity).
  assert (H9 : numeric_version 4300 "1.9") by (exists [1; 9]; reflexivity).
  assert (H2 : numeric_version 4300 "1.2") by (exists [1; 2]; reflexivity).
  split; [exact H10|]. split; [exact H9|]. split; [exact H2|].
  apply (proj2 (proj2 (compare_versions_order 4300)) "1.10" "1.9" "1.2");
    try assumption; reflexivity.
Defined.

(** C5 as stated fails: greater is not transitive when a numeric segment
    meets a string segment: "10" > "9" as integers, "9" > "1a" as
    strings, yet "10" < "1a" as strings. *)
Lemma compare_versions_not_transitive :
  _compare_versions 4300 "10" "9" = Ok 1
  /\ _compare_versions 4300 "9" "1a" = Ok 1
  /\ _compare_versions 4300 "10" "1a" = Ok (-1)
  /\ ~ (forall a b c : string,
          _compare_versions 4300 a b = Ok 1 ->
          _compare_versions 4300 b c = Ok 1 ->
          _compare_versions 4300 a c = Ok 1).
Proof.
  split; [reflexivity|]. split; [reflexivity|]. split; [reflexivity|].
  intros H. specialize (H "10" "9" "1a" eq_refl eq_refl). discriminate H.
Qed.

(** ** Running computations *)

Lemma bind_ok {A B : Type} (c : M A) (k : A -> M B) (w w' : world) (a : A) :
  c w = (Ok a, w') -> bind c k w = k a w'.
Proof. intros H. unfold bind. now rewrite H. Qed.

Lemma bind_raise {A B : Type} (c : M A) (k : A -> M B) (w w' : world) (e : exn) :
  c w = (Raise e, w') -> bind c k w = (Raise e, w').
Proof. intros H. unfold bind. now rewrite H. Qed.

Lemma bind_inv {A B : Type} (c : M A) (k : A -> M B) (w w' : world) (b : B) :
  bind c k w = (Ok b, w') ->
  exists a w1, c w = (Ok a, w1) /\ k a w1 = (Ok b, w').
Proof.
  unfold bind. destruct (c w) as [[a|e] w1]; intros H.
  - eauto.
  - discriminate.
Qed.

Lemma lift_inv {A : Type} (r : res A) (w w' : world) (a : A) :
  lift r w = (Ok a, w') -> r = Ok a /\ w' = w.
Proof. unfold lift. intros H. inversion H. auto. Qed.

Lemma ret_inv {A : Type} (x a : A) (w w' : world) :
  ret x w = (Ok a, w') -> x = a /\ w' = w.
Proof. unfold ret. intros H. inversion H. auto. Qed.

(** ** [_fetch_json] *)

Section FetchFacts.

Variable remote : list request -> request -> response.


Lemma fetch_json_requests (timeout : Z) (url : string)
  (headers : list (string * json)) (w w' : world) (r : res json) :
  fetch_json remote timeout url headers w = (r, w') ->
  requests w' = requests w ++
    [{| req_url := url; req_headers := headers; req_timeout := timeout |}].
Proof.
  unfold fetch_json.
  destruct (remote _ _) as [body|code|msg]; [| destruct (code =? 404) |];
    intros H; inversion H; reflexivity.
Qed.

End FetchFacts.

(** ** The cross-axis search *)

Lemma string_app_inj (p a b : string) : p +:+ a = p +:+ b -> a = b.
Proof. induction p as [|c p IH]; simpl; intros H; [exact H|]. inversion H. auto. Qed.

Section ResolverFacts.

Variable py_repr : json -> string.
Variable remote : list request -> request -> response.
Variable self : UpdateChecker.checker.

Lemma loader_url_not_manifest (e : json) :
  UpdateChecker.loader_url py_repr e <> UpdateChecker.manifest_url.
Proof.
  unfold UpdateChecker.loader_url, UpdateChecker.manifest_url. simpl.
  intros H. discriminate H.
Qed.

Lemma loader_url_inj (e1 e2 : json) :
  UpdateChecker.loader_url py_repr e1 = UpdateChecker.loader_url py_repr e2 ->
  Py.format py_repr e1 = Py.format py_repr e2.
Proof. unfold UpdateChecker.loader_url. apply string_app_inj. Qed.

(** Every path through the body of the loop over the engine candidates
    ends in [break] or [return]: the loop never reaches a second
    candidate. *)
Lemma test_mc_version_stops (newer : list json) (i : nat) (mc_ver : json)
  (w w' : world) (u : unit) (f : flow UpdateChecker.update_info) :
  UpdateChecker.test_mc_version py_repr remote self newer i mc_ver w = (Ok (u, f), w') ->
  f <> Next.
Proof.
  unfold UpdateChecker.test_mc_version, bind, lift, ret.
  destruct (UpdateChecker._fetch_json _ _ _ _) as [[loader_data|x] w1]; [|discriminate].
  destruct (negb (Py.truthy loader_data)); [intros H; inversion H; discriminate|].
  destruct (UpdateChecker.fabric_versions_of loader_data) as [[|l ls]|x];
    [intros H; inversion H; discriminate| |discriminate].
  destruct (for_loop _ _ _ _) as [[[u' [info|]]|x] w2];
    intros H; inversion H; discriminate.
Qed.

(** The header is printed first: without a length of [self.mods] the
    search raises before any request. *)
Lemma find_without_length (w0 : world) (x : exn) :
  Py.len (UpdateChecker.mods self) = Raise x ->
  UpdateChecker.find_compatible_updates py_repr remote self w0 = (Raise x, w0).
Proof.
  intros H. unfold UpdateChecker.find_compatible_updates, bind, lift.
  now rewrite H.
Qed.

(** The search up to the loop over the loader candidates of the first
    engine candidate. *)
Lemma find_first_candidate (w0 w1 : world) (manifest e : json) (rest : list json)
  (n : Z) :
  Py.len (UpdateChecker.mods self) = Ok n ->
  UpdateChecker._fetch_json remote UpdateChecker.manifest_url [] w0 = (Ok manifest, w1) ->
  Py.truthy manifest = true ->
  UpdateChecker.newer_releases self manifest = Ok (e :: rest) ->
  UpdateChecker.find_compatible_updates py_repr remote self w0 =
  match UpdateChecker.test_mc_version py_repr remote self (e :: rest) 0 e w1 with
  | (Ok (_, Return info), w) => (Ok (Some info), w)
  | (Ok (_, _), w) => (Ok None, w)
  | (Raise x, w) => (Raise x, w)
  end.
Proof.
  intros Hlen Hm Ht Hn. unfold UpdateChecker.find_compatible_updates.
  unfold lift at 1. unfold bind at 1. rewrite Hlen.
  rewrite (bind_ok _ _ _ _ _ Hm). rewrite Ht. cbn [negb].
  unfold bind, lift. rewrite Hn. unfold enumerate.
  cbn [for_loop combine seq length fst snd].
  unfold bind.
  destruct (UpdateChecker.test_mc_version _ _ _ _ _ _ _) as [[[u f]|x] w] eqn:E;
    [|reflexivity].
  cbn [fst snd]. pose proof (test_mc_version_stops _ _ _ _ _ _ _ E) as Hs.
  destruct f; [congruence|reflexivity|reflexivity].
Qed.

(** What the body of the loop over the engine candidates does when the
    loader registry has nothing for the candidate: it breaks right after
    the one fetch. *)
Lemma test_mc_version_no_loader (newer : list json) (i : nat) (mc_ver : json)
  (w1 w2 : world) (loader_data : json) :
  UpdateChecker._fetch_json remote (UpdateChecker.loader_url py_repr mc_ver) [] w1
    = (Ok loader_data, w2) ->
  Py.truthy loader_data = false
  \/ UpdateChecker.fabric_versions_of loader_data = Ok [] ->
  UpdateChecker.test_mc_version py_repr remote self newer i mc_ver w1
    = (Ok (tt, Break), w2).
Proof.
  intros Hf Hnone. unfold UpdateChecker.test_mc_version.
  rewrite (bind_ok _ _ _ _ _ Hf).
  destruct (Py.truthy loader_data) eqn:Ht; cbn [negb]; [|reflexivity].
  destruct Hnone as [Hn|Hn]; [discriminate|].
  unfold bind, lift. rewrite Hn. reflexivity.
Qed.

End ResolverFacts.

(** ** Claims on the cross-axis search *)

(** C1: when the loader registry offers nothing for the engine candidate
    under test (the fetch fails or is empty, or no entry carries a
    version), the search ends in failure right after that fetch: it
    returns [None], and the run made the manifest request and that one
    loader request and nothing else. Whatever the configuration (also
    where [self.mods] has no length, and the header of the search raises
    before the first request), no result is returned and no loader
    request goes out for any other engine candidate. *)
Theorem no_loader_support_stops_search
  (py_repr : json -> string) (remote : list request -> request -> response)
  (self : UpdateChecker.checker) (w0 w1 w2 : world)
  (manifest loader_data e : json) (rest : list json) :
  UpdateChecker._fetch_json remote UpdateChecker.manifest_url [] w0
    = (Ok manifest, w1) ->
  Py.truthy manifest = true ->
  UpdateChecker.newer_releases self manifest = Ok (e :: rest) ->
  UpdateChecker._fetch_json remote (UpdateChecker.loader_url py_repr e) [] w1
    = (Ok loader_data, w2) ->
  Py.truthy loader_data = false
  \/ UpdateChecker.fabric_versions_of loader_data = Ok [] ->
  match Py.len (UpdateChecker.mods self) with
  | Ok _ =>
      UpdateChecker.find_compatible_updates py_repr remote self w0 = (Ok None, w2)
      /\ requests w2 = requests w0 ++
           [UpdateChecker.get_request UpdateChecker.manifest_url;
            UpdateChecker.get_request (UpdateChecker.loader_url py_repr e)]
  | Raise x =>
      UpdateChecker.find_compatible_updates py_repr remote self w0 = (Raise x, w0)
  end
  /\ (forall info : UpdateChecker.update_info,
        fst (UpdateChecker.find_compatible_updates py_repr remote self w0)
        <> Ok (Some info))
  /\ (forall e1 : json,
        Py.format py_repr e1 <> Py.format py_repr e ->
        ~ In (UpdateChecker.get_request (UpdateChecker.loader_url py_repr e1))
             (requests w0) ->
        ~ In (UpdateChecker.get_request (UpdateChecker.loader_url py_repr e1))
             (requests
                (snd (UpdateChecker.find_compatible_updates py_repr remote self w0)))).
Proof.
  intros Hm Ht Hn Hl Hnone.
  assert (Hreq : requests w2 = requests w0 ++
       [UpdateChecker.get_request UpdateChecker.manifest_url;
        UpdateChecker.get_request (UpdateChecker.loader_url py_repr e)]).
  { unfold UpdateChecker._fetch_json in Hm, Hl.
    rewrite (fetch_json_requests _ _ _ _ _ _ _ Hl).
    rewrite (fetch_json_requests _ _ _ _ _ _ _ Hm).
    rewrite <- app_assoc. reflexivity. }
  destruct (Py.len (UpdateChecker.mods self)) as [n|x] eqn:Hlen.
  - assert (Hrun : UpdateChecker.find_compatible_updates py_repr remote self w0
                   = (Ok None, w2)).
    { rewrite (find_first_candidate py_repr remote self w0 w1 manifest e rest n
                 Hlen Hm Ht Hn).
      now rewrite (test_mc_version_no_loader py_repr remote self _ _ _ _ _ _ Hl Hnone). }
    rewrite Hrun. cbn [fst snd].
    split; [split; [reflexivity|exact Hreq]|]. split; [discriminate|].
    intros e1 Hne Hold Hin. rewrite Hreq in Hin.
    apply in_app_or in Hin. destruct Hin as [Hin|[Hin|[Hin|[]]]].
    + now apply Hold.
    + apply (f_equal req_url) in Hin. cbn [req_url UpdateChecker.get_request] in Hin.
      symmetry in Hin. now apply loader_url_not_manifest in Hin.
    + apply (f_equal req_url) in Hin. cbn [req_url UpdateChecker.get_request] in Hin.
      apply loader_url_inj in Hin. congruence.
  - rewrite (find_without_length py_repr remote self w0 x Hlen). cbn [fst snd].
    split; [reflexivity|]. split; [discriminate|]. intros e1 _ Hold. exact Hold.
Qed.

Lemma no_loader_support_stops_search_witness :
  let run :=
    UpdateChecker.find_compatible_updates Scenario.repr
      Scenario.newest_unsupported_remote Scenario.self_old Scenario.start in
  UpdateChecker.newer_releases Scenario.self_old Scenario.manifest
    = Ok [JStr "1.21.2"; JStr "1.21.1"]
  /\ fst run = Ok None
  /\ length (requests (snd run)) = 2%nat
  /\ ~ In (UpdateChecker.get_request
             (UpdateChecker.loader_url Scenario.repr (JStr "1.21.1")))
          (requests (snd run)).
Proof.
  intros run.
  pose proof (no_loader_support_stops_search Scenario.repr
    Scenario.newest_unsupported_remote Scenario.self_old Scenario.start
    (snd (UpdateChecker._fetch_json Scenario.newest_unsupported_remote
            UpdateChecker.manifest_url [] Scenario.start))
    (snd (UpdateChecker._fetch_json Scenario.newest_unsupported_remote
            (UpdateChecker.loader_url Scenario.repr (JStr "1.21.2")) []
            (snd (UpdateChecker._fetch_json Scenario.newest_unsupported_remote
                    UpdateChecker.manifest_url [] Scenario.start))))
    Scenario.manifest (JArr []) (JStr "1.21.2") [JStr "1.21.1"]
    eq_refl eq_refl eq_refl eq_refl (or_introl eq_refl)) as [[Hrun Hreq] [_ Hother]].
  split; [reflexivity|].
  split; [unfold run; now rewrite Hrun|].
  split; [unfold run; rewrite Hrun; cbn [snd]; now rewrite Hreq|].
  apply (Hother (JStr "1.21.1")); [discriminate|]. intros [].
Defined.

(** ** Inversion of computations *)

Lemma res_bind_inv {A B : Type} (r : res A) (k : A -> res B) (b : B) :
  res_bind r k = Ok b -> exists a, r = Ok a /\ k a = Ok b.
Proof. destruct r as [a|e]; simpl; intros H; [eauto|discriminate]. Qed.

Ltac bind_inv_in H :=
  let a := fresh "a" in
  let w := fresh "w" in
  let Hc := fresh "Hc" in
  apply bind_inv in H; destruct H as (a & w & Hc & H).

Tactic Notation "bind_inv" hyp(H) "as" ident(a) ident(w) ident(Hc) :=
  apply bind_inv in H; destruct H as (a & w & Hc & H).

Tactic Notation "lift_inv" hyp(H) "as" ident(Hr) :=
  apply lift_inv in H; destruct H as [Hr ?]; subst.

Tactic Notation "ret_inv" hyp(H) :=
  apply ret_inv in H; destruct H as [? ?]; subst.

(** A loop whose body never breaks nor returns runs through the whole
    list, and keeps what every round keeps. *)
Lemma for_loop_next_invariant {X S R : Type} (P : list X -> S -> Prop)
  (body : X -> S -> M (S * flow R)) :
  (forall x s w s' f w', body x s w = (Ok (s', f), w') -> f = Next) ->
  (forall seen x s w s' f w',
     P seen s -> body x s w = (Ok (s', f), w') -> P (seen ++ [x]) s') ->
  forall xs seen s w s' r w',
    P seen s -> for_loop xs body s w = (Ok (s', r), w') ->
    P (seen ++ xs) s' /\ r = None.
Proof.
  intros Hnext Hstep xs. induction xs as [|x xs IH]; intros seen s w s' r w' HP H.
  - simpl in H. unfold ret in H. inversion H; subst. rewrite app_nil_r. auto.
  - simpl in H. bind_inv_in H. destruct a as [s1 f].
    pose proof (Hnext _ _ _ _ _ _ Hc) as Hf. subst f. cbn [fst snd] in H.
    replace (seen ++ x :: xs) with ((seen ++ [x]) ++ xs)
      by (rewrite <- app_assoc; reflexivity).
    eapply IH; [|exact H]. eapply Hstep; eassumption.
Qed.

(** A loop that returned did so in the round of one of its elements. *)
Lemma for_loop_return_inv {X S R : Type} (body : X -> S -> M (S * flow R))
  (xs : list X) (s s' : S) (w w' : world) (r : R) :
  for_loop xs body s w = (Ok (s', Some r), w') ->
  exists x s0 w0, In x xs /\ body x s0 w0 = (Ok (s', Return r), w').
Proof.
  revert s w. induction xs as [|x xs IH]; intros s w H.
  - simpl in H. unfold ret in H. discriminate.
  - simpl in H. bind_inv_in H. destruct a as [s1 f]. cbn [fst snd] in H.
    destruct f as [| |v].
    + destruct (IH _ _ H) as (y & s0 & w1 & Hy & Hb).
      exists y, s0, w1. split; [now right|exact Hb].
    + unfold ret in H. discriminate.
    + unfold ret in H. inversion H; subst.
      exists x, s, w. split; [now left|exact Hc].
Qed.

(** ** Facts about Python values *)

Lemma py_eq_str_inv (k : json) (s : string) : Py.eq k (JStr s) = true -> k = JStr s.
Proof.
  destruct k; simpl; try discriminate.
  intros H. apply String.eqb_eq in H. now subst.
Qed.

Lemma py_lower_ok (v : json) (s : string) : Py.lower v = Ok s -> exists t, v = JStr t.
Proof. destruct v; simpl; try discriminate. eauto. Qed.

Lemma py_iter_truthy (v : json) (l : list json) :
  Py.truthy v = true -> Py.iter v = Ok l -> l <> [].
Proof.
  destruct v as [| | | |s|items|fields]; simpl; try discriminate.
  - destruct s; simpl; [discriminate|]. intros _ H. inversion H. discriminate.
  - destruct items; [discriminate|]. intros _ H. inversion H. discriminate.
  - destruct fields; [discriminate|]. intros _ H. inversion H. discriminate.
Qed.

(** Assignment keeps the keys a dict has. *)
Lemma py_assign_keeps (d : list (json * json)) (k v k0 v0 : json) :
  In (k0, v0) d -> exists v1, In (k0, v1) (Py.assign d k v).
Proof.
  induction d as [|[k' v'] d IH]; simpl; [tauto|].
  intros [H|H].
  - inversion H; subst. destruct (Py.eq k0 k); simpl; eauto.
  - destruct (Py.eq k' k); simpl.
    + eauto.
    + destruct (IH H) as [v1 H1]. eauto.
Qed.

(** After an assignment under a [str] key the dict has that key. *)
Lemma py_assign_has_key (d : list (json * json)) (s : string) (v : json) :
  exists v1, In (JStr s, v1) (Py.assign d (JStr s) v).
Proof.
  induction d as [|[k' v'] d IH]; simpl; [eauto|].
  destruct (Py.eq k' (JStr s)) eqn:E; simpl.
  - apply py_eq_str_inv in E. subst. eauto.
  - destruct IH as [v1 H1]. eauto.
Qed.


(** Joining names that are all [str] does not raise. *)
Lemma join_strs (sep : string) (items : list json) :
  (forall x : json, In x items -> exists s : string, x = JStr s) ->
  exists t : string, Py.join sep items = Ok t.
Proof.
  induction items as [|x items IH]; intros H; [simpl; eauto|].
  destruct (H x (or_introl eq_refl)) as [s Hs]. subst x.
  destruct IH as [t Ht]; [intros y Hy; apply H; now right|].
  simpl. rewrite Ht. simpl. eauto.
Qed.

Lemma in_firstn {A : Type} (n : nat) (xs : list A) (x : A) :
  In x (firstn n xs) -> In x xs.
Proof.
  revert xs. induction n as [|n IH]; intros xs H; [destruct H|].
  destruct xs as [|y ys]; [destruct H|].
  simpl in H. destruct H as [H|H]; [now left|right; auto].
Qed.

(** What can be iterated has a length. *)
Lemma iter_has_length (v : json) (l : list json) :
  Py.iter v = Ok l -> exists n : Z, Py.len v = Ok n.
Proof. destruct v; simpl; try discriminate; eauto. Qed.

(** ** The compatibility check *)

Section CheckFacts.

Variable py_repr : json -> string.
Variable remote : list request -> request -> response.
Variable self : UpdateChecker.checker.

(** The hit loop looks at [mod_name.lower()] in its first round. *)
Lemma match_hits_str (mod_name : json) (hits : list json) (r : option json) :
  UpdateChecker.match_hits mod_name hits = Ok r -> hits <> [] ->
  exists s, mod_name = JStr s.
Proof.
  destruct hits as [|hit rest]; [congruence|]. intros H _. simpl in H.
  apply res_bind_inv in H. destruct H as (slug & _ & H).
  apply res_bind_inv in H. destruct H as (slug_lower & _ & H).
  apply res_bind_inv in H. destruct H as (name_lower & Hl & _).
  eapply py_lower_ok. eassumption.
Qed.

(** A project is found only for a mod whose name is a [str]. *)
Lemma search_found_str (mod_name p : json) (w w' : world) :
  UpdateChecker._search_modrinth_project py_repr remote mod_name w = (Ok p, w') ->
  Py.truthy p = true -> exists s, mod_name = JStr s.
Proof.
  unfold UpdateChecker._search_modrinth_project. intros H Hp.
  bind_inv H as results w1 Hfetch.
  bind_inv H as no_hits w2 Hno.
  destruct no_hits.
  { ret_inv H. discriminate. }
  bind_inv H as hits w3 Hhits. lift_inv Hhits as Hhits'.
  destruct (negb (Py.truthy hits)) eqn:Hh.
  { ret_inv H. discriminate. }
  bind_inv H as hit_list w4 Hiter. lift_inv Hiter as Hiter'.
  bind_inv H as found w5 Hfound. lift_inv Hfound as Hfound'.
  apply negb_false_iff in Hh.
  eapply match_hits_str; [eassumption|].
  exact (py_iter_truthy hits hit_list Hh Hiter').
Qed.

End CheckFacts.

Section CheckLoop.

Variable py_repr : json -> string.
Variable remote : list request -> request -> response.
Variable self : UpdateChecker.checker.

(** One round of the loop over the mods: the entry is skipped (no name),
    reported missing, or resolved under its name, which is then a [str];
    the round never breaks. *)
Lemma check_mod_cases (mc x : json) (d : list (json * json)) (m : list json)
  (w w' : world) (s' : list (json * json) * list json) (f : flow Empty_set) :
  UpdateChecker.check_mod py_repr remote mc x (d, m) w = (Ok (s', f), w') ->
  f = Next /\
  exists name, Py.get x "name" JNull = Ok name /\
    ((Py.truthy name = false /\ s' = (d, m))
     \/ (Py.truthy name = true /\ s' = (d, m ++ [name]))
     \/ (Py.truthy name = true /\
         exists s v, name = JStr s /\ s' = (Py.assign d name v, m))).
Proof.
  unfold UpdateChecker.check_mod. cbn [fst snd]. intros H.
  bind_inv H as name w1 Hname. lift_inv Hname as Hname'.
  destruct (Py.truthy name) eqn:Hn; cbn [negb] in H.
  2: { ret_inv H. inversion H; subst. split; [reflexivity|].
       exists name. split; [assumption|]. left. auto. }
  bind_inv H as project_id w2 Hsearch.
  destruct (Py.truthy project_id) eqn:Hp; cbn [negb] in H.
  2: { ret_inv H. inversion H; subst. split; [reflexivity|].
       exists name. split; [assumption|]. right. left. auto. }
  bind_inv H as versions w3 Hversions.
  destruct (Py.truthy versions) eqn:Hv; cbn [negb] in H.
  2: { ret_inv H. inversion H; subst. split; [reflexivity|].
       exists name. split; [assumption|]. right. left. auto. }
  bind_inv H as latest w4 Hlatest. lift_inv Hlatest as Hlatest'.
  bind_inv H as latest_version w5 Hlv. lift_inv Hlv as Hlv'.
  destruct (Py.truthy latest_version) eqn:Hl; cbn [negb] in H.
  2: { ret_inv H. inversion H; subst. split; [reflexivity|].
       exists name. split; [assumption|]. right. left. auto. }
  bind_inv H as files w6 Hfiles. lift_inv Hfiles as Hfiles'.
  bind_inv H as file w7 Hfile. lift_inv Hfile as Hfile'.
  bind_inv H as url w8 Hurl. lift_inv Hurl as Hurl'.
  bind_inv H as details w9 Hset. lift_inv Hset as Hset'.
  ret_inv H. inversion H; subst. split; [reflexivity|].
  exists name. split; [assumption|]. right. right. split; [assumption|].
  destruct (search_found_str py_repr remote name project_id _ _ Hsearch Hp) as [s Hs].
  subst name. unfold Py.setitem in Hset'. simpl in Hset'. inversion Hset'.
  eauto.
Qed.

Lemma check_mod_accounted (mc x : json) (seen : list json)
  (s s' : list (json * json) * list json) (w w' : world) (f : flow Empty_set) :
  accounted seen s ->
  UpdateChecker.check_mod py_repr remote mc x s w = (Ok (s', f), w') ->
  accounted (seen ++ [x]) s'.
Proof.
  destruct s as [d m]. intros Hacc H.
  destruct (check_mod_cases _ _ _ _ _ _ _ _ H) as [_ (name & Hname & Hcases)].
  intros a_mod name0 Hin Hget Htruthy.
  apply in_app_or in Hin. destruct Hin as [Hin|[Hin|[]]].
  - destruct (Hacc a_mod name0 Hin Hget Htruthy) as [[v Hv]|Hm];
      cbn [fst snd] in *.
    + destruct Hcases as [[_ ->]|[[_ ->]|[_ (t & v1 & _ & ->)]]]; cbn [fst snd].
      * left. eauto.
      * left. eauto.
      * left. eapply py_assign_keeps. eassumption.
    + destruct Hcases as [[_ ->]|[[_ ->]|[_ (t & v1 & _ & ->)]]]; cbn [fst snd].
      * right. assumption.
      * right. apply in_or_app. now left.
      * right. assumption.
  - subst a_mod. rewrite Hname in Hget. inversion Hget; subst name0.
    destruct Hcases as [[Hf _]|[[_ ->]|[_ (t & v1 & -> & ->)]]]; cbn [fst snd].
    + congruence.
    + right. apply in_or_app. right. now left.
    + left. apply py_assign_has_key.
Qed.

(** What a compatibility check returns: the flag tells whether the list
    of missing mods is empty, and every configured mod with a name is
    either resolved under that name or listed as missing. *)
Lemma check_full_compatibility_sound (mc fv : json) (w w' : world)
  (c : bool) (d : list (json * json)) (m : list json) :
  UpdateChecker.check_full_compatibility py_repr remote self mc fv w
    = (Ok (c, d, m), w') ->
  (c = true <-> m = []) /\
  (forall (mod_list : list json) (a_mod name : json),
     Py.iter (UpdateChecker.mods self) = Ok mod_list ->
     In a_mod mod_list -> Py.get a_mod "name" JNull = Ok name ->
     Py.truthy name = true ->
     (exists v, In (name, v) d) \/ In name m).
Proof.
  unfold UpdateChecker.check_full_compatibility. intros H.
  bind_inv H as mod_list w1 Hiter. lift_inv Hiter as Hiter'.
  bind_inv H as r w2 Hloop. ret_inv H. inversion H; subst. clear H.
  destruct r as [[d m] r]. cbn [fst snd] in *.
  split.
  - destruct m; simpl; split; congruence.
  - intros l a_mod name Hl. rewrite Hiter' in Hl. inversion Hl; subst l.
    pose proof (for_loop_next_invariant accounted
      (UpdateChecker.check_mod py_repr remote mc)) as Hinv.
    destruct (Hinv
      (fun x s w s' f w' Hb =>
         proj1 (check_mod_cases mc x (fst s) (snd s) w w' s' f
                  ltac:(destruct s; exact Hb)))
      (fun seen x s w s' f w' Hacc Hb => check_mod_accounted mc x seen s s' w w' f Hacc Hb)
      mod_list [] ([], []) w (d, m) r w2) as [Hacc _].
    + intros ? ? [].
    + exact Hloop.
    + intros Hin Hget Ht. exact (Hacc a_mod name Hin Hget Ht).
Qed.

(** The names a check reports missing are names of configured mods, and
    a configured mod with a name is reported missing unless its name is a
    [str]. *)
Lemma check_full_compatibility_names (mc fv : json) (w w' : world)
  (c : bool) (d : list (json * json)) (m : list json) :
  UpdateChecker.check_full_compatibility py_repr remote self mc fv w
    = (Ok (c, d, m), w') ->
  exists mod_list : list json,
    Py.iter (UpdateChecker.mods self) = Ok mod_list
    /\ (forall y : json, In y m ->
          exists a_mod : json,
            In a_mod mod_list /\ Py.get a_mod "name" JNull = Ok y
            /\ Py.truthy y = true)
    /\ (forall a_mod name : json,
          In a_mod mod_list -> Py.get a_mod "name" JNull = Ok name ->
          Py.truthy name = true ->
          (exists s : string, name = JStr s) \/ In name m).
Proof.
  unfold UpdateChecker.check_full_compatibility. intros H.
  bind_inv H as mod_list w1 Hiter. lift_inv Hiter as Hiter'.
  bind_inv H as r w2 Hloop. apply ret_inv in H. destruct H as [H _].
  inversion H; subst. clear H.
  destruct r as [[d m] r]. cbn [fst snd] in *.
  exists mod_list. split; [exact Hiter'|].
  set (P := fun (seen : list json) (s : list (json * json) * list json) =>
    (forall y : json, In y (snd s) ->
       exists a_mod : json,
         In a_mod seen /\ Py.get a_mod "name" JNull = Ok y /\ Py.truthy y = true)
    /\ (forall a_mod name : json,
          In a_mod seen -> Py.get a_mod "name" JNull = Ok name ->
          Py.truthy name = true ->
          (exists s0 : string, name = JStr s0) \/ In name (snd s))).
  assert (Hnext : forall (x : json) (s : list (json * json) * list json) (w : world)
                    (s' : list (json * json) * list json) (f : flow Empty_set)
                    (w' : world),
             UpdateChecker.check_mod py_repr remote mc x s w = (Ok (s', f), w') ->
             f = Next).
  { intros x [d0 m0] w0 s' f w0' Hb. exact (proj1 (check_mod_cases _ _ _ _ _ _ _ _ Hb)). }
  assert (Hstep : forall (seen : list json) (x : json)
                    (s : list (json * json) * list json) (w : world)
                    (s' : list (json * json) * list json) (f : flow Empty_set)
                    (w' : world),
             P seen s ->
             UpdateChecker.check_mod py_repr remote mc x s w = (Ok (s', f), w') ->
             P (seen ++ [x]) s').
  { intros seen x [d0 m0] w0 s' f w0' [HA HB] Hb.
    destruct (check_mod_cases _ _ _ _ _ _ _ _ Hb) as [_ (name & Hname & Hcases)].
    cbn [snd] in HA, HB.
    assert (Hm' : snd s' = m0 \/ (snd s' = m0 ++ [name] /\ Py.truthy name = true)).
    { destruct Hcases as [[_ ->]|[[Ht ->]|[_ (t & v & _ & ->)]]]; cbn [snd]; auto. }
    split.
    - intros y Hy. destruct Hm' as [Hm'|[Hm' Ht]]; rewrite Hm' in Hy.
      + destruct (HA y Hy) as (a & Ha & Hg & Hty).
        exists a. split; [apply in_or_app; now left|auto].
      + apply in_app_or in Hy. destruct Hy as [Hy|Hy].
        * destruct (HA y Hy) as (a & Ha & Hg & Hty).
          exists a. split; [apply in_or_app; now left|auto].
        * destruct Hy as [Hy|Hy]; [|destruct Hy]. subst y.
          exists x. split; [apply in_or_app; right; now left|auto].
    - intros a name0 Hin Hget Ht.
      apply in_app_or in Hin. destruct Hin as [Hin|Hin].
      + destruct (HB a name0 Hin Hget Ht) as [Hs|Hmiss]; [now left|].
        right. destruct Hm' as [Hm'|[Hm' _]]; rewrite Hm'; [exact Hmiss|].
        apply in_or_app. now left.
      + destruct Hin as [Hin|Hin]; [|destruct Hin]. subst a.
        rewrite Hname in Hget. inversion Hget; subst name0.
        destruct Hcases as [[Hf _]|[[_ ->]|[_ (t & v & -> & _)]]].
        * congruence.
        * right. cbn [snd]. apply in_or_app. right. now left.
        * left. eauto. }
  assert (HP0 : P [] ([], [])).
  { split; [intros y Hy; destruct Hy|intros a name0 Hin; destruct Hin]. }
  destruct (for_loop_next_invariant P _ Hnext Hstep mod_list [] ([], []) w
              (d, m) r w2 HP0 Hloop) as [[HA HB] _].
  cbn [snd app] in HA, HB. split; assumption.
Qed.

End CheckLoop.

(** The loop over the loader candidates when the first pair is rejected
    and the second accepted. *)
Lemma test_mc_version_second_loader
  (py_repr : json -> string) (remote : list request -> request -> response)
  (self : UpdateChecker.checker) (newer : list json) (i : nat)
  (w1 w2 w3 w4 : world) (loader_data e l1 l2 : json) (ls : list json)
  (d1 d2 : list (json * json)) (m1 m2 : list json) (line : string) :
  UpdateChecker._fetch_json remote (UpdateChecker.loader_url py_repr e) [] w1
    = (Ok loader_data, w2) ->
  Py.truthy loader_data = true ->
  UpdateChecker.fabric_versions_of loader_data = Ok (l1 :: l2 :: ls) ->
  UpdateChecker.check_full_compatibility py_repr remote self e l1 w2
    = (Ok (false, d1, m1), w3) ->
  Py.join ", " (firstn 5 m1) = Ok line ->
  UpdateChecker.check_full_compatibility py_repr remote self e l2 w3
    = (Ok (true, d2, m2), w4) ->
  UpdateChecker.test_mc_version py_repr remote self newer i e w1 =
  (Ok (tt, Return {|
     UpdateChecker.minecraft_current := UpdateChecker.mc_version self;
     UpdateChecker.minecraft_new := e;
     UpdateChecker.fabric_current := UpdateChecker.fabric_version self;
     UpdateChecker.fabric_new := l2;
     UpdateChecker.mods_found := d2;
     UpdateChecker.mc_versions_tested := Py.index newer e i + 1;
     UpdateChecker.fabric_versions_tested := Py.index (l1 :: l2 :: ls) l2 1 + 1 |}),
   w4).
Proof.
  intros Hf Ht Hv H1 Hjoin H2. unfold UpdateChecker.test_mc_version.
  rewrite (bind_ok _ _ _ _ _ Hf). rewrite Ht. cbn [negb].
  unfold lift at 1. unfold bind at 1. rewrite Hv.
  unfold enumerate. cbn [for_loop combine seq length fst snd].
  unfold UpdateChecker.test_fabric_version at 1.
  unfold bind at 1. unfold bind at 1. unfold bind at 1. rewrite H1.
  cbn [fst snd]. unfold lift at 1. unfold bind at 1. rewrite Hjoin.
  unfold ret at 1. cbn [fst snd].
  unfold bind at 1. unfold UpdateChecker.test_fabric_version at 1.
  unfold bind at 1. rewrite H2. cbn [fst snd]. unfold ret. cbn [fst snd].
  reflexivity.
Qed.

(** C2: for an engine candidate with at least two loader candidates, when
    the compatibility check of the first (engine, loader) pair reports a
    missing mod and the check of the second pair reports none, the search
    returns success with the second loader candidate and the mod
    resolutions of that second check: the rejected pair only advances the
    loop over the loader candidates. *)
Theorem second_loader_candidate_selected
  (py_repr : json -> string) (remote : list request -> request -> response)
  (self : UpdateChecker.checker) (w0 w1 w2 w3 w4 : world)
  (manifest loader_data e l1 l2 : json) (rest ls : list json)
  (d1 d2 : list (json * json)) (m1 m2 : list json) :
  UpdateChecker._fetch_json remote UpdateChecker.manifest_url [] w0
    = (Ok manifest, w1) ->
  Py.truthy manifest = true ->
  UpdateChecker.newer_releases self manifest = Ok (e :: rest) ->
  UpdateChecker._fetch_json remote (UpdateChecker.loader_url py_repr e) [] w1
    = (Ok loader_data, w2) ->
  Py.truthy loader_data = true ->
  UpdateChecker.fabric_versions_of loader_data = Ok (l1 :: l2 :: ls) ->
  UpdateChecker.check_full_compatibility py_repr remote self e l1 w2
    = (Ok (false, d1, m1), w3) ->
  UpdateChecker.check_full_compatibility py_repr remote self e l2 w3
    = (Ok (true, d2, m2), w4) ->
  exists info : UpdateChecker.update_info,
    UpdateChecker.find_compatible_updates py_repr remote self w0
      = (Ok (Some info), w4)
    /\ UpdateChecker.minecraft_new info = e
    /\ UpdateChecker.fabric_new info = l2
    /\ UpdateChecker.mods_found info = d2.
Proof.
  intros Hm Ht Hn Hf Hlt Hv H1 H2.
  destruct (check_full_compatibility_names py_repr remote self _ _ _ _ _ _ _ H1)
    as (mod_list & Hiter & Hmissing & _).
  destruct (check_full_compatibility_names py_repr remote self _ _ _ _ _ _ _ H2)
    as (mod_list' & Hiter' & _ & Hnamed).
  rewrite Hiter in Hiter'. inversion Hiter'; subst mod_list'. clear Hiter'.
  assert (Hm2 : m2 = []).
  { now apply (check_full_compatibility_sound py_repr remote self _ _ _ _ _ _ _ H2). }
  subst m2.
  destruct (join_strs ", " (firstn 5 m1)) as [line Hjoin].
  { intros y Hy. apply in_firstn in Hy.
    destruct (Hmissing y Hy) as (a_mod & Hin & Hget & Htruthy).
    destruct (Hnamed a_mod y Hin Hget Htruthy) as [Hs|[]]. exact Hs. }
  destruct (iter_has_length _ _ Hiter) as [n Hlen].
  eexists. split.
  - rewrite (find_first_candidate py_repr remote self w0 w1 manifest e rest n
               Hlen Hm Ht Hn).
    rewrite (test_mc_version_second_loader py_repr remote self (e :: rest) 0
               w1 w2 w3 w4 loader_data e l1 l2 ls d1 d2 m1 [] line
               Hf Hlt Hv H1 Hjoin H2).
    reflexivity.
  - repeat split.
Qed.

Lemma second_loader_candidate_selected_witness :
  exists info : UpdateChecker.update_info,
    fst (UpdateChecker.find_compatible_updates Scenario.repr
           Scenario.late_mod_remote Scenario.self Scenario.start) = Ok (Some info)
    /\ UpdateChecker.minecraft_new info = JStr "1.21.2"
    /\ UpdateChecker.fabric_new info = JStr "0.16.0".
Proof.
  set (fetch := UpdateChecker._fetch_json Scenario.late_mod_remote).
  set (check := UpdateChecker.check_full_compatibility Scenario.repr
                  Scenario.late_mod_remote Scenario.self (JStr "1.21.2")).
  set (w1 := snd (fetch UpdateChecker.manifest_url [] Scenario.start)).
  set (w2 := snd (fetch (UpdateChecker.loader_url Scenario.repr (JStr "1.21.2")) [] w1)).
  set (w3 := snd (check (JStr "0.16.1") w2)).
  set (w4 := snd (check (JStr "0.16.0") w3)).
  destruct (second_loader_candidate_selected Scenario.repr
    Scenario.late_mod_remote Scenario.self Scenario.start w1 w2 w3 w4
    Scenario.manifest Scenario.loaders (JStr "1.21.2") (JStr "0.16.1")
    (JStr "0.16.0") [] [] []
    [(JStr "Lithium",
      JObj [("version", JStr "1.0");
            ("url", JStr "https://cdn.example/lithium.jar");
            ("project_id", JStr "P1")])]
    [JStr "Lithium"] [])
    as [info [H [He [Hl _]]]]; try (vm_compute; reflexivity).
  exists info. rewrite H. repeat split; assumption.
Defined.

Section SearchFacts.

Variable py_repr : json -> string.
Variable remote : list request -> request -> response.
Variable self : UpdateChecker.checker.

(** A result comes out of the loop over the loader candidates only from
    a compatibility check that accepted the pair. *)
Lemma test_fabric_version_return (newer fvs : list json) (i j : nat)
  (mc_ver fabric_ver : json) (u u' : unit) (w w' : world)
  (info : UpdateChecker.update_info) :
  UpdateChecker.test_fabric_version py_repr remote self newer i mc_ver fvs j
    fabric_ver w = (Ok (u', Return info), w') ->
  exists m,
    UpdateChecker.check_full_compatibility py_repr remote self mc_ver fabric_ver w
      = (Ok (true, UpdateChecker.mods_found info, m), w')
    /\ UpdateChecker.minecraft_new info = mc_ver
    /\ UpdateChecker.fabric_new info = fabric_ver.
Proof.
  unfold UpdateChecker.test_fabric_version. intros H.
  bind_inv H as checked w1 Hcheck. destruct checked as [[c d] m].
  cbn [fst snd] in H. destruct c.
  - apply ret_inv in H. destruct H as [H ->]. inversion H; subst.
    exists m. cbn. auto.
  - bind_inv H as line w2 Hjoin. apply ret_inv in H. destruct H as [H _].
    discriminate.
Qed.

(** What the round of a pair comes to, by the outcome of its check. *)
Lemma test_fabric_version_accepts (newer fvs : list json) (i j : nat)
  (mc_ver fabric_ver : json) (w w' : world)
  (d : list (json * json)) (m : list json) :
  UpdateChecker.check_full_compatibility py_repr remote self mc_ver fabric_ver w
    = (Ok (true, d, m), w') ->
  UpdateChecker.test_fabric_version py_repr remote self newer i mc_ver fvs j
    fabric_ver w =
  (Ok (tt, Return {|
     UpdateChecker.minecraft_current := UpdateChecker.mc_version self;
     UpdateChecker.minecraft_new := mc_ver;
     UpdateChecker.fabric_current := UpdateChecker.fabric_version self;
     UpdateChecker.fabric_new := fabric_ver;
     UpdateChecker.mods_found := d;
     UpdateChecker.mc_versions_tested := Py.index newer mc_ver i + 1;
     UpdateChecker.fabric_versions_tested := Py.index fvs fabric_ver j + 1 |}),
   w').
Proof.
  intros H. unfold UpdateChecker.test_fabric_version, bind. rewrite H.
  reflexivity.
Qed.

Lemma test_fabric_version_rejects (newer fvs : list json) (i j : nat)
  (mc_ver fabric_ver : json) (w w' : world)
  (d : list (json * json)) (m : list json) :
  UpdateChecker.check_full_compatibility py_repr remote self mc_ver fabric_ver w
    = (Ok (false, d, m), w') ->
  UpdateChecker.test_fabric_version py_repr remote self newer i mc_ver fvs j
    fabric_ver w =
  match Py.join ", " (firstn 5 m) with
  | Ok _ => (Ok (tt, Next), w')
  | Raise x => (Raise x, w')
  end.
Proof.
  intros H. unfold UpdateChecker.test_fabric_version, bind, lift. rewrite H.
  cbn [fst snd]. destruct (Py.join _ _); reflexivity.
Qed.

(** The loop over the loader candidates returns at the first candidate
    whose pair is accepted, when the pairs before it were rejected. *)
Lemma loader_loop_first_accepted (newer fvs : list json) (i : nat)
  (e l : json) (post : list json) (d : list (json * json)) (m : list json)
  (mod_list : list json) :
  Py.iter (UpdateChecker.mods self) = Ok mod_list ->
  (forall a_mod name : json,
     In a_mod mod_list -> Py.get a_mod "name" JNull = Ok name ->
     Py.truthy name = true -> exists s : string, name = JStr s) ->
  forall (pre : list json) (k : nat) (w2 w3 w4 : world),
    all_rejected py_repr remote self e pre w2 w3 ->
    UpdateChecker.check_full_compatibility py_repr remote self e l w3
      = (Ok (true, d, m), w4) ->
    for_loop (combine (seq k (length (pre ++ l :: post))) (pre ++ l :: post))
      (fun jv _ =>
         UpdateChecker.test_fabric_version py_repr remote self newer i e fvs
           (fst jv) (snd jv)) tt w2 =
    (Ok (tt, Some {|
       UpdateChecker.minecraft_current := UpdateChecker.mc_version self;
       UpdateChecker.minecraft_new := e;
       UpdateChecker.fabric_current := UpdateChecker.fabric_version self;
       UpdateChecker.fabric_new := l;
       UpdateChecker.mods_found := d;
       UpdateChecker.mc_versions_tested := Py.index newer e i + 1;
       UpdateChecker.fabric_versions_tested :=
         Py.index fvs l (k + length pre) + 1 |}),
     w4).
Proof.
  intros Hiter Hstr pre. induction pre as [|p pre IH]; intros k w2 w3 w4 Hrej Hacc.
  - cbn [all_rejected] in Hrej. subst w3.
    cbn [app length seq combine for_loop fst snd]. unfold bind.
    rewrite (test_fabric_version_accepts newer fvs i k e l w2 w4 d m Hacc).
    cbn [fst snd]. unfold ret. rewrite Nat.add_0_r. reflexivity.
  - cbn [all_rejected] in Hrej. destruct Hrej as (d0 & m0 & w1 & Hcheck & Hrej).
    cbn [app length seq combine for_loop fst snd]. unfold bind at 1.
    rewrite (test_fabric_version_rejects newer fvs i k e p w2 w1 d0 m0 Hcheck).
    destruct (check_full_compatibility_names py_repr remote self _ _ _ _ _ _ _ Hcheck)
      as (mod_list' & Hiter' & Hmissing & _).
    rewrite Hiter in Hiter'. inversion Hiter'; subst mod_list'.
    destruct (join_strs ", " (firstn 5 m0)) as [line Hjoin].
    { intros y Hy. apply in_firstn in Hy.
      destruct (Hmissing y Hy) as (a_mod & Hin & Hget & Htruthy). eauto. }
    rewrite Hjoin. cbn [fst snd].
    rewrite (IH (S k) w1 w3 w4 Hrej Hacc).
    replace (S k + length pre)%nat with (k + length (p :: pre))%nat
      by (cbn [length]; lia).
    reflexivity.
Qed.

Lemma test_mc_version_return (newer : list json) (i : nat) (mc_ver : json)
  (u : unit) (w w' : world) (info : UpdateChecker.update_info) :
  UpdateChecker.test_mc_version py_repr remote self newer i mc_ver w
    = (Ok (u, Return info), w') ->
  exists fabric_ver wa m,
    UpdateChecker.check_full_compatibility py_repr remote self mc_ver fabric_ver wa
      = (Ok (true, UpdateChecker.mods_found info, m), w')
    /\ UpdateChecker.minecraft_new info = mc_ver
    /\ UpdateChecker.fabric_new info = fabric_ver.
Proof.
  unfold UpdateChecker.test_mc_version. intros H.
  bind_inv H as loader_data w1 Hfetch.
  destruct (negb (Py.truthy loader_data)); [ret_inv H; discriminate|].
  bind_inv H as fvs w2 Hfvs. lift_inv Hfvs as Hfvs'.
  destruct fvs as [|l ls]; [ret_inv H; discriminate|].
  bind_inv H as r w3 Hloop. destruct r as [u1 [info'|]]; cbn [snd] in H;
    ret_inv H; [|discriminate].
  inversion H; subst info'.
  apply for_loop_return_inv in Hloop.
  destruct Hloop as (jv & s0 & wa & _ & Hbody).
  destruct (test_fabric_version_return _ _ _ _ _ _ s0 _ _ _ _ Hbody)
    as (m & Hc & He & Hl).
  exists (snd jv), wa, m. auto.
Qed.

Lemma find_compatible_updates_return (w0 w' : world)
  (info : UpdateChecker.update_info) :
  UpdateChecker.find_compatible_updates py_repr remote self w0
    = (Ok (Some info), w') ->
  exists wa m,
    UpdateChecker.check_full_compatibility py_repr remote self
      (UpdateChecker.minecraft_new info) (UpdateChecker.fabric_new info) wa
      = (Ok (true, UpdateChecker.mods_found info, m), w').
Proof.
  unfold UpdateChecker.find_compatible_updates. intros H.
  bind_inv H as n w00 Hlen.
  bind_inv H as manifest w1 Hfetch.
  destruct (negb (Py.truthy manifest)); [ret_inv H; discriminate|].
  bind_inv H as newer w2 Hnewer. lift_inv Hnewer as Hnewer'.
  destruct newer as [|e rest]; [ret_inv H; discriminate|].
  bind_inv H as r w3 Hloop. ret_inv H. destruct r as [u r]. cbn [snd] in *.
  subst r. apply for_loop_return_inv in Hloop.
  destruct Hloop as (iv & s0 & wa & _ & Hbody).
  destruct (test_mc_version_return _ _ _ _ _ _ _ Hbody)
    as (fabric_ver & wb & m & Hc & He & Hl).
  exists wb, m. now rewrite He, Hl.
Qed.

(** The round of an engine candidate that has loader candidates is the
    loop over them. *)
Lemma test_mc_version_loop (newer : list json) (i : nat) (e loader_data : json)
  (fvs : list json) (w1 w2 : world) :
  UpdateChecker._fetch_json remote (UpdateChecker.loader_url py_repr e) [] w1
    = (Ok loader_data, w2) ->
  Py.truthy loader_data = true ->
  UpdateChecker.fabric_versions_of loader_data = Ok fvs ->
  fvs <> [] ->
  UpdateChecker.test_mc_version py_repr remote self newer i e w1 =
  match for_loop (enumerate fvs)
          (fun jv _ =>
             UpdateChecker.test_fabric_version py_repr remote self newer i e fvs
               (fst jv) (snd jv)) tt w2 with
  | (Ok r, w) =>
      (Ok (tt, match snd r with Some info => Return info | None => Break end), w)
  | (Raise x, w) => (Raise x, w)
  end.
Proof.
  intros Hf Hlt Hv Hne. unfold UpdateChecker.test_mc_version.
  rewrite (bind_ok _ _ _ _ _ Hf). rewrite Hlt. cbn [negb].
  unfold lift at 1. unfold bind at 1. rewrite Hv.
  destruct fvs as [|x xs]; [congruence|].
  unfold bind. destruct (for_loop _ _ _ _) as [[[u [info|]]|x0] w]; reflexivity.
Qed.

(** The search returns the result of the first loader candidate of the
    first newer engine version whose pair is accepted. *)
Lemma find_first_accepted (w0 w1 w2 w3 w4 : world)
  (manifest loader_data e l : json) (rest pre post : list json)
  (d : list (json * json)) (m : list json) :
  UpdateChecker._fetch_json remote UpdateChecker.manifest_url [] w0
    = (Ok manifest, w1) ->
  Py.truthy manifest = true ->
  UpdateChecker.newer_releases self manifest = Ok (e :: rest) ->
  UpdateChecker._fetch_json remote (UpdateChecker.loader_url py_repr e) [] w1
    = (Ok loader_data, w2) ->
  Py.truthy loader_data = true ->
  UpdateChecker.fabric_versions_of loader_data = Ok (pre ++ l :: post) ->
  all_rejected py_repr remote self e pre w2 w3 ->
  UpdateChecker.check_full_compatibility py_repr remote self e l w3
    = (Ok (true, d, m), w4) ->
  exists info : UpdateChecker.update_info,
    UpdateChecker.find_compatible_updates py_repr remote self w0
      = (Ok (Some info), w4)
    /\ UpdateChecker.minecraft_new info = e
    /\ UpdateChecker.fabric_new info = l
    /\ UpdateChecker.mods_found info = d.
Proof.
  intros Hm Ht Hn Hf Hlt Hv Hrej Hacc.
  destruct (check_full_compatibility_names py_repr remote self _ _ _ _ _ _ _ Hacc)
    as (mod_list & Hiter & _ & Hnamed).
  assert (Hm0 : m = []).
  { now apply (check_full_compatibility_sound py_repr remote self _ _ _ _ _ _ _ Hacc). }
  subst m.
  assert (Hstr : forall a_mod name : json,
             In a_mod mod_list -> Py.get a_mod "name" JNull = Ok name ->
             Py.truthy name = true -> exists s : string, name = JStr s).
  { intros a_mod name Hin Hget Htruthy.
    destruct (Hnamed a_mod name Hin Hget Htruthy) as [Hs|[]]. exact Hs. }
  destruct (iter_has_length _ _ Hiter) as [n Hlen].
  eexists. split.
  - rewrite (find_first_candidate py_repr remote self w0 w1 manifest e rest n
               Hlen Hm Ht Hn).
    assert (Hne : pre ++ l :: post <> []) by (destruct pre; discriminate).
    rewrite (test_mc_version_loop (e :: rest) 0 e loader_data (pre ++ l :: post)
               w1 w2 Hf Hlt Hv Hne).
    unfold enumerate.
    rewrite (loader_loop_first_accepted (e :: rest) (pre ++ l :: post) 0 e l post
               d [] mod_list Hiter Hstr pre 0 w2 w3 w4 Hrej Hacc).
    cbn [fst snd]. reflexivity.
  - repeat split.
Qed.

End SearchFacts.

(** C3 (as amended): a result is returned for a pair if and only if no
    configured mod with a non-empty name failed to resolve for that pair.
    A result comes only from a check of its own (engine, loader) pair
    that reported no missing mod, and it holds a resolution for every
    configured mod that has a non-empty name (entries whose name is
    missing or empty are skipped). A check resolves every such mod or
    reports it missing, and reports nothing else missing; the round of a
    pair returns a result exactly when the check of the pair reports no
    missing mod: a pair with a missing mod is rejected, whatever else
    resolved. And the
    search returns the result of the first loader candidate of the first
    newer engine version whose check reports no missing mod. *)
Theorem result_iff_every_named_mod_resolved
  (py_repr : json -> string) (remote : list request -> request -> response)
  (self : UpdateChecker.checker) :
  (forall (w0 w' : world) (info : UpdateChecker.update_info),
     UpdateChecker.find_compatible_updates py_repr remote self w0
       = (Ok (Some info), w') ->
     (exists wa : world,
        UpdateChecker.check_full_compatibility py_repr remote self
          (UpdateChecker.minecraft_new info) (UpdateChecker.fabric_new info) wa
          = (Ok (true, UpdateChecker.mods_found info, []), w'))
     /\ (forall (mod_list : list json) (a_mod name : json),
           Py.iter (UpdateChecker.mods self) = Ok mod_list ->
           In a_mod mod_list -> Py.get a_mod "name" JNull = Ok name ->
           Py.truthy name = true ->
           exists v : json, In (name, v) (UpdateChecker.mods_found info)))
  /\ (forall (newer fvs : list json) (i j : nat) (mc fv : json) (w w1 : world)
             (c : bool) (d : list (json * json)) (m : list json),
        UpdateChecker.check_full_compatibility py_repr remote self mc fv w
          = (Ok (c, d, m), w1) ->
        (exists mod_list : list json,
           Py.iter (UpdateChecker.mods self) = Ok mod_list
           /\ (forall a_mod name : json,
                 In a_mod mod_list -> Py.get a_mod "name" JNull = Ok name ->
                 Py.truthy name = true ->
                 (exists v : json, In (name, v) d) \/ In name m)
           /\ (forall name : json,
                 In name m ->
                 exists a_mod : json,
                   In a_mod mod_list /\ Py.get a_mod "name" JNull = Ok name
                   /\ Py.truthy name = true))
        /\ ((exists (info : UpdateChecker.update_info) (w2 : world),
               UpdateChecker.test_fabric_version py_repr remote self newer i mc
                 fvs j fv w = (Ok (tt, Return info), w2))
            <-> m = []))
  /\ (forall (w0 w1 w2 w3 w4 : world) (manifest loader_data e l : json)
             (rest pre post : list json) (d : list (json * json)) (m : list json),
        UpdateChecker._fetch_json remote UpdateChecker.manifest_url [] w0
          = (Ok manifest, w1) ->
        Py.truthy manifest = true ->
        UpdateChecker.newer_releases self manifest = Ok (e :: rest) ->
        UpdateChecker._fetch_json remote (UpdateChecker.loader_url py_repr e) [] w1
          = (Ok loader_data, w2) ->
        Py.truthy loader_data = true ->
        UpdateChecker.fabric_versions_of loader_data = Ok (pre ++ l :: post) ->
        all_rejected py_repr remote self e pre w2 w3 ->
        UpdateChecker.check_full_compatibility py_repr remote self e l w3
          = (Ok (true, d, m), w4) ->
        exists info : UpdateChecker.update_info,
          UpdateChecker.find_compatible_updates py_repr remote self w0
            = (Ok (Some info), w4)
          /\ UpdateChecker.minecraft_new info = e
          /\ UpdateChecker.fabric_new info = l
          /\ UpdateChecker.mods_found info = d).
Proof.
  split; [|split].
  - intros w0 w' info H.
    destruct (find_compatible_updates_return py_repr remote self w0 w' info H)
      as (wa & m & Hc).
    destruct (check_full_compatibility_sound py_repr remote self _ _ _ _ _ _ _ Hc)
      as [Hflag Hall].
    assert (Hm : m = []) by now apply Hflag. subst m.
    split; [eauto|].
    intros mod_list a_mod name Hiter Hin Hget Ht.
    destruct (Hall mod_list a_mod name Hiter Hin Hget Ht) as [Hv|[]]. exact Hv.
  - intros newer fvs i j mc fv w w1 c d m Hcheck.
    destruct (check_full_compatibility_sound py_repr remote self _ _ _ _ _ _ _ Hcheck)
      as [Hflag Hall].
    destruct (check_full_compatibility_names py_repr remote self _ _ _ _ _ _ _ Hcheck)
      as (mod_list & Hiter & Hmissing & _).
    split.
    { exists mod_list. split; [exact Hiter|]. split; [|exact Hmissing].
      intros a_mod name. now apply Hall. }
    split.
    + intros (info & w2 & Hret).
      destruct (test_fabric_version_return py_repr remote self _ _ _ _ _ _ tt _ _ _ _ Hret)
        as (m' & Hc & _).
      rewrite Hcheck in Hc. inversion Hc; subst. now apply Hflag.
    + intros Hm. assert (Hc : c = true) by now apply Hflag. subst c.
      eexists _, _.
      exact (test_fabric_version_accepts py_repr remote self newer fvs i j mc fv
               w w1 d m Hcheck).
  - intros w0 w1 w2 w3 w4 manifest loader_data e l rest pre post d m.
    apply find_first_accepted.
Qed.

Lemma result_iff_every_named_mod_resolved_witness :
  let run :=
    UpdateChecker.find_compatible_updates Scenario.repr Scenario.late_mod_remote
      Scenario.self Scenario.start in
  exists info : UpdateChecker.update_info,
    fst run = Ok (Some info)
    /\ UpdateChecker.fabric_new info = JStr "0.16.0"
    /\ exists v : json, In (JStr "Lithium", v) (UpdateChecker.mods_found info).
Proof.
  intros run.
  destruct (result_iff_every_named_mod_resolved Scenario.repr
              Scenario.late_mod_remote Scenario.self) as [Honly [_ Hif]].
  set (fetch := UpdateChecker._fetch_json Scenario.late_mod_remote).
  set (check := UpdateChecker.check_full_compatibility Scenario.repr
                  Scenario.late_mod_remote Scenario.self (JStr "1.21.2")).
  set (w1 := snd (fetch UpdateChecker.manifest_url [] Scenario.start)).
  set (w2 := snd (fetch (UpdateChecker.loader_url Scenario.repr (JStr "1.21.2")) [] w1)).
  set (w3 := snd (check (JStr "0.16.1") w2)).
  set (w4 := snd (check (JStr "0.16.0") w3)).
  destruct (Hif Scenario.start w1 w2 w3 w4 Scenario.manifest Scenario.loaders
              (JStr "1.21.2") (JStr "0.16.0") [] [JStr "0.16.1"] []
              [(JStr "Lithium",
                JObj [("version", JStr "1.0");
                      ("url", JStr "https://cdn.example/lithium.jar");
                      ("project_id", JStr "P1")])] [])
    as (info & Hrun & _ & Hl & _); try (vm_compute; reflexivity).
  { exists [], [JStr "Lithium"], w3. split; vm_compute; reflexivity. }
  exists info. split; [unfold run; now rewrite Hrun|]. split; [exact Hl|].
  destruct (Honly Scenario.start w4 info Hrun) as [_ Hall].
  apply (Hall [JObj [("name", JStr "Lithium")]] (JObj [("name", JStr "Lithium")])
           (JStr "Lithium")); try reflexivity.
  now left.
Defined.

(** C3 as stated fails: a configured mod entry whose name is the empty
    string is skipped, so a result is returned that holds no resolution
    for it. *)
Lemma unnamed_mod_has_no_resolution :
  UpdateChecker.mods Scenario.self_unnamed
    = JArr [JObj [("name", JStr EmptyString); ("slug", JStr "lithium")]]
  /\ exists info : UpdateChecker.update_info,
       fst (UpdateChecker.find_compatible_updates Scenario.repr
              Scenario.late_mod_remote Scenario.self_unnamed Scenario.start)
         = Ok (Some info)
       /\ UpdateChecker.mods_found info = [].
Proof.
  split; [reflexivity|]. eexists. split; [vm_compute; reflexivity|reflexivity].
Qed.

(** ** Downloads *)

Section DownloadFacts.

Variable py_repr : json -> string.
Variable path_dirname : string -> string.
Variable transfers : list request -> request -> transfer.
Variable refused : gmap string node -> fs_op -> bool.

(** After the handler of [_download_file] returned, no file is left at
    the destination. *)
Lemma download_except_absent (path : string) (e : exn) (w w' : world) (b : bool) :
  DownloadManager.download_except refused (JStr path) e w = (Ok b, w') ->
  b = false /\ files w' !! path = None.
Proof.
  unfold DownloadManager.download_except. intros H.
  bind_inv H as u1 w1 Hsay. bind_inv H as there w2 Hex.
  bind_inv H as u2 w3 Hrm. ret_inv H. split; [reflexivity|].
  unfold os_path_exists in Hex. bind_inv Hex as p w4 Hp. lift_inv Hp as Hp'.
  cbn in Hp'. inversion Hp'; subst p. inversion Hex; subst. clear Hex.
  destruct (files w2 !! path) as [n|] eqn:E; [|ret_inv Hrm; exact E].
  unfold os_remove in Hrm. bind_inv Hrm as p w4 Hp. lift_inv Hp as Hp''.
  cbn in Hp''. inversion Hp''; subst p. rewrite E in Hrm.
  destruct n as [c|]; [|discriminate].
  destruct (refused (files w2) (Remove path)); [discriminate|].
  inversion Hrm; subst. cbn. apply lookup_delete_eq.
Qed.

(** The try body returns [True] only. *)
Lemma download_try_true (url destination : json) (w w' : world) (b : bool) :
  DownloadManager.download_try py_repr path_dirname transfers refused
    url destination w = (Ok b, w') -> b = true.
Proof.
  unfold DownloadManager.download_try. intros H.
  bind_inv H as path w1 H1. bind_inv H as u1 w2 H2. bind_inv H as u2 w3 H3.
  bind_inv H as response w4 H4. bind_inv H as u3 w5 H5.
  bind_inv H as u4 w6 H6. bind_inv H as size w7 H7. bind_inv H as u5 w8 H8.
  ret_inv H. reflexivity.
Qed.

Lemma download_file_false_absent (url : json) (path : string) (w w' : world) :
  DownloadManager._download_file py_repr path_dirname transfers refused
    url (JStr path) w = (Ok false, w') ->
  files w' !! path = None.
Proof.
  unfold DownloadManager._download_file, try_except.
  destruct (DownloadManager.download_try _ _ _ _ _ _ _) as [[b|e] w1] eqn:E.
  - intros H. inversion H; subst. apply download_try_true in E. discriminate.
  - intros H. apply download_except_absent in H. tauto.
Qed.

(** When the try body raised and left a file the operating system lets
    go of, the handler removes it and [_download_file] returns [False]. *)
Lemma download_file_removes (url : json) (path content : string) (e : exn)
  (w w1 : world) :
  DownloadManager.download_try py_repr path_dirname transfers refused
    url (JStr path) w = (Raise e, w1) ->
  files w1 !! path = Some (File content) ->
  refused (files w1) (Remove path) = false ->
  exists w',
    DownloadManager._download_file py_repr path_dirname transfers refused
      url (JStr path) w = (Ok false, w')
    /\ files w' = delete path (files w1).
Proof.
  intros Htry Hfile Hok.
  unfold DownloadManager._download_file, try_except. rewrite Htry.
  unfold DownloadManager.download_except, say, os_path_exists, os_remove,
    bind, lift, ret, print, set_files.
  cbn [Py.path files fst snd]. rewrite Hfile.
  cbn [Py.path files fst snd]. rewrite Hfile, Hok.
  eexists. split; reflexivity.
Qed.

(** When the try body raised and left a file the operating system does
    not let go of, the handler raises in its turn and the file stays. *)
Lemma download_file_keeps (url : json) (path content : string) (e : exn)
  (w w1 : world) :
  DownloadManager.download_try py_repr path_dirname transfers refused
    url (JStr path) w = (Raise e, w1) ->
  files w1 !! path = Some (File content) ->
  refused (files w1) (Remove path) = true ->
  exists w',
    DownloadManager._download_file py_repr path_dirname transfers refused
      url (JStr path) w = (Raise OSError, w')
    /\ files w' = files w1.
Proof.
  intros Htry Hfile Hno.
  unfold DownloadManager._download_file, try_except. rewrite Htry.
  unfold DownloadManager.download_except, say, os_path_exists, os_remove,
    bind, lift, ret, print, set_files.
  cbn [Py.path files fst snd]. rewrite Hfile.
  cbn [Py.path files fst snd]. rewrite Hfile, Hno.
  eexists. split; reflexivity.
Qed.

(** The try body once the destination could be opened: the bytes that
    arrive are in the file, and the body raises exactly when the
    connection broke. *)
Lemma download_try_after_open (url : json) (path body : string) (how : ending)
  (w : world) :
  files w !! (if String.eqb (path_dirname path) EmptyString then "."%string
              else path_dirname path) = Some Dir ->
  files w !! path <> Some Dir ->
  refused (files w) (OpenWrite path) = false ->
  transfers (requests w)
    {| req_url := Py.format py_repr url;
       req_headers := [("User-Agent", JStr "minecraft-server-manager/1.0")];
       req_timeout := 60 |} = Stream body how ->
  exists w1 : world,
    DownloadManager.download_try py_repr path_dirname transfers refused
      url (JStr path) w
    = (match how with Broken _ => Raise OSError | _ => Ok true end, w1)
    /\ files w1 = <[path := File (received body how)]> (files w).
Proof.
  intros Hdir Hpath Hopen Ht.
  unfold DownloadManager.download_try, bind, lift. cbn [Py.path].
  unfold os_makedirs at 1. rewrite Hdir.
  unfold say at 1. unfold DownloadManager.urlopen_file.
  cbn [requests files print]. rewrite Ht. cbn [fst snd].
  unfold open_wb, log_request, print. cbn [files requests console].
  assert (Hnode : match files w !! path with Some Dir => False | _ => True end).
  { destruct (files w !! path) as [[c|]|]; auto. }
  destruct (files w !! path) as [[c|]|] eqn:E; [| destruct Hnode |];
    rewrite Hopen; unfold copyfileobj, set_files; cbn [files];
    rewrite insert_insert_eq;
    (destruct how;
     [ unfold os_path_getsize, bind, lift; cbn [Py.path files];
       rewrite lookup_insert_eq; unfold say, ret; cbn [files print];
       eexists; split; reflexivity
     | eexists; split; reflexivity
     | unfold os_path_getsize, bind, lift; cbn [Py.path files];
       rewrite lookup_insert_eq; unfold say, ret; cbn [files print];
       eexists; split; reflexivity ]).
Qed.

End DownloadFacts.

(** C8 (as amended): whenever [_download_file] returns failure, no file
    is left at the destination. For a transfer into a destination that
    could be opened, the bytes that arrived are in the file when the
    transfer ends, and then: when the connection broke, the handler
    removes the file and failure is returned, unless the operating
    system refuses the removal, in which case [OSError] leaves the
    function and the truncated file stays; when the peer closed the
    connection early, nothing is noticed: success is returned and the
    truncated file stays. *)
Theorem failed_download_leaves_no_file
  (py_repr : json -> string) (path_dirname : string -> string)
  (transfers : list request -> request -> transfer)
  (refused : gmap string node -> fs_op -> bool)
  (url : json) (path : string) (w : world) :
  (forall w' : world,
     DownloadManager._download_file py_repr path_dirname transfers refused
       url (JStr path) w = (Ok false, w') ->
     files w' !! path = None)
  /\ (forall (body : string) (how : ending),
        files w !! (if String.eqb (path_dirname path) EmptyString then "."%string
                    else path_dirname path) = Some Dir ->
        files w !! path <> Some Dir ->
        refused (files w) (OpenWrite path) = false ->
        transfers (requests w)
          {| req_url := Py.format py_repr url;
             req_headers := [("User-Agent", JStr "minecraft-server-manager/1.0")];
             req_timeout := 60 |} = Stream body how ->
        exists w' : world,
          match how with
          | Broken _ =>
              if refused (<[path := File (received body how)]> (files w))
                   (Remove path)
              then
                DownloadManager._download_file py_repr path_dirname transfers
                  refused url (JStr path) w = (Raise OSError, w')
                /\ files w' !! path = Some (File (received body how))
              else
                DownloadManager._download_file py_repr path_dirname transfers
                  refused url (JStr path) w = (Ok false, w')
                /\ files w' !! path = None
          | Whole | Closed _ =>
              DownloadManager._download_file py_repr path_dirname transfers
                refused url (JStr path) w = (Ok true, w')
              /\ files w' !! path = Some (File (received body how))
          end).
Proof.
  split.
  - intros w'. apply download_file_false_absent.
  - intros body how Hdir Hpath Hopen Ht.
    destruct (download_try_after_open py_repr path_dirname transfers refused
                url path body how w Hdir Hpath Hopen Ht) as (w1 & Htry & Hfiles).
    assert (Hfile : files w1 !! path = Some (File (received body how))).
    { rewrite Hfiles. apply lookup_insert_eq. }
    destruct how as [|k|k].
    + exists w1. split; [|exact Hfile].
      unfold DownloadManager._download_file, try_except. now rewrite Htry.
    + rewrite <- Hfiles.
      destruct (refused (files w1) (Remove path)) eqn:Hno.
      * destruct (download_file_keeps py_repr path_dirname transfers refused
                    url path _ _ w w1 Htry Hfile Hno) as (w' & Hrun & Hkept).
        exists w'. split; [exact Hrun|]. now rewrite Hkept.
      * destruct (download_file_removes py_repr path_dirname transfers refused
                    url path _ _ w w1 Htry Hfile Hno) as (w' & Hrun & Hgone).
        exists w'. split; [exact Hrun|]. rewrite Hgone. apply lookup_delete_eq.
    + exists w1. split; [|exact Hfile].
      unfold DownloadManager._download_file, try_except. now rewrite Htry.
Qed.

Lemma failed_download_leaves_no_file_witness :
  let run :=
    DownloadManager._download_file Scenario.repr Scenario.dirname
      Scenario.cut_transfers Scenario.permissive
      (JStr "https://example.org/a.jar") (JStr "mods/a.jar") Scenario.stocked in
  files Scenario.stocked !! "mods/a.jar" = Some (File "old")
  /\ fst run = Ok false /\ files (snd run) !! "mods/a.jar" = None.
Proof.
  intros run. split; [vm_compute; reflexivity|].
  destruct (proj2 (failed_download_leaves_no_file Scenario.repr Scenario.dirname
                     Scenario.cut_transfers Scenario.permissive
                     (JStr "https://example.org/a.jar") "mods/a.jar"
                     Scenario.stocked) "0123456789" (Broken 4))
    as (w' & Hrun & Hgone).
  - vm_compute. reflexivity.
  - vm_compute. discriminate.
  - reflexivity.
  - reflexivity.
  - cbn [Scenario.permissive] in Hrun, Hgone. unfold run. rewrite Hrun.
    split; [reflexivity|exact Hgone].
Defined.

(** C8 as stated fails: when the operating system refuses the removal,
    the handler raises and the truncated file stays at the destination;
    and when the peer closes the connection early, the download returns
    success with the truncated file in place. *)
Lemma truncated_file_can_stay :
  let refusing :=
    DownloadManager._download_file Scenario.repr Scenario.dirname
      Scenario.cut_transfers Scenario.keeping
      (JStr "https://example.org/a.jar") (JStr "mods/a.jar") Scenario.start in
  let unnoticed :=
    DownloadManager._download_file Scenario.repr Scenario.dirname
      Scenario.short_transfers Scenario.permissive
      (JStr "https://example.org/a.jar") (JStr "mods/a.jar") Scenario.start in
  (fst refusing = Raise OSError
   /\ files (snd refusing) !! "mods/a.jar" = Some (File "0123"))
  /\ (fst unnoticed = Ok true
      /\ files (snd unnoticed) !! "mods/a.jar" = Some (File "0123")).
Proof. vm_compute. repeat split; reflexivity. Qed.

(** ** Registry fetches *)




(** ** Building the plan *)

Lemma set_key_in (d : list (string * json)) (k0 : string) (v0 : json)
  (k : string) (v : json) :
  In (k, v) (Py.set_key d k0 v0) -> (k = k0 /\ v = v0) \/ In (k, v) d.
Proof.
  induction d as [|[k' v'] d IH]; simpl.
  - intros [H|H]; [|destruct H]. inversion H. auto.
  - destruct (String.eqb_spec k' k0) as [->|Hne]; simpl.
    + intros [H|H]; [inversion H; auto|auto].
    + intros [H|H]; [auto|]. destruct (IH H); auto.
Qed.

Lemma in_list_count (environment : json) :
  ((if Py.in_list environment [JStr "server"; JStr "both"] then 1 else 0)
   + (if Py.in_list environment [JStr "client"; JStr "both"] then 1 else 0))%nat
  = destination_count environment.
Proof.
  destruct environment as [| | | |s| |]; try reflexivity.
  unfold destination_count, Py.in_list. cbn [existsb Py.eq].
  rewrite (String.eqb_sym "server" s), (String.eqb_sym "both" s),
    (String.eqb_sym "client" s).
  destruct (String.eqb_spec s "both") as [->|Hb]; [reflexivity|].
  destruct (String.eqb_spec s "client") as [->|Hc]; [reflexivity|].
  destruct (String.eqb_spec s "server") as [->|Hs]; reflexivity.
Qed.

Lemma destination_count_recognised (environment : json) :
  destination_count environment <> 0%nat <->
  environment = JStr "client" \/ environment = JStr "server"
  \/ environment = JStr "both".
Proof.
  split.
  - destruct environment as [| | | |s| |]; simpl; try congruence.
    destruct (String.eqb_spec s "both") as [->|Hb]; [auto|].
    destruct (String.eqb_spec s "client") as [->|Hc]; [auto|].
    destruct (String.eqb_spec s "server") as [->|Hs]; [auto|].
    simpl. congruence.
  - intros H. destruct H as [H|[H|H]]; subst; simpl; discriminate.
Qed.

Section PlanFacts.

Variable py_repr : json -> string.
Variable str_format : string -> list (string * json) -> res string.
Variable path_join : string -> string -> string.
Variable remote : list request -> request -> response.
Variable self : DownloadManager.manager.

Lemma destinations_for_count (environment base filename : json)
  (destinations : list json) :
  DownloadManager.destinations_for path_join environment base filename
    = Ok destinations ->
  length destinations = destination_count environment.
Proof.
  unfold DownloadManager.destinations_for. intros H.
  apply res_bind_inv in H as (server & Hs & H).
  apply res_bind_inv in H as (client & Hc & H).
  inversion H; subst. rewrite length_app, <- in_list_count. f_equal.
  - destruct (Py.in_list environment [JStr "server"; JStr "both"]).
    + apply res_bind_inv in Hs as (p & _ & Hs). now inversion Hs.
    + now inversion Hs.
  - destruct (Py.in_list environment [JStr "client"; JStr "both"]).
    + apply res_bind_inv in Hc as (d & _ & Hc).
      apply res_bind_inv in Hc as (p & _ & Hc). now inversion Hc.
    + now inversion Hc.
Qed.

Lemma plan_ok_seen (seen seen' : list json) (downloads : list (string * json)) :
  (forall x, In x seen -> In x seen') ->
  plan_ok path_join seen downloads -> plan_ok path_join seen' downloads.
Proof.
  intros Hsub H key item Hin Htype.
  destruct (H key item Hin Htype) as (a_mod & Ha & Hp). eauto.
Qed.

Lemma add_single_plan_ok (key type name : string) (version source : json)
  (result : option (json * json)) (seen : list json)
  (downloads downloads' : list (string * json)) :
  type <> "mod" ->
  plan_ok path_join seen downloads ->
  DownloadManager.add_single path_join self key type name version source
    result downloads = Ok downloads' ->
  plan_ok path_join seen downloads'.
Proof.
  intros Htype HP H. unfold DownloadManager.add_single in H.
  destruct result as [[url filename]|]; [|inversion H; subst; exact HP].
  apply res_bind_inv in H as (target_dir & _ & H).
  apply res_bind_inv in H as (destination & _ & H).
  inversion H; subst. intros k item Hin Hmod.
  apply set_key_in in Hin. destruct Hin as [[_ ->]|Hin]; [|eauto].
  simpl in Hmod. inversion Hmod. contradiction.
Qed.

Lemma add_minecraft_plan_ok (seen : list json)
  (downloads downloads' : list (string * json)) (w w' : world) :
  plan_ok path_join seen downloads ->
  DownloadManager.add_minecraft py_repr path_join remote self downloads w
    = (Ok downloads', w') ->
  plan_ok path_join seen downloads'.
Proof.
  intros HP H. unfold DownloadManager.add_minecraft in H.
  bind_inv H as minecraft_config w1 H1.
  destruct (Py.truthy minecraft_config); [|ret_inv H; exact HP].
  bind_inv H as version w2 H2. bind_inv H as source w3 H3.
  bind_inv H as result w4 H4. lift_inv H as Hadd.
  eapply add_single_plan_ok; [|exact HP|exact Hadd]. discriminate.
Qed.

Lemma add_fabric_plan_ok (seen : list json)
  (downloads downloads' : list (string * json)) (w w' : world) :
  plan_ok path_join seen downloads ->
  DownloadManager.add_fabric str_format path_join self downloads w
    = (Ok downloads', w') ->
  plan_ok path_join seen downloads'.
Proof.
  intros HP H. unfold DownloadManager.add_fabric in H.
  bind_inv H as fabric_config w1 H1.
  destruct (Py.truthy fabric_config); [|ret_inv H; exact HP].
  bind_inv H as version w2 H2. bind_inv H as source w3 H3.
  bind_inv H as result w4 H4. lift_inv H as Hadd.
  eapply add_single_plan_ok; [|exact HP|exact Hadd]. discriminate.
Qed.

(** A round of the loop over the mods leaves the plan as it is or sets
    one entry, planned for the mod of the round. *)
Lemma add_mod_cases (a_mod : json) (downloads downloads' : list (string * json))
  (f : flow unit) (w w' : world) :
  DownloadManager.add_mod py_repr str_format path_join remote self
    a_mod downloads w = (Ok (downloads', f), w') ->
  f = Next
  /\ (downloads' = downloads
      \/ exists (key : string) (item : json),
           downloads' = Py.set_key downloads key item
           /\ Py.getitem item "type" = Ok (JStr "mod")
           /\ planned_for path_join a_mod item).
Proof.
  unfold DownloadManager.add_mod. intros H.
  bind_inv H as mod_name w1 H1. lift_inv H1 as E1.
  bind_inv H as version w2 H2. lift_inv H2 as E2.
  bind_inv H as source w3 H3. lift_inv H3 as E3.
  bind_inv H as slug w4 H4. lift_inv H4 as E4.
  bind_inv H as environment w5 H5. lift_inv H5 as E5.
  destruct (negb (Py.truthy version)).
  - ret_inv H. inversion H; subst. auto.
  - bind_inv H as resolved w6 Hres.
    destruct resolved as [[[[url filename]|] resolved_slug]|].
    + bind_inv H as base w7 Hb. lift_inv Hb as Eb.
      bind_inv H as destinations w8 Hd. lift_inv Hd as Ed.
      ret_inv H. inversion H; subst. split; [reflexivity|]. right.
      eexists _, _. split; [reflexivity|]. split; [reflexivity|].
      exists environment, base, filename, destinations.
      split; [exact E5|]. repeat (split; [reflexivity|]). exact Ed.
    + ret_inv H. inversion H; subst. auto.
    + ret_inv H. inversion H; subst. auto.
Qed.

Lemma add_mod_plan_ok (seen : list json) (a_mod : json)
  (downloads downloads' : list (string * json)) (f : flow unit) (w w' : world) :
  plan_ok path_join seen downloads ->
  DownloadManager.add_mod py_repr str_format path_join remote self
    a_mod downloads w = (Ok (downloads', f), w') ->
  plan_ok path_join (seen ++ [a_mod]) downloads'.
Proof.
  intros HP H. apply add_mod_cases in H.
  destruct H as [_ [->|(key & item & -> & _ & Hitem)]].
  - eapply plan_ok_seen; [|exact HP]. intros x Hx. apply in_or_app; auto.
  - intros k v Hin Htype. apply set_key_in in Hin.
    destruct Hin as [[_ ->]|Hin].
    + exists a_mod. split; [apply in_or_app; right; now left|exact Hitem].
    + destruct (HP k v Hin Htype) as (m & Hm & Hp).
      exists m. split; [apply in_or_app; auto|exact Hp].
Qed.

(** The plan [build_download_list] returns: its mod entries stem from
    the elements of the configured [mods]. *)
Lemma build_download_list_plan_ok (w w' : world) (plan : list (string * json)) :
  DownloadManager.build_download_list py_repr str_format path_join remote self w
    = (Ok plan, w') ->
  exists (mods_config : json) (mods : list json),
    Py.get (DownloadManager.config self) "mods" (JArr []) = Ok mods_config
    /\ (mods = [] \/ Py.iter mods_config = Ok mods)
    /\ plan_ok path_join mods plan.
Proof.
  unfold DownloadManager.build_download_list. intros H.
  bind_inv H as d1 w1 H1. bind_inv H as d2 w2 H2.
  bind_inv H as mods_config w3 H3. lift_inv H3 as E3.
  assert (HP : plan_ok path_join [] d2).
  { eapply add_fabric_plan_ok; [|exact H2].
    eapply add_minecraft_plan_ok; [|exact H1].
    intros key item Hin. destruct Hin. }
  exists mods_config.
  destruct (Py.truthy mods_config).
  - bind_inv H as n w4 H4. lift_inv H4 as E4.
    bind_inv H as mods w5 H5. lift_inv H5 as E5.
    bind_inv H as r w6 H6. ret_inv H. destruct r as [s' r].
    exists mods. split; [exact E3|]. split; [now right|].
    pose proof (for_loop_next_invariant (plan_ok path_join)
                  (DownloadManager.add_mod py_repr str_format path_join remote self))
      as Hinv.
    destruct (Hinv
                (fun x s w s' f w' Hb => proj1 (add_mod_cases x s s' f w w' Hb))
                (fun seen x s w s' f w' Hs Hb => add_mod_plan_ok seen x s s' f w w' Hs Hb)
                mods [] d2 _ _ _ _ HP H6) as [Hplan _].
    exact Hplan.
  - ret_inv H. exists []. split; [exact E3|]. split; [now left|exact HP].
Qed.

(** A round of the loop over the mods for a mod with a version that was
    resolved: the mod is planned with the destinations of its
    environment. *)
Lemma add_mod_plans
  (a_mod mod_name version source slug environment url filename resolved_slug
     base : json)
  (downloads : list (string * json)) (w w1 : world) :
  Py.get a_mod "name" JNull = Ok mod_name ->
  Py.get a_mod "version" JNull = Ok version ->
  Py.get a_mod "source" (JStr "modrinth") = Ok source ->
  Py.get a_mod "slug" JNull = Ok slug ->
  Py.get a_mod "environment" (JStr "both") = Ok environment ->
  Py.truthy version = true ->
  DownloadManager.resolve_mod py_repr str_format remote self
    a_mod mod_name version source slug w
    = (Ok (Some (Some (url, filename), resolved_slug)), w1) ->
  DownloadManager.target_dir_of self source = Ok base ->
  DownloadManager.add_mod py_repr str_format path_join remote self
    a_mod downloads w =
  match DownloadManager.destinations_for path_join environment base filename with
  | Ok destinations =>
      (Ok (Py.set_key downloads ("mod_" +:+ Py.format py_repr mod_name)
             (DownloadManager.mod_entry mod_name version url filename base
                environment destinations resolved_slug),
           Next), w1)
  | Raise x => (Raise x, w1)
  end.
Proof.
  intros E1 E2 E3 E4 E5 Ht Hres Hbase.
  unfold DownloadManager.add_mod, bind, lift.
  rewrite E1, E2, E3, E4, E5, Ht. cbn [negb]. rewrite Hres, Hbase.
  destruct (DownloadManager.destinations_for _ _ _ _); reflexivity.
Qed.

(** An environment that is none of the three gives no destination. *)
Lemma destinations_for_unrecognised (environment base filename : json) :
  ~ (environment = JStr "client" \/ environment = JStr "server"
     \/ environment = JStr "both") ->
  DownloadManager.destinations_for path_join environment base filename = Ok [].
Proof.
  intros Hno. rewrite <- destination_count_recognised in Hno.
  assert (Hzero : destination_count environment = 0%nat).
  { destruct (destination_count environment); [reflexivity|].
    exfalso. apply Hno. discriminate. }
  rewrite <- in_list_count in Hzero.
  unfold DownloadManager.destinations_for.
  destruct (Py.in_list environment [JStr "server"; JStr "both"]);
    [discriminate|].
  destruct (Py.in_list environment [JStr "client"; JStr "both"]);
    [discriminate|].
  reflexivity.
Qed.

(** The destinations cannot be built only where a path is not a [str]. *)
Lemma destinations_for_raises (environment base filename : json) (x : exn) :
  DownloadManager.destinations_for path_join environment base filename = Raise x ->
  x = TypeError.
Proof.
  unfold DownloadManager.destinations_for, DownloadManager.os_path_join.
  destruct (Py.in_list environment [JStr "server"; JStr "both"]),
    (Py.in_list environment [JStr "client"; JStr "both"]),
    base, filename; cbn; intros H; now inversion H.
Qed.

(** The two destinations of a mod for both sides. *)
Lemma destinations_for_both (target_dir filename : json) (destinations : list json) :
  DownloadManager.destinations_for path_join (JStr "both") target_dir filename
    = Ok destinations ->
  exists base name : string,
    target_dir = JStr base /\ filename = JStr name
    /\ destinations = [JStr (path_join base name);
                       JStr (path_join (path_join base "client") name)].
Proof.
  unfold DownloadManager.destinations_for. intros H.
  destruct target_dir, filename; try discriminate H.
  simpl in H. inversion H. eauto.
Qed.

End PlanFacts.

(** C9: in the plan [build_download_list] returns, a mod entry whose
    environment is [both] has exactly two destinations, the server path
    and the path in the client subdirectory, and a mod entry whose
    environment is [client] or [server] has exactly one. *)
Theorem mod_entries_destination_count
  (py_repr : json -> string)
  (str_format : string -> list (string * json) -> res string)
  (path_join : string -> string -> string)
  (remote : list request -> request -> response)
  (self : DownloadManager.manager) (w w' : world)
  (plan : list (string * json)) (key : string) (item : json) :
  DownloadManager.build_download_list py_repr str_format path_join remote self w
    = (Ok plan, w') ->
  In (key, item) plan ->
  Py.getitem item "type" = Ok (JStr "mod") ->
  exists (environment : json) (destinations : list json),
    Py.getitem item "environment" = Ok environment
    /\ Py.getitem item "destinations" = Ok (JArr destinations)
    /\ (environment = JStr "both" ->
        length destinations = 2%nat
        /\ exists base name : string,
             Py.getitem item "target_dir" = Ok (JStr base)
             /\ Py.getitem item "filename" = Ok (JStr name)
             /\ destinations = [JStr (path_join base name);
                                JStr (path_join (path_join base "client") name)])
    /\ (environment = JStr "client" \/ environment = JStr "server" ->
        length destinations = 1%nat).
Proof.
  intros Hbuild Hin Htype.
  destruct (build_download_list_plan_ok _ _ _ _ _ _ _ _ Hbuild)
    as (mods_config & mods & _ & _ & Hplan).
  destruct (Hplan key item Hin Htype)
    as (a_mod & _ & environment & target_dir & filename & destinations
        & _ & Henv & Hdir & Hname & Hdests & Hfor).
  exists environment, destinations.
  split; [exact Henv|]. split; [exact Hdests|].
  pose proof (destinations_for_count _ _ _ _ _ Hfor) as Hcount.
  split.
  - intros ->. split; [exact Hcount|].
    destruct (destinations_for_both _ _ _ _ Hfor) as (base & name & -> & -> & ->).
    eauto.
  - intros H. destruct H as [H|H]; subst environment; exact Hcount.
Qed.

Lemma mod_entries_destination_count_witness :
  exists (environment : json) (destinations : list json),
    Py.getitem (Scenario.planned "b" "client" [JStr "mods/client/b.jar"])
      "environment" = Ok environment
    /\ Py.getitem (Scenario.planned "b" "client" [JStr "mods/client/b.jar"])
         "destinations" = Ok (JArr destinations)
    /\ (environment = JStr "both" ->
        length destinations = 2%nat
        /\ exists base name : string,
             Py.getitem (Scenario.planned "b" "client" [JStr "mods/client/b.jar"])
               "target_dir" = Ok (JStr base)
             /\ Py.getitem (Scenario.planned "b" "client" [JStr "mods/client/b.jar"])
                  "filename" = Ok (JStr name)
             /\ destinations = [JStr (Scenario.join base name);
                                JStr (Scenario.join (Scenario.join base "client") name)])
    /\ (environment = JStr "client" \/ environment = JStr "server" ->
        length destinations = 1%nat).
Proof.
  apply (mod_entries_destination_count Scenario.repr Scenario.plain_format
           Scenario.join Scenario.silent_remote Scenario.manager
           Scenario.start Scenario.start Scenario.built "mod_b").
  - vm_compute. reflexivity.
  - right. left. reflexivity.
  - reflexivity.
Defined.

(** C10: a round of the loop of [build_download_list] for a mod with a
    version that was resolved plans the mod under the environment the
    mod gives, [both] where it gives none: with one of [client],
    [server] and [both] the entry gets a destination (or the round
    raises [TypeError], where the target directory or the file name is
    no [str]), with any other environment the entry is planned with no
    destination at all. So a mod entry of the plan [build_download_list]
    returns carries the environment of a configured mod and has a
    destination exactly when this environment is one of the three. A
    round of [download_all] on a mod entry without destinations raises
    [IndexError] at [destinations[0]], before any request or change to
    the files. *)
Theorem unrecognised_environment_never_downloads
  (py_repr : json -> string)
  (str_format : string -> list (string * json) -> res string)
  (path_join : string -> string -> string)
  (path_dirname path_basename : string -> string)
  (remote : list request -> request -> response)
  (transfers : list request -> request -> transfer)
  (refused : gmap string node -> fs_op -> bool)
  (self : DownloadManager.manager) :
  (forall (a_mod mod_name version source slug environment url filename
             resolved_slug base : json)
          (downloads : list (string * json)) (w w1 : world),
     Py.get a_mod "name" JNull = Ok mod_name ->
     Py.get a_mod "version" JNull = Ok version ->
     Py.get a_mod "source" (JStr "modrinth") = Ok source ->
     Py.get a_mod "slug" JNull = Ok slug ->
     Py.get a_mod "environment" (JStr "both") = Ok environment ->
     Py.truthy version = true ->
     DownloadManager.resolve_mod py_repr str_format remote self
       a_mod mod_name version source slug w
       = (Ok (Some (Some (url, filename), resolved_slug)), w1) ->
     DownloadManager.target_dir_of self source = Ok base ->
     (forall fields : list (string * json),
        a_mod = JObj fields -> Py.lookup "environment" fields = None ->
        environment = JStr "both")
     /\ (environment = JStr "client" \/ environment = JStr "server"
         \/ environment = JStr "both" ->
         (exists destinations : list json,
            destinations <> []
            /\ DownloadManager.add_mod py_repr str_format path_join remote self
                 a_mod downloads w
               = (Ok (Py.set_key downloads ("mod_" +:+ Py.format py_repr mod_name)
                        (DownloadManager.mod_entry mod_name version url filename
                           base environment destinations resolved_slug),
                      Next), w1))
         \/ DownloadManager.add_mod py_repr str_format path_join remote self
              a_mod downloads w = (Raise TypeError, w1))
     /\ (~ (environment = JStr "client" \/ environment = JStr "server"
            \/ environment = JStr "both") ->
         DownloadManager.add_mod py_repr str_format path_join remote self
           a_mod downloads w
         = (Ok (Py.set_key downloads ("mod_" +:+ Py.format py_repr mod_name)
                  (DownloadManager.mod_entry mod_name version url filename
                     base environment [] resolved_slug),
                Next), w1)
         /\ forall (counts : Z * Z) (w2 : world),
              DownloadManager.download_item py_repr path_join path_dirname
                path_basename transfers refused
                (DownloadManager.mod_entry mod_name version url filename
                   base environment [] resolved_slug) counts w2
              = (Raise IndexError, w2)))
  /\ (forall (w w' : world) (plan : list (string * json)) (key : string)
             (item : json),
        DownloadManager.build_download_list py_repr str_format path_join remote
          self w = (Ok plan, w') ->
        In (key, item) plan ->
        Py.getitem item "type" = Ok (JStr "mod") ->
        exists (mods_config : json) (mods : list json) (a_mod environment : json)
               (destinations : list json),
          Py.get (DownloadManager.config self) "mods" (JArr []) = Ok mods_config
          /\ Py.iter mods_config = Ok mods
          /\ In a_mod mods
          /\ Py.get a_mod "environment" (JStr "both") = Ok environment
          /\ (forall fields : list (string * json),
                a_mod = JObj fields -> Py.lookup "environment" fields = None ->
                environment = JStr "both")
          /\ Py.getitem item "environment" = Ok environment
          /\ Py.getitem item "destinations" = Ok (JArr destinations)
          /\ (destinations <> [] <->
              environment = JStr "client" \/ environment = JStr "server"
              \/ environment = JStr "both"))
  /\ (forall (fields : list (string * json)) (name version : json)
             (counts : Z * Z) (w : world),
        Py.lookup "name" fields = Some name ->
        Py.lookup "version" fields = Some version ->
        Py.lookup "type" fields = Some (JStr "mod") ->
        Py.lookup "destinations" fields = Some (JArr []) ->
        DownloadManager.download_item py_repr path_join path_dirname path_basename
          transfers refused (JObj fields) counts w
        = (Raise IndexError, w)).
Proof.
  assert (Hrun : forall (fields : list (string * json)) (name version : json)
                   (counts : Z * Z) (w : world),
             Py.lookup "name" fields = Some name ->
             Py.lookup "version" fields = Some version ->
             Py.lookup "type" fields = Some (JStr "mod") ->
             Py.lookup "destinations" fields = Some (JArr []) ->
             DownloadManager.download_item py_repr path_join path_dirname
               path_basename transfers refused (JObj fields) counts w
             = (Raise IndexError, w)).
  { intros fields name version counts w Hname Hversion Htype Hdests.
    unfold DownloadManager.download_item, DownloadManager.has_destinations,
      bind, lift.
    cbn [Py.get Py.getitem Py.contains res_bind].
    rewrite Hname, Hversion, Htype, Hdests. cbn [Py.eq res_bind].
    cbn [String.eqb Ascii.eqb Bool.eqb].
    unfold DownloadManager.download_mod, bind, lift.
    cbn [Py.get Py.getitem]. rewrite Hdests.
    destruct (Py.lookup "slug" fields) as [slug|]; cbn [Py.truthy];
      [destruct (Py.truthy slug)|]; reflexivity. }
  split; [|split; [|exact Hrun]].
  - intros a_mod mod_name version source slug environment url filename
      resolved_slug base downloads w w1 E1 E2 E3 E4 E5 Ht Hres Hbase.
    pose proof (add_mod_plans py_repr str_format path_join remote self
                  a_mod mod_name version source slug environment url filename
                  resolved_slug base downloads w w1 E1 E2 E3 E4 E5 Ht Hres Hbase)
      as Hadd.
    split; [|split].
    + intros fields -> Hnone. simpl in E5. rewrite Hnone in E5.
      now inversion E5.
    + intros Hyes.
      destruct (DownloadManager.destinations_for path_join environment base
                  filename) as [destinations|x] eqn:Efor.
      * left. exists destinations. split; [|exact Hadd].
        apply destination_count_recognised in Hyes.
        rewrite <- (destinations_for_count path_join _ _ _ _ Efor) in Hyes.
        intros ->. now apply Hyes.
      * right. rewrite Hadd.
        now rewrite (destinations_for_raises path_join _ _ _ _ Efor).
    + intros Hno.
      rewrite (destinations_for_unrecognised path_join environment base filename
                 Hno) in Hadd.
      split; [exact Hadd|].
      intros counts w2.
      apply (Hrun _ mod_name version counts w2); reflexivity.
  - intros w w' plan key item Hbuild Hin Htype.
    destruct (build_download_list_plan_ok _ _ _ _ _ _ _ _ Hbuild)
      as (mods_config & mods & Hconfig & Hmods & Hplan).
    destruct (Hplan key item Hin Htype)
      as (a_mod & Ha & environment & target_dir & filename & destinations
          & Hdefault & Henv & _ & _ & Hdests & Hfor).
    destruct Hmods as [->|Hmods]; [destruct Ha|].
    exists mods_config, mods, a_mod, environment, destinations.
    repeat (split; [assumption|]).
    split.
    { intros fields -> Hnone. simpl in Hdefault. rewrite Hnone in Hdefault.
      now inversion Hdefault. }
    repeat (split; [assumption|]).
    rewrite <- destination_count_recognised,
      <- (destinations_for_count _ _ _ _ _ Hfor).
    destruct destinations; simpl; split; congruence.
Qed.

Lemma unrecognised_environment_never_downloads_witness :
  let built :=
    DownloadManager.build_download_list Scenario.repr Scenario.plain_format
      Scenario.join Scenario.silent_remote Scenario.manager Scenario.start in
  fst built = Ok Scenario.built
  /\ In ("mod_c"%string, Scenario.planned "c" "desktop" []) Scenario.built
  /\ DownloadManager.add_mod Scenario.repr Scenario.plain_format Scenario.join
       Scenario.silent_remote Scenario.manager
       (Scenario.custom_mod "c" (Some "desktop"%string)) [] Scenario.start
     = (Ok ([("mod_c"%string, Scenario.planned "c" "desktop" [])], Next),
        Scenario.start)
  /\ (exists environment : json,
        Py.getitem (Scenario.planned "c" "desktop" []) "environment"
          = Ok environment
        /\ Py.getitem (Scenario.planned "c" "desktop" []) "destinations"
           = Ok (JArr [])
        /\ ~ (environment = JStr "client" \/ environment = JStr "server"
              \/ environment = JStr "both"))
  /\ DownloadManager.download_item Scenario.repr Scenario.join Scenario.dirname
       Scenario.basename Scenario.whole_transfers Scenario.permissive
       (Scenario.planned "c" "desktop" []) (0, 0) Scenario.stocked
     = (Raise IndexError, Scenario.stocked).
Proof.
  intros built.
  pose proof (unrecognised_environment_never_downloads Scenario.repr
                Scenario.plain_format Scenario.join Scenario.dirname
                Scenario.basename Scenario.silent_remote Scenario.whole_transfers
                Scenario.permissive Scenario.manager) as [Hadd [Hbuild Hrun]].
  assert (E : built = (Ok Scenario.built, Scenario.start))
    by (vm_compute; reflexivity).
  split; [now rewrite E|].
  split; [right; right; left; reflexivity|].
  destruct (Hadd (Scenario.custom_mod "c" (Some "desktop"%string))
              (JStr "c") (JStr "1.0") (JStr "custom") JNull (JStr "desktop")
              (JStr "https://example.org/c.jar") (JStr "c.jar") JNull
              (JStr "mods") [] Scenario.start Scenario.start
              eq_refl eq_refl eq_refl eq_refl eq_refl eq_refl eq_refl eq_refl)
    as (_ & _ & Hnone).
  assert (Hno : ~ (JStr "desktop" = JStr "client" \/ JStr "desktop" = JStr "server"
                   \/ JStr "desktop" = JStr "both")).
  { intros H. destruct H as [H|[H|H]]; discriminate. }
  destruct (Hnone Hno) as [Hplanned Hraises].
  split; [exact Hplanned|].
  split.
  - destruct (Hbuild Scenario.start Scenario.start Scenario.built "mod_c"
                (Scenario.planned "c" "desktop" []) E)
      as (c & ms & a & environment & ds & _ & _ & _ & _ & _ & He & Hd & Hiff).
    + right. right. left. reflexivity.
    + reflexivity.
    + exists environment. split; [exact He|].
      cbn in Hd. inversion Hd; subst ds. split; [reflexivity|].
      intros Hyes. apply Hiff in Hyes. now apply Hyes.
  - apply (Hraises (0, 0) Scenario.stocked).
Defined.

(** ** Percent-encoding of query parameters *)


Lemma string_app_cons (x : ascii) (a b : string) :
  String x a +:+ b = String x (a +:+ b).
Proof. reflexivity. Qed.








(** ** Suffixes and trailing zeros in version strings *)

Lemma before_first_app_sep (c : ascii) (a s : string) :
  Algorithm.before_first c (a +:+ String c s) = Algorithm.before_first c a.
Proof.
  induction a as [|x a IH]; rewrite ?string_app_cons; simpl.
  - now rewrite Ascii.eqb_refl.
  - destruct (Ascii.eqb x c); [reflexivity|]. now rewrite IH.
Qed.

Lemma before_first_nested (c d : ascii) (a s : string) :
  Ascii.eqb d c = false ->
  Algorithm.before_first d (Algorithm.before_first c (a +:+ String d s))
  = Algorithm.before_first d (Algorithm.before_first c a).
Proof.
  intros Hdc. induction a as [|x a IH]; rewrite ?string_app_cons; simpl.
  - rewrite Hdc. simpl. now rewrite Ascii.eqb_refl.
  - destruct (Ascii.eqb x c); [reflexivity|]. simpl.
    destruct (Ascii.eqb x d); [reflexivity|]. now rewrite IH.
Qed.

Lemma clean_plus (a s : string) : clean (a +:+ String "+" s) = clean a.
Proof.
  unfold clean. rewrite !split_head_before_first.
  now rewrite before_first_app_sep.
Qed.

Lemma clean_minus (a s : string) : clean (a +:+ String "-" s) = clean a.
Proof.
  unfold clean. rewrite !split_head_before_first.
  now apply before_first_nested.
Qed.

Lemma compare_versions_clean (m : nat) (a a' b : string) (r : Z) :
  clean a' = clean a -> compare_try m a b = Ok r ->
  _compare_versions m a' b = Ok r.
Proof.
  intros Hc H. unfold _compare_versions.
  assert (H' : compare_try m a' b = Ok r).
  { unfold compare_try in *. now rewrite Hc. }
  now rewrite H'.
Qed.

(** X2: a build or pre-release suffix does not count: when the segments
    of [a] and [b] parse (the try body completes), [a] followed by [-] or
    [+] and any text compares with [b] as [a] does; so [1.21.2-rc1]
    compares equal to [1.21.2]. *)
Theorem compare_versions_ignores_suffix (m : nat) (a b suffix : string) (r : Z) :
  compare_try m a b = Ok r ->
  _compare_versions m (a +:+ String "-" suffix) b = Ok r
  /\ _compare_versions m (a +:+ String "+" suffix) b = Ok r.
Proof.
  intros H. split.
  - exact (compare_versions_clean m a _ b r (clean_minus a suffix) H).
  - exact (compare_versions_clean m a _ b r (clean_plus a suffix) H).
Qed.

Lemma compare_versions_ignores_suffix_witness :
  _compare_versions 4300 ("1.21.2" +:+ String "-" "rc1") "1.21.2" = Ok 0
  /\ _compare_versions 4300 ("1.21.2" +:+ String "+" "rc1") "1.21.2" = Ok 0.
Proof.
  apply (compare_versions_ignores_suffix 4300 "1.21.2" "1.21.2" "rc1" 0).
  reflexivity.
Defined.

Lemma before_first_app_cases (c : ascii) (a t : string) :
  Algorithm.before_first c t = t ->
  Algorithm.before_first c (a +:+ t) = Algorithm.before_first c a
  \/ (Algorithm.before_first c (a +:+ t) = a +:+ t
      /\ Algorithm.before_first c a = a).
Proof.
  intros Ht. induction a as [|x a IH]; rewrite ?string_app_cons; simpl.
  - right. split; [exact Ht|reflexivity].
  - destruct (Ascii.eqb x c); [now left|].
    destruct IH as [IH|[IH1 IH2]].
    + left. now rewrite IH.
    + right. now rewrite IH1, IH2.
Qed.

Lemma clean_dot_zero (a : string) :
  clean (a +:+ ".0") = clean a \/ clean (a +:+ ".0") = clean a +:+ ".0".
Proof.
  unfold clean. rewrite !split_head_before_first.
  destruct (before_first_app_cases "+" a ".0" eq_refl) as [H|[H1 H2]].
  - left. now rewrite H.
  - rewrite H1, H2.
    destruct (before_first_app_cases "-" a ".0" eq_refl) as [H|[H3 H4]].
    + left. exact H.
    + right. now rewrite H3, H4.
Qed.

Lemma remove_app (c : ascii) (a b : string) :
  Str.remove c (a +:+ b) = Str.remove c a +:+ Str.remove c b.
Proof.
  induction a as [|x a IH]; rewrite ?string_app_cons; simpl; [reflexivity|].
  destruct (Ascii.eqb x c); [exact IH|]. rewrite string_app_cons. now rewrite IH.
Qed.

Lemma split_nonempty (c : ascii) (s : string) : Str.split c s <> [].
Proof.
  induction s as [|x s IH]; simpl; [discriminate|].
  destruct (Ascii.eqb x c); [discriminate|].
  destruct (Str.split c s); [contradiction|discriminate].
Qed.

Lemma split_app_sep (c : ascii) (t u : string) :
  Str.split c (t +:+ String c u) = Str.split c t ++ Str.split c u.
Proof.
  induction t as [|x t IH]; rewrite ?string_app_cons; simpl.
  - now rewrite Ascii.eqb_refl.
  - destruct (Ascii.eqb x c); [now rewrite IH|].
    rewrite IH. pose proof (split_nonempty c t) as Hne.
    destruct (Str.split c t) as [|h tl]; [contradiction|reflexivity].
Qed.

Lemma parse_segments_app (m : nat) (xs ys : list string) (ps qs : list part) :
  parse_segments m xs = Ok ps -> parse_segments m ys = Ok qs ->
  parse_segments m (xs ++ ys) = Ok (ps ++ qs).
Proof.
  revert ps. induction xs as [|x xs IH]; intros ps Hx Hy; simpl in *.
  - inversion Hx. exact Hy.
  - destruct (parse_segment m x) as [p|e]; simpl in *; [|discriminate].
    destruct (parse_segments m xs) as [ps'|e]; simpl in *; [|discriminate].
    inversion Hx; subst. now rewrite (IH ps' eq_refl Hy).
Qed.

Lemma version_parts_dot_zero (m : nat) (s : string) (ps : list part) :
  version_parts m s = Ok ps ->
  version_parts m (s +:+ ".0") = Ok (ps ++ [PInt 0]).
Proof.
  unfold version_parts. intros H.
  rewrite remove_app.
  change (Str.remove "v" ".0") with (String "." "0").
  rewrite split_app_sep. apply parse_segments_app; [exact H|reflexivity].
Qed.

Lemma part_at_app_zero (ps : list part) (i : nat) :
  part_at (ps ++ [PInt 0]) i = part_at ps i.
Proof.
  unfold part_at. rewrite length_app. simpl.
  destruct (Nat.ltb_spec i (length ps)) as [Hlt|Hge].
  - replace (i <? length ps + 1)%nat with true
      by (symmetry; apply Nat.ltb_lt; lia).
    now rewrite app_nth1.
  - destruct (Nat.ltb_spec i (length ps + 1)) as [Hlt|Hge']; [|reflexivity].
    rewrite app_nth2 by lia.
    replace (i - length ps)%nat with 0%nat by lia. reflexivity.
Qed.

Lemma compare_loop_ext (ps ps' qs : list part) (n i : nat) :
  (forall k, part_at ps' k = part_at ps k) ->
  compare_loop ps' qs i n = compare_loop ps qs i n.
Proof.
  intros H. revert i. induction n as [|n IH]; intros i; simpl; [reflexivity|].
  rewrite H. now rewrite IH.
Qed.

Lemma compare_loop_app_zero (ps qs : list part) :
  compare_loop (ps ++ [PInt 0]) qs 0
    (Nat.max (length (ps ++ [PInt 0])) (length qs))
  = compare_loop ps qs 0 (Nat.max (length ps) (length qs)).
Proof.
  rewrite (compare_loop_ext ps _ qs _ 0 (part_at_app_zero ps)).
  rewrite length_app. simpl.
  set (n := Nat.max (length ps) (length qs)).
  replace (Nat.max (length ps + 1) (length qs))
    with (n + (Nat.max (length ps + 1) (length qs) - n))%nat by (subst n; lia).
  apply compare_loop_stable; subst n; lia.
Qed.

(** X3: a trailing zero segment does not count: when the segments of [a]
    and [b] parse (the try body completes), [a] followed by [.0] compares
    with [b] as [a] does; so [1.21.0] compares equal to [1.21]. *)
Theorem compare_versions_ignores_trailing_zero (m : nat) (a b : string) (r : Z) :
  compare_try m a b = Ok r ->
  _compare_versions m (a +:+ ".0") b = Ok r.
Proof.
  intros H. destruct (clean_dot_zero a) as [Hc|Hc].
  - exact (compare_versions_clean m a _ b r Hc H).
  - unfold _compare_versions, compare_try in *. rewrite Hc.
    destruct (version_parts m (clean a)) as [ps|e] eqn:Ea; simpl in H;
      [|discriminate].
    rewrite (version_parts_dot_zero m _ ps Ea). simpl.
    destruct (version_parts m (clean b)) as [qs|e]; simpl in *; [|discriminate].
    now rewrite compare_loop_app_zero.
Qed.

Lemma compare_versions_ignores_trailing_zero_witness :
  _compare_versions 4300 ("1.21" +:+ ".0") "1.21" = Ok 0.
Proof.
  apply (compare_versions_ignores_trailing_zero 4300 "1.21" "1.21" 0).
  reflexivity.
Defined.

(** ** Newer versions *)

Section NewerFacts.

Variable py_repr : json -> string.
Variable remote : list request -> request -> response.
Variable self : UpdateChecker.checker.

(** What the loop over the manifest adds to the list of newer versions:
    identifiers of release entries, none equal to the current version. *)
Lemma collect_newer_sound (versions acc result : list json) :
  UpdateChecker.collect_newer self versions acc = Ok result ->
  exists added : list json,
    result = acc ++ added
    /\ forall id : json, In id added ->
         Py.eq id (UpdateChecker.mc_version self) = false
         /\ exists v : json,
              In v versions /\ Py.getitem v "id" = Ok id
              /\ Py.getitem v "type" = Ok (JStr "release").
Proof.
  revert acc result. induction versions as [|v versions IH]; intros acc result H.
  - simpl in H. inversion H. exists []. split; [now rewrite app_nil_r|].
    intros id Hin. destruct Hin.
  - simpl in H. apply res_bind_inv in H as (id & Hid & H).
    destruct (Py.eq id (UpdateChecker.mc_version self)) eqn:Ecur.
    { inversion H. exists []. split; [now rewrite app_nil_r|].
      intros x Hin. destruct Hin. }
    apply res_bind_inv in H as (type & Htype & H).
    destruct (Py.eq type (JStr "release")) eqn:Erel.
    + apply res_bind_inv in H as (id' & Hid' & H).
      destruct (IH _ _ H) as (added & -> & Hadded).
      exists (id' :: added). split; [now rewrite <- app_assoc|].
      intros x Hin. destruct Hin as [<-|Hin].
      * assert (id' = id) by congruence. subst id'.
        split; [exact Ecur|]. exists v. split; [now left|].
        split; [exact Hid|]. apply py_eq_str_inv in Erel. now subst type.
      * destruct (Hadded x Hin) as (Hx & v' & Hv' & Hrest).
        split; [exact Hx|]. exists v'. split; [now right|exact Hrest].
    + destruct (IH _ _ H) as (added & -> & Hadded).
      exists added. split; [reflexivity|].
      intros x Hin. destruct (Hadded x Hin) as (Hx & v' & Hv' & Hrest).
      split; [exact Hx|]. exists v'. split; [now right|exact Hrest].
Qed.

Lemma newer_releases_sound (manifest : json) (newer : list json) :
  UpdateChecker.newer_releases self manifest = Ok newer ->
  exists (versions : json) (version_list : list json),
    Py.get manifest "versions" (JArr []) = Ok versions
    /\ Py.iter versions = Ok version_list
    /\ forall id : json, In id newer ->
         Py.eq id (UpdateChecker.mc_version self) = false
         /\ exists v : json,
              In v version_list /\ Py.getitem v "id" = Ok id
              /\ Py.getitem v "type" = Ok (JStr "release").
Proof.
  unfold UpdateChecker.newer_releases. intros H.
  apply res_bind_inv in H as (versions & Hv & H).
  apply res_bind_inv in H as (version_list & Hl & H).
  exists versions, version_list. split; [exact Hv|]. split; [exact Hl|].
  destruct (collect_newer_sound _ _ _ H) as (added & -> & Hadded).
  exact Hadded.
Qed.

End NewerFacts.

(** X4: [check_minecraft_updates] sends the one request for the version
    manifest and returns the configured version as the current one; every
    version it reports as newer is the [id] of an entry of type [release]
    in the manifest it fetched, and none of them equals the current
    version (snapshots and the current version are never reported). *)
Theorem check_minecraft_updates_reports_releases
  (remote : list request -> request -> response)
  (self : UpdateChecker.checker) (w w' : world)
  (current latest : json) (newer : list json) :
  UpdateChecker.check_minecraft_updates remote self w
    = (Ok (current, latest, newer), w') ->
  current = UpdateChecker.mc_version self
  /\ requests w' = requests w ++ [UpdateChecker.get_request UpdateChecker.manifest_url]
  /\ forall id : json, In id newer ->
       Py.eq id (UpdateChecker.mc_version self) = false
       /\ exists (manifest versions : json) (version_list : list json) (v : json),
            remote (requests w) (UpdateChecker.get_request UpdateChecker.manifest_url)
              = Payload manifest
            /\ Py.get manifest "versions" (JArr []) = Ok versions
            /\ Py.iter versions = Ok version_list
            /\ In v version_list /\ Py.getitem v "id" = Ok id
            /\ Py.getitem v "type" = Ok (JStr "release").
Proof.
  unfold UpdateChecker.check_minecraft_updates. intros H.
  bind_inv H as manifest w1 Hfetch.
  pose proof (fetch_json_requests _ _ _ _ _ _ _ Hfetch) as Hreq.
  assert (Hpay : Py.truthy manifest = true ->
            remote (requests w) (UpdateChecker.get_request UpdateChecker.manifest_url)
            = Payload manifest).
  { intros Ht. unfold UpdateChecker._fetch_json, fetch_json in Hfetch.
    unfold UpdateChecker.get_request.
    destruct (remote _ _) as [body|code|msg].
    - inversion Hfetch. reflexivity.
    - destruct (code =? 404); inversion Hfetch; subst; discriminate.
    - inversion Hfetch; subst; discriminate. }
  destruct (Py.truthy manifest) eqn:Ht; cbn [negb] in H.
  - bind_inv H as latest_release w2 H2. lift_inv H2 as E2.
    bind_inv H as latest_snapshot w3 H3. lift_inv H3 as E3.
    bind_inv H as newer' w4 H4. lift_inv H4 as E4.
    ret_inv H. inversion H; subst.
    split; [reflexivity|]. split; [exact Hreq|].
    destruct (newer_releases_sound self manifest newer E4)
      as (versions & version_list & Hv & Hl & Hall).
    intros id Hin. destruct (Hall id Hin) as (Hne & v & Hv' & Hid & Htype).
    split; [exact Hne|].
    exists manifest, versions, version_list, v. auto 7.
  - ret_inv H. inversion H; subst.
    split; [reflexivity|]. split; [exact Hreq|]. intros id Hin. destruct Hin.
Qed.

Lemma check_minecraft_updates_reports_releases_witness :
  let run :=
    UpdateChecker.check_minecraft_updates Scenario.no_loader_remote
      Scenario.self Scenario.start in
  fst run = Ok (JStr "1.21.1", JNull, [JStr "1.21.2"])
  /\ requests (snd run) = [UpdateChecker.get_request UpdateChecker.manifest_url]
  /\ Py.eq (JStr "1.21.2") (UpdateChecker.mc_version Scenario.self) = false.
Proof.
  intros run.
  assert (E : run = (Ok (JStr "1.21.1", JNull, [JStr "1.21.2"]), snd run))
    by (vm_compute; reflexivity).
  destruct (check_minecraft_updates_reports_releases Scenario.no_loader_remote
              Scenario.self Scenario.start (snd run) _ _ _ E)
    as (_ & Hreq & Hall).
  split; [now rewrite E|]. split; [exact Hreq|].
  exact (proj1 (Hall (JStr "1.21.2") (or_introl eq_refl))).
Defined.

(** ** The newest release only *)

Section FirstCandidateFacts.

Variable py_repr : json -> string.
Variable remote : list request -> request -> response.
Variable self : UpdateChecker.checker.

Lemma test_fabric_version_tested (newer fvs : list json) (i j : nat)
  (mc_ver fabric_ver : json) (u : unit) (w w' : world)
  (info : UpdateChecker.update_info) :
  UpdateChecker.test_fabric_version py_repr remote self newer i mc_ver fvs j
    fabric_ver w = (Ok (u, Return info), w') ->
  UpdateChecker.minecraft_new info = mc_ver
  /\ UpdateChecker.minecraft_current info = UpdateChecker.mc_version self
  /\ UpdateChecker.mc_versions_tested info = Py.index newer mc_ver i + 1.
Proof.
  unfold UpdateChecker.test_fabric_version. intros H.
  bind_inv H as checked w1 Hcheck.
  destruct (fst (fst checked)).
  - apply ret_inv in H. destruct H as [H _]. inversion H; subst. cbn. auto.
  - bind_inv H as line w2 Hjoin. apply ret_inv in H. destruct H as [H _].
    discriminate.
Qed.

Lemma test_mc_version_tested (newer : list json) (i : nat) (mc_ver : json)
  (u : unit) (w w' : world) (info : UpdateChecker.update_info) :
  UpdateChecker.test_mc_version py_repr remote self newer i mc_ver w
    = (Ok (u, Return info), w') ->
  UpdateChecker.minecraft_new info = mc_ver
  /\ UpdateChecker.minecraft_current info = UpdateChecker.mc_version self
  /\ UpdateChecker.mc_versions_tested info = Py.index newer mc_ver i + 1.
Proof.
  unfold UpdateChecker.test_mc_version. intros H.
  bind_inv H as loader_data w1 Hfetch.
  destruct (negb (Py.truthy loader_data)); [ret_inv H; discriminate|].
  bind_inv H as fvs w2 Hfvs. lift_inv Hfvs as Hfvs'.
  destruct fvs as [|l ls]; [ret_inv H; discriminate|].
  bind_inv H as r w3 Hloop. destruct r as [u1 [info'|]]; cbn [snd] in H;
    ret_inv H; [|discriminate].
  inversion H; subst info'.
  apply for_loop_return_inv in Hloop.
  destruct Hloop as (jv & s0 & wa & _ & Hbody).
  exact (test_fabric_version_tested _ _ _ _ _ _ _ _ _ _ Hbody).
Qed.

End FirstCandidateFacts.

(** X5: a result of [find_compatible_updates] always proposes the first
    version of the list of newer releases read from the manifest, and its
    [mc_versions_tested] is 1: no later release is ever proposed. *)
Theorem result_proposes_first_newer_release
  (py_repr : json -> string) (remote : list request -> request -> response)
  (self : UpdateChecker.checker) (w0 w' : world)
  (info : UpdateChecker.update_info) :
  UpdateChecker.find_compatible_updates py_repr remote self w0
    = (Ok (Some info), w') ->
  exists (manifest : json) (rest : list json),
    remote (requests w0) (UpdateChecker.get_request UpdateChecker.manifest_url)
      = Payload manifest
    /\ UpdateChecker.newer_releases self manifest
       = Ok (UpdateChecker.minecraft_new info :: rest)
    /\ UpdateChecker.mc_versions_tested info = 1
    /\ Py.eq (UpdateChecker.minecraft_new info) (UpdateChecker.mc_version self)
       = false.
Proof.
  intros H.
  destruct (Py.len (UpdateChecker.mods self)) as [n|x] eqn:Hlen.
  2: { rewrite (find_without_length py_repr remote self w0 x Hlen) in H.
       discriminate. }
  destruct (UpdateChecker._fetch_json remote UpdateChecker.manifest_url [] w0)
    as [[manifest|x] w1] eqn:Hfetch.
  2: { unfold UpdateChecker.find_compatible_updates in H.
       unfold lift at 1 in H. unfold bind at 1 in H. rewrite Hlen in H.
       rewrite (bind_raise _ _ _ _ _ Hfetch) in H. discriminate. }
  destruct (Py.truthy manifest) eqn:Ht.
  2: { unfold UpdateChecker.find_compatible_updates in H.
       unfold lift at 1 in H. unfold bind at 1 in H. rewrite Hlen in H.
       rewrite (bind_ok _ _ _ _ _ Hfetch), Ht in H. cbn [negb] in H.
       ret_inv H. discriminate. }
  destruct (UpdateChecker.newer_releases self manifest) as [[|e rest]|x] eqn:Hn.
  1, 3: unfold UpdateChecker.find_compatible_updates in H;
        unfold lift at 1 in H; unfold bind at 1 in H; rewrite Hlen in H;
        rewrite (bind_ok _ _ _ _ _ Hfetch), Ht in H; cbn [negb] in H;
        unfold bind, lift in H; rewrite Hn in H; unfold ret in H; discriminate.
  rewrite (find_first_candidate py_repr remote self w0 w1 manifest e rest n
             Hlen Hfetch Ht Hn) in H.
  destruct (UpdateChecker.test_mc_version py_repr remote self (e :: rest) 0 e w1)
    as [[[u f]|x] w2] eqn:Hbody; [|discriminate].
  destruct f as [| |info']; try discriminate.
  inversion H; subst info' w2.
  destruct (test_mc_version_tested _ _ _ _ _ _ _ _ _ _ Hbody)
    as (Hnew & _ & Htested).
  exists manifest, rest.
  split.
  { unfold UpdateChecker._fetch_json, fetch_json in Hfetch.
    unfold UpdateChecker.get_request.
    destruct (remote _ _) as [body|code|msg].
    - inversion Hfetch. reflexivity.
    - destruct (code =? 404); inversion Hfetch; subst; discriminate.
    - inversion Hfetch; subst; discriminate. }
  rewrite Hnew. split; [exact Hn|]. split.
  - rewrite Htested. reflexivity.
  - destruct (newer_releases_sound self manifest _ Hn)
      as (versions & version_list & _ & _ & Hall).
    exact (proj1 (Hall e (or_introl eq_refl))).
Qed.

Lemma result_proposes_first_newer_release_witness :
  let run :=
    UpdateChecker.find_compatible_updates Scenario.repr Scenario.late_mod_remote
      Scenario.self Scenario.start in
  exists info : UpdateChecker.update_info,
    fst run = Ok (Some info)
    /\ UpdateChecker.minecraft_new info = JStr "1.21.2"
    /\ UpdateChecker.mc_versions_tested info = 1.
Proof.
  intros run.
  destruct (fst run) as [[info|]|x] eqn:E; try (vm_compute in E; discriminate).
  exists info. split; [reflexivity|].
  assert (Hrun : run = (Ok (Some info), snd run))
    by (rewrite <- E; apply surjective_pairing).
  destruct (result_proposes_first_newer_release Scenario.repr
              Scenario.late_mod_remote Scenario.self Scenario.start (snd run)
              info Hrun)
    as (manifest & rest & Hpay & Hnewer & Htested & _).
  split; [|exact Htested].
  vm_compute in Hpay. inversion Hpay; subst manifest.
  vm_compute in Hnewer. now inversion Hnewer.
Defined.

(** ** Loader updates *)

Lemma before_current_sound (current : json) (available : list json) :
  (forall v : json, In v (UpdateChecker.before_current current available) ->
     In v available /\ Py.eq v current = false)
  /\ (UpdateChecker.before_current current available = []
      \/ hd JNull (UpdateChecker.before_current current available)
         = hd JNull available)
  /\ (Py.eq (hd JNull available) current = true ->
      UpdateChecker.before_current current available = []).
Proof.
  induction available as [|ver rest IH]; simpl.
  - split; [intros v Hin; destruct Hin|]. auto.
  - destruct (Py.eq ver current) eqn:E.
    + split; [intros v Hin; destruct Hin|]. auto.
    + split; [|split; [now right|discriminate]].
      intros v Hin. destruct Hin as [<-|Hin]; [auto|].
      destruct IH as (IH & _). destruct (IH v Hin). auto.
Qed.

Lemma extract_versions_truthy (items versions : list json) :
  UpdateChecker.extract_versions items = Ok versions ->
  forall v : json, In v versions -> Py.truthy v = true.
Proof.
  revert versions. induction items as [|item items IH]; intros versions H; simpl in H.
  - inversion H. intros v Hin. destruct Hin.
  - apply res_bind_inv in H as (loader_info & _ & H).
    apply res_bind_inv in H as (version & _ & H).
    apply res_bind_inv in H as (versions' & Hrest & H).
    inversion H; subst. intros v Hin.
    destruct (Py.truthy version) eqn:E; [|now apply (IH versions')].
    destruct Hin as [<-|Hin]; [exact E|now apply (IH versions')].
Qed.

(** X6: [check_fabric_updates] sends one request, for the loader list of
    the target version (the configured one when no target is given), and
    returns the configured loader version as the current one. No version
    it reports as newer equals the current version; when it reports newer
    versions, the latest version it reports is the first of them; and when
    the latest available version is the current one, it reports none. *)
Theorem check_fabric_updates_reports_newer
  (py_repr : json -> string) (remote : list request -> request -> response)
  (self : UpdateChecker.checker) (target : json) (w w' : world)
  (current latest : json) (newer : list json) :
  UpdateChecker.check_fabric_updates py_repr remote self target w
    = (Ok (current, latest, newer), w') ->
  current = UpdateChecker.fabric_version self
  /\ requests w' = requests w ++
       [UpdateChecker.get_request
          (UpdateChecker.loader_url py_repr
             (if Py.truthy target then target else UpdateChecker.mc_version self))]
  /\ (forall v : json, In v newer ->
        Py.truthy v = true /\ Py.eq v current = false)
  /\ (newer = [] \/ hd JNull newer = latest)
  /\ (Py.eq latest current = true -> newer = []).
Proof.
  unfold UpdateChecker.check_fabric_updates, Py.or_else. intros H.
  bind_inv H as loader_data w1 Hfetch.
  pose proof (fetch_json_requests _ _ _ _ _ _ _ Hfetch) as Hreq.
  destruct (negb (Py.truthy loader_data)).
  { ret_inv H. inversion H; subst. split; [reflexivity|]. split; [exact Hreq|].
    split; [intros v Hin; destruct Hin|]. auto. }
  bind_inv H as available w2 Hav. lift_inv Hav as Eav.
  destruct available as [|first rest].
  { ret_inv H. inversion H; subst. split; [reflexivity|]. split; [exact Hreq|].
    split; [intros v Hin; destruct Hin|]. auto. }
  ret_inv H. inversion H; subst. clear H.
  split; [reflexivity|]. split; [exact Hreq|].
  destruct (before_current_sound (UpdateChecker.fabric_version self) (latest :: rest))
    as (Hin & Hhd & Hlatest).
  unfold UpdateChecker.fabric_versions_of in Eav.
  apply res_bind_inv in Eav as (items & _ & Eav).
  split; [|split; [exact Hhd|exact Hlatest]].
  intros v Hv. destruct (Hin v Hv) as [Hav Hne].
  split; [exact (extract_versions_truthy _ _ Eav v Hav)|exact Hne].
Qed.

Lemma check_fabric_updates_reports_newer_witness :
  let run :=
    UpdateChecker.check_fabric_updates Scenario.repr Scenario.late_mod_remote
      Scenario.self JNull Scenario.start in
  fst run = Ok (JStr "0.15.0", JStr "0.16.1", [JStr "0.16.1"; JStr "0.16.0"])
  /\ requests (snd run) =
       [UpdateChecker.get_request
          (UpdateChecker.loader_url Scenario.repr (JStr "1.21.1"))].
Proof.
  intros run.
  assert (E : run = (Ok (JStr "0.15.0", JStr "0.16.1",
                         [JStr "0.16.1"; JStr "0.16.0"]), snd run))
    by (vm_compute; reflexivity).
  split; [now rewrite E|].
  exact (proj1 (proj2 (check_fabric_updates_reports_newer Scenario.repr
                         Scenario.late_mod_remote Scenario.self JNull
                         Scenario.start (snd run) _ _ _ E))).
Defined.

(** ** A download that succeeds *)

Section TransferFacts.

Variable py_repr : json -> string.
Variable path_dirname : string -> string.
Variable transfers : list request -> request -> transfer.
Variable refused : gmap string node -> fs_op -> bool.

Lemma os_makedirs_ok (dir : string) (w w' : world) :
  os_makedirs refused dir w = (Ok tt, w') ->
  requests w' = requests w
  /\ forall p : string, p <> dir -> files w' !! p = files w !! p.
Proof.
  unfold os_makedirs. intros H.
  destruct (files w !! dir) as [[c|]|]; try discriminate.
  - inversion H; subst. auto.
  - destruct (refused (files w) (MakeDirs dir)); [discriminate|].
    inversion H; subst. cbn. split; [reflexivity|].
    intros p Hp. now apply lookup_insert_ne.
Qed.

Lemma download_try_ok (url : json) (path : string) (w w' : world) (b : bool) :
  DownloadManager.download_try py_repr path_dirname transfers refused
    url (JStr path) w = (Ok b, w') ->
  let req := {| req_url := Py.format py_repr url;
                req_headers := [("User-Agent", JStr "minecraft-server-manager/1.0")];
                req_timeout := 60 |} in
  let dir := if String.eqb (path_dirname path) EmptyString then "."%string
             else path_dirname path in
  exists (body : string) (how : ending),
    transfers (requests w) req = Stream body how
    /\ (forall k : nat, how <> Broken k)
    /\ requests w' = requests w ++ [req]
    /\ files w' !! path = Some (File (received body how))
    /\ forall p : string, p <> path -> p <> dir -> files w' !! p = files w !! p.
Proof.
  unfold DownloadManager.download_try. intros H. cbv zeta.
  bind_inv H as p0 w1 H1. lift_inv H1 as E1. cbn in E1. inversion E1; subst p0.
  bind_inv H as u1 w2 H2. destruct u1.
  destruct (os_makedirs_ok _ _ _ H2) as [Hreq2 Hfiles2].
  bind_inv H as u2 w3 H3. unfold say in H3. inversion H3; subst w3. clear H3.
  bind_inv H as response w4 H4. unfold DownloadManager.urlopen_file in H4.
  cbn [requests print] in H4. rewrite Hreq2 in H4.
  destruct (transfers (requests w) _) as [msg|body how] eqn:Et; [discriminate|].
  inversion H4; subst response w4. clear H4. cbn [fst snd] in H.
  bind_inv H as u3 w5 H5. unfold open_wb in H5.
  destruct (files (log_request _ _) !! path) as [[c|]|] eqn:Epath;
    try discriminate;
    (destruct (refused _ (OpenWrite path)); [discriminate|]);
    inversion H5 as [H5']; clear H5;
    (bind_inv H as u4 w6 H6; unfold copyfileobj in H6;
     assert (Hhow : forall k : nat, how <> Broken k)
       by (intros k Hk; subst how; discriminate);
     assert (H6' : w6 = set_files (<[path := File (received body how)]>
                                     (files w5)) w5)
       by (destruct how; inversion H6; reflexivity);
     subst w5 w6; clear H6;
     bind_inv H as size w7 H7; unfold os_path_getsize, bind, lift in H7;
     cbn in H7; rewrite lookup_insert_eq in H7; inversion H7; subst w7; clear H7;
     bind_inv H as u5 w8 H8; unfold say in H8; inversion H8; subst w8; clear H8;
     ret_inv H;
     exists body, how; split; [reflexivity|]; split; [exact Hhow|]; split;
     [cbn; now rewrite Hreq2|];
     split; [cbn; apply lookup_insert_eq|];
     intros p Hp Hd; cbn; rewrite !lookup_insert_ne by congruence;
     now apply Hfiles2).
Qed.

End TransferFacts.



(** ** Rounds of [download_all] *)

Section RoundFacts.

Variable py_repr : json -> string.
Variable path_join : string -> string -> string.
Variable path_dirname : string -> string.
Variable path_basename : string -> string.
Variable transfers : list request -> request -> transfer.
Variable refused : gmap string node -> fs_op -> bool.

(** How a round for a mod with destinations ends: a success after a
    download that returned [True], or a failure right after a download
    that returned [False]. *)
Lemma download_mod_cases (item : json) (counts counts' : Z * Z) (w w' : world) :
  DownloadManager.download_mod py_repr path_join path_dirname path_basename
    transfers refused item counts w = (Ok counts', w') ->
  exists (destinations first_dest url : json) (w0 : world),
    Py.getitem item "destinations" = Ok destinations
    /\ Py.getitem0 destinations = Ok first_dest
    /\ Py.getitem item "url" = Ok url
    /\ ((counts' = (fst counts + 1, snd counts)
         /\ exists w1 : world,
              DownloadManager._download_file py_repr path_dirname transfers
                refused url first_dest w0 = (Ok true, w1))
        \/ (counts' = (fst counts, snd counts + 1)
            /\ DownloadManager._download_file py_repr path_dirname transfers
                 refused url first_dest w0 = (Ok false, w'))).
Proof.
  unfold DownloadManager.download_mod. intros H.
  bind_inv H as destinations w1 H1. lift_inv H1 as E1.
  bind_inv H as slug w2 H2. lift_inv H2 as E2.
  bind_inv H as u w3 H3.
  bind_inv H as first_dest w4 H4. lift_inv H4 as E4.
  bind_inv H as url w5 H5. lift_inv H5 as E5.
  bind_inv H as done w6 H6.
  exists destinations, first_dest, url, w3.
  split; [exact E1|]. split; [exact E4|]. split; [exact E5|].
  destruct done.
  - bind_inv H as others w7 H7. bind_inv H as u' w8 H8. ret_inv H.
    left. split; [now symmetry|]. now exists w6.
  - ret_inv H. right. split; [now symmetry|exact H6].
Qed.

(** How a round for an entry with one destination ends. *)
Lemma download_single_cases (item : json) (counts counts' : Z * Z) (w w' : world) :
  DownloadManager.download_single py_repr path_dirname transfers refused
    item counts w = (Ok counts', w') ->
  exists destination : json,
    Py.get item "destination" JNull = Ok destination
    /\ (counts' = (fst counts + 1, snd counts)
        \/ (counts' = (fst counts, snd counts + 1)
            /\ (Py.truthy destination = false
                \/ exists url : json,
                     DownloadManager._download_file py_repr path_dirname
                       transfers refused url destination w = (Ok false, w')))).
Proof.
  unfold DownloadManager.download_single. intros H.
  bind_inv H as destination w1 H1. lift_inv H1 as E1.
  exists destination. split; [exact E1|].
  destruct (Py.truthy destination) eqn:Et; cbn [negb] in H.
  - bind_inv H as there w2 H2.
    assert (w2 = w).
    { unfold os_path_exists in H2. bind_inv H2 as p w3 H3. lift_inv H3 as E3.
      now inversion H2. }
    subst w2. destruct there.
    + bind_inv H as size w3 H3. bind_inv H as u1 w4 H4. bind_inv H as u2 w5 H5.
      ret_inv H. left. now symmetry.
    + bind_inv H as url w3 H3. lift_inv H3 as E3.
      bind_inv H as done w4 H4. destruct done; ret_inv H.
      * left. now symmetry.
      * right. split; [now symmetry|]. right. now exists url.
  - bind_inv H as u w2 H2. ret_inv H. right. split; [now symmetry|]. now left.
Qed.

Lemma download_item_cases (item : json) (counts counts' : Z * Z) (w w' : world) :
  DownloadManager.download_item py_repr path_join path_dirname path_basename
    transfers refused item counts w = (Ok counts', w') ->
  exists several : bool,
    DownloadManager.has_destinations item = Ok several
    /\ if several
       then DownloadManager.download_mod py_repr path_join path_dirname
              path_basename transfers refused item counts w = (Ok counts', w')
       else DownloadManager.download_single py_repr path_dirname transfers
              refused item counts w = (Ok counts', w').
Proof.
  unfold DownloadManager.download_item. intros H.
  bind_inv H as e w1 H1. lift_inv H1 as E1.
  bind_inv H as n w2 H2. lift_inv H2 as E2.
  bind_inv H as v w3 H3. lift_inv H3 as E3.
  bind_inv H as several w4 H4. lift_inv H4 as E4.
  exists several. split; [exact E4|]. destruct several; exact H.
Qed.

Lemma download_item_counts (item : json) (counts counts' : Z * Z) (w w' : world) :
  DownloadManager.download_item py_repr path_join path_dirname path_basename
    transfers refused item counts w = (Ok counts', w') ->
  counts' = (fst counts + 1, snd counts)
  \/ counts' = (fst counts, snd counts + 1).
Proof.
  intros H. destruct (download_item_cases _ _ _ _ _ H) as (several & _ & Hround).
  destruct several.
  - destruct (download_mod_cases _ _ _ _ _ Hround)
      as (d & f & u & w0 & _ & _ & _ & [[-> _]|[-> _]]); auto.
  - destruct (download_single_cases _ _ _ _ _ Hround)
      as (d & _ & [->|[-> _]]); auto.
Qed.

End RoundFacts.

(** X8: [download_all] counts every entry of the list once: when it
    returns the two counters of its summary, they add up to the number of
    entries of the list it was given (of the plan it built, when it was
    given none). *)
Theorem download_all_counts_every_entry
  (py_repr : json -> string)
  (str_format : string -> list (string * json) -> res string)
  (json_dumps : json -> string)
  (path_join : string -> string -> string)
  (path_dirname path_basename : string -> string)
  (remote : list request -> request -> response)
  (transfers : list request -> request -> transfer)
  (refused : gmap string node -> fs_op -> bool)
  (self : DownloadManager.manager)
  (download_list : json) (w w' : world) (success_count fail_count : Z) :
  DownloadManager.download_all py_repr str_format json_dumps path_join
    path_dirname path_basename remote transfers refused self download_list w
    = (Ok (Some (success_count, fail_count)), w') ->
  exists entries : list (string * json),
    success_count + fail_count = Z.of_nat (length entries)
    /\ 0 <= success_count /\ 0 <= fail_count
    /\ (download_list = JObj entries
        \/ (download_list = JNull
            /\ exists w1 : world,
                 DownloadManager.build_download_list py_repr str_format path_join
                   remote self w = (Ok entries, w1))).
Proof.
  unfold DownloadManager.download_all. intros H.
  bind_inv H as given w1 Hgiven.
  destruct (negb (Py.truthy given)); [ret_inv H; discriminate|].
  bind_inv H as entries w2 Hitems. lift_inv Hitems as Eitems.
  bind_inv H as r w3 Hloop. bind_inv H as u w4 Hsave. ret_inv H.
  inversion H; subst. clear H.
  destruct given; try discriminate. cbn in Eitems. inversion Eitems; subst fields.
  exists entries.
  set (P := fun (seen : list (string * json)) (c : Z * Z) =>
              fst c + snd c = Z.of_nat (length seen) /\ 0 <= fst c /\ 0 <= snd c).
  assert (Hnext : forall (x : string * json) (s : Z * Z) w0 (s' : Z * Z) (f : flow unit) w0',
            (let! counts' := DownloadManager.download_item py_repr path_join
                               path_dirname path_basename transfers refused
                               (snd x) s in ret (counts', Next)) w0
            = (Ok (s', f), w0') -> f = Next).
  { intros x s w0 s' f w0' Hb. bind_inv Hb as c' w5 Hc.
    apply ret_inv in Hb. destruct Hb as [Hb _]. now inversion Hb. }
  assert (Hstep : forall seen (x : string * json) (s : Z * Z) w0 (s' : Z * Z) (f : flow unit) w0',
            P seen s ->
            (let! counts' := DownloadManager.download_item py_repr path_join
                               path_dirname path_basename transfers refused
                               (snd x) s in ret (counts', Next)) w0
            = (Ok (s', f), w0') -> P (seen ++ [x]) s').
  { intros seen x s w0 s' f w0' Hs Hb. bind_inv Hb as c' w5 Hc.
    apply ret_inv in Hb. destruct Hb as [Hb _].
    inversion Hb; subst. unfold P in *. rewrite length_app. cbn [length].
    destruct (download_item_counts _ _ _ _ _ _ _ _ _ _ _ Hc) as [->| ->];
      cbn [fst snd]; lia. }
  destruct r as [c o].
  assert (HP0 : P [] (0, 0)) by (unfold P; cbn; lia).
  pose proof (for_loop_next_invariant P _ Hnext Hstep entries [] (0, 0) w1 c o w3
                HP0 Hloop) as Hinv.
  destruct Hinv as [(Hsum & Hs & Hf) _]. cbn [app] in Hsum.
  cbn [fst] in H1. subst c. cbn [fst snd] in Hsum, Hs, Hf.
  split; [exact Hsum|]. split; [exact Hs|]. split; [exact Hf|].
  destruct download_list;
    try (apply ret_inv in Hgiven; destruct Hgiven as [Hgiven _];
         inversion Hgiven; subst; now left).
  bind_inv Hgiven as built w5 Hbuild.
  apply ret_inv in Hgiven. destruct Hgiven as [Hgiven Hw].
  inversion Hgiven; subst.
  right. split; [reflexivity|]. eexists. exact Hbuild.
Qed.

Lemma download_all_counts_every_entry_witness :
  let run :=
    DownloadManager.download_all Scenario.repr Scenario.plain_format
      Scenario.dumps Scenario.join Scenario.dirname Scenario.basename
      Scenario.silent_remote Scenario.whole_transfers Scenario.permissive
      Scenario.manager Scenario.short_plan Scenario.start in
  fst run = Ok (Some (2, 0))
  /\ exists entries : list (string * json),
       2 + 0 = Z.of_nat (length entries) /\ Scenario.short_plan = JObj entries.
Proof.
  intros run.
  assert (E : run = (Ok (Some (2, 0)), snd run)) by (vm_compute; reflexivity).
  split; [now rewrite E|].
  destruct (download_all_counts_every_entry Scenario.repr Scenario.plain_format
              Scenario.dumps Scenario.join Scenario.dirname Scenario.basename
              Scenario.silent_remote Scenario.whole_transfers Scenario.permissive
              Scenario.manager Scenario.short_plan Scenario.start (snd run)
              2 0 E)
    as (entries & Hsum & _ & _ & [Hlist|[Hnull _]]); [|discriminate].
  exists entries. split; [exact Hsum|exact Hlist].
Defined.

(** X9: when a round of [download_all] counts a failure, no file is left
    at the first destination of the entry (at the destination, for an
    entry with a single one), also where an older file was there before
    the round: the old version of a mod is not kept when its update
    fails. *)
Theorem failed_round_leaves_no_file
  (py_repr : json -> string) (path_join : string -> string -> string)
  (path_dirname path_basename : string -> string)
  (transfers : list request -> request -> transfer)
  (refused : gmap string node -> fs_op -> bool)
  (item : json) (counts : Z * Z) (w w' : world) :
  DownloadManager.download_item py_repr path_join path_dirname path_basename
    transfers refused item counts w
    = (Ok (fst counts, snd counts + 1), w') ->
  (forall (path : string) (others : list json),
     DownloadManager.has_destinations item = Ok true ->
     Py.getitem item "destinations" = Ok (JArr (JStr path :: others)) ->
     files w' !! path = None)
  /\ (forall path : string,
        DownloadManager.has_destinations item = Ok false ->
        Py.get item "destination" JNull = Ok (JStr path) ->
        path <> EmptyString ->
        files w' !! path = None).
Proof.
  intros H.
  destruct (download_item_cases _ _ _ _ _ _ _ _ _ _ _ H) as (several & Hhas & Hround).
  split.
  - intros path others Hmod Hdests.
    rewrite Hhas in Hmod. inversion Hmod; subst several.
    destruct (download_mod_cases _ _ _ _ _ _ _ _ _ _ _ Hround)
      as (d & first & url & w0 & Hd & Hfirst & _ & [[Hc _]|[_ Hdl]]).
    + inversion Hc. lia.
    + rewrite Hdests in Hd. inversion Hd; subst d. cbn in Hfirst.
      inversion Hfirst; subst first.
      exact (download_file_false_absent _ _ _ _ _ _ _ _ Hdl).
  - intros path Hsingle Hdest Hne.
    rewrite Hhas in Hsingle. inversion Hsingle; subst several.
    destruct (download_single_cases _ _ _ _ _ _ _ _ _ Hround)
      as (d & Hd & [Hc|[_ [Hfalsy|[url Hdl]]]]).
    + inversion Hc. lia.
    + rewrite Hdest in Hd. inversion Hd; subst d. cbn in Hfalsy.
      destruct (String.eqb_spec path EmptyString); [contradiction|discriminate].
    + rewrite Hdest in Hd. inversion Hd; subst d.
      exact (download_file_false_absent _ _ _ _ _ _ _ _ Hdl).
Qed.

Lemma failed_round_leaves_no_file_witness :
  let run :=
    DownloadManager.download_item Scenario.repr Scenario.join Scenario.dirname
      Scenario.basename Scenario.closed_transfers Scenario.permissive
      Scenario.slug_item (0, 0) Scenario.stocked in
  files Scenario.stocked !! "mods/a.jar" = Some (File "old")
  /\ fst run = Ok (0, 1)
  /\ files (snd run) !! "mods/a.jar" = None.
Proof.
  intros run. split; [vm_compute; reflexivity|].
  assert (E : run = (Ok (fst (0, 0), snd (0, 0) + 1), snd run))
    by (vm_compute; reflexivity).
  split; [now rewrite E|].
  destruct (failed_round_leaves_no_file Scenario.repr Scenario.join
              Scenario.dirname Scenario.basename Scenario.closed_transfers
              Scenario.permissive Scenario.slug_item (0, 0) Scenario.stocked
              (snd run) E) as [Hmod _].
  apply (Hmod "mods/a.jar" []); reflexivity.
Defined.

(** ** Executing a plan that was built *)

Lemma bind_raise_inv {A B : Type} (c : M A) (k : A -> M B) (w w' : world) (e : exn) :
  bind c k w = (Raise e, w') ->
  c w = (Raise e, w')
  \/ exists (a : A) (w1 : world), c w = (Ok a, w1) /\ k a w1 = (Raise e, w').
Proof.
  unfold bind. destruct (c w) as [[a|x] w1]; intros H.
  - right. eauto.
  - left. now inversion H.
Qed.

Lemma try_except_total {A : Type} (body : M A) (handler : exn -> M A) :
  (forall (e : exn) (w : world), exists (a : A) (w' : world),
     handler e w = (Ok a, w')) ->
  forall w : world, exists (a : A) (w' : world),
    try_except body handler w = (Ok a, w').
Proof.
  intros Hh w. unfold try_except.
  destruct (body w) as [[a|e] w1]; [eauto|apply Hh].
Qed.

Lemma for_each_total {X : Type} (xs : list X) (body : X -> M unit) :
  (forall x : X, In x xs -> forall w : world, exists w' : world,
     body x w = (Ok tt, w')) ->
  forall w : world, exists w' : world, for_each xs body w = (Ok tt, w').
Proof.
  induction xs as [|x xs IH]; intros Hb w; simpl.
  - now exists w.
  - destruct (Hb x (or_introl eq_refl) w) as (w1 & H1).
    rewrite (bind_ok _ _ _ _ _ H1).
    apply IH. intros y Hy. apply Hb. now right.
Qed.

Lemma say_total (l : line) (w : world) : exists w' : world, say l w = (Ok tt, w').
Proof. unfold say. eauto. Qed.

Section ReadyFacts.

Variable py_repr : json -> string.
Variable path_join : string -> string -> string.
Variable path_dirname : string -> string.
Variable path_basename : string -> string.
Variable transfers : list request -> request -> transfer.
Variable refused : gmap string node -> fs_op -> bool.

Lemma remove_old_total (path : string) (w : world) :
  exists w' : world,
    DownloadManager.remove_old py_repr refused (JStr path) w = (Ok tt, w').
Proof.
  unfold DownloadManager.remove_old, os_path_exists, os_path_getsize, bind, lift.
  cbn [Py.path].
  destruct (files w !! path) as [n|] eqn:E; [|unfold ret; eauto].
  rewrite E.
  assert (Hsize : exists k : nat,
            match n with
            | File content => (Ok (String.length content), w)
            | Dir => (Ok 0%nat, w)
            end = (Ok k, w)) by (destruct n; eauto).
  destruct Hsize as (k & ->). unfold say at 1.
  destruct (try_except_total (os_remove refused (JStr path))
              (fun _ => say RemoveWarningLine)
              (fun e w0 => ex_intro _ tt (say_total RemoveWarningLine w0))
              (print (RemovingOldLine (Py.format py_repr (JStr path)) k) w))
    as ([] & w' & H).
  exists w'. exact H.
Qed.

Lemma copy_to_total (first_dest dest : json) (w : world) :
  exists w' : world,
    DownloadManager.copy_to path_join path_basename refused first_dest dest w
    = (Ok tt, w').
Proof.
  unfold DownloadManager.copy_to.
  destruct (try_except_total
              (let! _ := say (CopyingLine dest) in
               shutil_copy2 refused path_join path_basename first_dest dest)
              (fun _ => say (CopyWarningLine dest))
              (fun e w0 => ex_intro _ tt (say_total (CopyWarningLine dest) w0)) w)
    as ([] & w' & H).
  exists w'. exact H.
Qed.

(** [_download_file] to a path raises nothing but what [os.remove] raises
    in its handler. *)
Lemma download_file_raises (url : json) (path : string) (w w' : world) (e : exn) :
  DownloadManager._download_file py_repr path_dirname transfers refused
    url (JStr path) w = (Raise e, w') ->
  e = OSError.
Proof.
  unfold DownloadManager._download_file, try_except.
  destruct (DownloadManager.download_try _ _ _ _ _ _ _) as [[b|x] w1];
    [discriminate|].
  unfold DownloadManager.download_except, say, os_path_exists, os_remove,
    bind, lift, ret, print. cbn [Py.path files].
  destruct (files w1 !! path) as [[c|]|] eqn:E; try discriminate;
    cbn [files]; rewrite E.
  - destruct (refused _ _); [|discriminate]. intros H. now inversion H.
  - intros H. now inversion H.
Qed.

(** A round on an entry that is ready raises [IndexError] (a mod without
    destinations) or [OSError] (a file that cannot be removed) only. *)
Lemma download_item_raises (item : json) (counts : Z * Z) (w w' : world) (e : exn) :
  entry_ready item ->
  DownloadManager.download_item py_repr path_join path_dirname path_basename
    transfers refused item counts w = (Raise e, w') ->
  e = IndexError \/ e = OSError.
Proof.
  intros (fields & -> & (name & Hname) & (version & Hversion) & (url & Hurl) & Hkind).
  unfold DownloadManager.download_item, DownloadManager.has_destinations, bind, lift.
  cbn [Py.get Py.getitem Py.contains res_bind]. rewrite Hname, Hversion.
  destruct Hkind as [(Htype & paths & Hdests)|(type & path & Htype & Hne & Hdest)].
  - rewrite Htype. cbn [Py.eq String.eqb Ascii.eqb Bool.eqb res_bind].
    rewrite Hdests.
    unfold DownloadManager.download_mod. cbn [Py.getitem].
    rewrite Hdests, Hurl. intros H.
    apply bind_raise_inv in H. destruct H as [H|(d & w1 & Hd & H)];
      [discriminate|].
    inversion Hd; subst d w1. clear Hd.
    apply bind_raise_inv in H. destruct H as [H|(slug & w1 & Hs & H)];
      [cbn in H; discriminate|].
    cbn in Hs. inversion Hs; subst w1. clear Hs.
    apply bind_raise_inv in H. destruct H as [H|(u & w2 & Hrm & H)].
    { destruct (Py.truthy slug); [|discriminate].
      cbn [Py.iter] in H. unfold bind, lift in H.
      destruct (for_each_total (map JStr paths)
                  (DownloadManager.remove_old py_repr refused)) with (w := w)
        as (w2 & Hloop).
      - intros x Hx w0. apply in_map_iff in Hx. destruct Hx as (p & <- & _).
        apply remove_old_total.
      - rewrite Hloop in H. discriminate. }
    apply bind_raise_inv in H. destruct H as [H|(first & w3 & Hf & H)].
    { unfold lift in H. destruct paths; cbn in H; inversion H. now left. }
    unfold lift in Hf. destruct paths as [|p paths]; [discriminate|].
    cbn in Hf. inversion Hf; subst first w3. clear Hf.
    apply bind_raise_inv in H. destruct H as [H|(u' & w3 & Hu & H)];
      [discriminate|].
    inversion Hu; subst u' w3. clear Hu.
    apply bind_raise_inv in H. destruct H as [H|(done & w3 & Hdl & H)].
    { right. exact (download_file_raises _ _ _ _ _ H). }
    destruct done; [|discriminate].
    apply bind_raise_inv in H. destruct H as [H|(others & w4 & Ho & H)];
      [discriminate|].
    apply bind_raise_inv in H. destruct H as [H|(u2 & w5 & Hc & H)];
      [|discriminate].
    destruct (for_each_total others
                (DownloadManager.copy_to path_join path_basename refused (JStr p)))
      with (w := w4) as (w5 & Hloop).
    + intros x _ w0. apply copy_to_total.
    + rewrite Hloop in H. discriminate.
  - rewrite Htype. cbn [Py.eq res_bind].
    destruct (String.eqb_spec type "mod") as [->|_]; [contradiction|].
    unfold DownloadManager.download_single, bind, lift. cbn [Py.get].
    rewrite Hdest. cbn [Py.truthy].
    destruct (negb (negb (String.eqb path EmptyString))); [discriminate|].
    unfold os_path_exists, os_path_getsize, bind, lift, say, ret. cbn [Py.path].
    destruct (files w !! path) as [n|] eqn:E.
    + rewrite E. destruct n; discriminate.
    + cbn [Py.getitem]. rewrite Hurl.
      destruct (DownloadManager._download_file _ _ _ _ _ _ _)
        as [[[]|x] w1] eqn:Hdl; try discriminate.
      intros H. inversion H; subst. right.
      exact (download_file_raises _ _ _ _ _ Hdl).
Qed.

End ReadyFacts.

Section BuiltFacts.

Variable py_repr : json -> string.
Variable str_format : string -> list (string * json) -> res string.
Variable path_join : string -> string -> string.
Variable remote : list request -> request -> response.
Variable self : DownloadManager.manager.

Lemma os_path_join_str (a b d : json) :
  DownloadManager.os_path_join path_join a b = Ok d ->
  exists p : string, d = JStr p.
Proof.
  unfold DownloadManager.os_path_join.
  destruct a, b; try discriminate. intros H. inversion H. eauto.
Qed.

Lemma destinations_for_paths (environment base filename : json)
  (destinations : list json) :
  DownloadManager.destinations_for path_join environment base filename
    = Ok destinations ->
  exists paths : list string, destinations = map JStr paths.
Proof.
  unfold DownloadManager.destinations_for. intros H.
  apply res_bind_inv in H as (server & Hs & H).
  apply res_bind_inv in H as (client & Hc & H).
  inversion H; subst. clear H.
  assert (Hserver : exists ps, server = map JStr ps).
  { destruct (Py.in_list environment [JStr "server"; JStr "both"]).
    - apply res_bind_inv in Hs as (p & Hp & Hs). inversion Hs.
      destruct (os_path_join_str _ _ _ Hp) as (s & ->). now exists [s].
    - inversion Hs. now exists []. }
  assert (Hclient : exists ps, client = map JStr ps).
  { destruct (Py.in_list environment [JStr "client"; JStr "both"]).
    - apply res_bind_inv in Hc as (d & _ & Hc).
      apply res_bind_inv in Hc as (p & Hp & Hc). inversion Hc.
      destruct (os_path_join_str _ _ _ Hp) as (s & ->). now exists [s].
    - inversion Hc. now exists []. }
  destruct Hserver as (ps & ->), Hclient as (qs & ->).
  exists (ps ++ qs). now rewrite map_app.
Qed.

Lemma add_single_ready (key type name : string) (version source : json)
  (result : option (json * json)) (downloads downloads' : list (string * json)) :
  type <> "mod" ->
  (forall k it, In (k, it) downloads -> entry_ready it) ->
  DownloadManager.add_single path_join self key type name version source
    result downloads = Ok downloads' ->
  forall k it, In (k, it) downloads' -> entry_ready it.
Proof.
  intros Htype HP H. unfold DownloadManager.add_single in H.
  destruct result as [[url filename]|]; [|inversion H; subst; exact HP].
  apply res_bind_inv in H as (target_dir & _ & H).
  apply res_bind_inv in H as (destination & Hd & H).
  inversion H; subst. intros k it Hin.
  apply set_key_in in Hin. destruct Hin as [[_ Hit]|Hin]; [|eauto].
  subst it. destruct (os_path_join_str _ _ _ Hd) as (p & ->).
  eexists. split; [reflexivity|]. cbn.
  split; [eauto|]. split; [eauto|]. split; [eauto|].
  right. exists type, p. auto.
Qed.

Lemma add_mod_ready (a_mod : json) (downloads downloads' : list (string * json))
  (f : flow unit) (w w' : world) :
  (forall k it, In (k, it) downloads -> entry_ready it) ->
  DownloadManager.add_mod py_repr str_format path_join remote self
    a_mod downloads w = (Ok (downloads', f), w') ->
  forall k it, In (k, it) downloads' -> entry_ready it.
Proof.
  unfold DownloadManager.add_mod. intros HP H.
  bind_inv H as mod_name w1 H1. lift_inv H1 as E1.
  bind_inv H as version w2 H2. lift_inv H2 as E2.
  bind_inv H as source w3 H3. lift_inv H3 as E3.
  bind_inv H as slug w4 H4. lift_inv H4 as E4.
  bind_inv H as environment w5 H5. lift_inv H5 as E5.
  destruct (negb (Py.truthy version)).
  - apply ret_inv in H. destruct H as [H _]. inversion H; subst. exact HP.
  - bind_inv H as resolved w6 Hres.
    destruct resolved as [[[[url filename]|] resolved_slug]|];
      try (apply ret_inv in H; destruct H as [H _]; inversion H; subst; exact HP).
    bind_inv H as base w7 Hb. lift_inv Hb as Eb.
    bind_inv H as destinations w8 Hd. lift_inv Hd as Ed.
    apply ret_inv in H. destruct H as [H _]. inversion H; subst. clear H.
    intros k it Hin. apply set_key_in in Hin.
    destruct Hin as [[_ Hit]|Hin]; [|eauto]. subst it.
    destruct (destinations_for_paths _ _ _ _ Ed) as (paths & ->).
    eexists. split; [reflexivity|]. cbn.
    split; [eauto|]. split; [eauto|]. split; [eauto|].
    left. split; [reflexivity|]. now exists paths.
Qed.

Lemma build_download_list_ready (w w' : world) (plan : list (string * json)) :
  DownloadManager.build_download_list py_repr str_format path_join remote self w
    = (Ok plan, w') ->
  forall k it, In (k, it) plan -> entry_ready it.
Proof.
  unfold DownloadManager.build_download_list. intros H.
  bind_inv H as d1 w1 H1. bind_inv H as d2 w2 H2.
  bind_inv H as mods_config w3 H3. lift_inv H3 as E3.
  assert (HP1 : forall k it, In (k, it) d1 -> entry_ready it).
  { unfold DownloadManager.add_minecraft in H1.
    bind_inv H1 as config w4 H4.
    destruct (Py.truthy config).
    - bind_inv H1 as version w5 H5. bind_inv H1 as source w6 H6.
      bind_inv H1 as result w7 H7. lift_inv H1 as Hadd.
      eapply add_single_ready; [|
        |exact Hadd]; [discriminate|]. intros k it Hin. destruct Hin.
    - apply ret_inv in H1. destruct H1 as [H1 _]. subst d1.
      intros k it Hin. destruct Hin. }
  assert (HP2 : forall k it, In (k, it) d2 -> entry_ready it).
  { unfold DownloadManager.add_fabric in H2.
    bind_inv H2 as config w4 H4.
    destruct (Py.truthy config).
    - bind_inv H2 as version w5 H5. bind_inv H2 as source w6 H6.
      bind_inv H2 as result w7 H7. lift_inv H2 as Hadd.
      eapply add_single_ready; [| |exact Hadd]; [discriminate|exact HP1].
    - apply ret_inv in H2. destruct H2 as [H2 _]. now subst d2. }
  destruct (Py.truthy mods_config).
  - bind_inv H as n w4 H4. lift_inv H4 as E4.
    bind_inv H as mods w5 H5. lift_inv H5 as E5.
    bind_inv H as r w6 H6. apply ret_inv in H. destruct H as [H _].
    destruct r as [s' r]. cbn [fst] in H. subst s'.
    pose proof (for_loop_next_invariant
                  (fun (_ : list json) (d : list (string * json)) =>
                     forall k it, In (k, it) d -> entry_ready it)
                  (DownloadManager.add_mod py_repr str_format path_join remote self)
                  (fun x s w s' f w' Hb =>
                     proj1 (add_mod_cases py_repr str_format path_join remote
                              self x s s' f w w' Hb))
                  (fun seen x s w s' f w' Hs Hb =>
                     add_mod_ready x s s' f w w' Hs Hb)
                  mods [] d2 _ _ _ _ HP2 H6) as [Hplan _].
    exact Hplan.
  - apply ret_inv in H. destruct H as [H _]. now subst plan.
Qed.

End BuiltFacts.

(** X10: every entry of the plan [build_download_list] returns has a
    name, a version and a URL and paths as destinations, so that a round
    of [download_all] on it raises nothing but [IndexError] (a mod
    without destinations) or [OSError] (a file the operating system does
    not let it remove): never a [KeyError], [TypeError] or
    [AttributeError]. *)
Theorem built_plan_rounds_raise_little
  (py_repr : json -> string)
  (str_format : string -> list (string * json) -> res string)
  (path_join : string -> string -> string)
  (path_dirname path_basename : string -> string)
  (remote : list request -> request -> response)
  (transfers : list request -> request -> transfer)
  (refused : gmap string node -> fs_op -> bool)
  (self : DownloadManager.manager) (w0 w1 : world)
  (plan : list (string * json)) (key : string) (item : json) :
  DownloadManager.build_download_list py_repr str_format path_join remote self w0
    = (Ok plan, w1) ->
  In (key, item) plan ->
  (exists name version url : json,
     Py.getitem item "name" = Ok name
     /\ Py.getitem item "version" = Ok version
     /\ Py.getitem item "url" = Ok url)
  /\ forall (counts : Z * Z) (w w' : world) (e : exn),
       DownloadManager.download_item py_repr path_join path_dirname
         path_basename transfers refused item counts w = (Raise e, w') ->
       e = IndexError \/ e = OSError.
Proof.
  intros Hbuild Hin.
  pose proof (build_download_list_ready _ _ _ _ _ _ _ _ Hbuild key item Hin)
    as Hready.
  split.
  - destruct Hready as (fields & -> & (name & Hn) & (version & Hv) & (url & Hu) & _).
    exists name, version, url. cbn. now rewrite Hn, Hv, Hu.
  - intros counts w w' e. now apply download_item_raises.
Qed.

Lemma built_plan_rounds_raise_little_witness :
  (exists name version url : json,
     Py.getitem (Scenario.planned "c" "desktop" []) "name" = Ok name
     /\ Py.getitem (Scenario.planned "c" "desktop" []) "version" = Ok version
     /\ Py.getitem (Scenario.planned "c" "desktop" []) "url" = Ok url)
  /\ fst (DownloadManager.download_item Scenario.repr Scenario.join
            Scenario.dirname Scenario.basename Scenario.whole_transfers
            Scenario.permissive (Scenario.planned "c" "desktop" []) (0, 0)
            Scenario.stocked) = Raise IndexError.
Proof.
  destruct (built_plan_rounds_raise_little Scenario.repr Scenario.plain_format
              Scenario.join Scenario.dirname Scenario.basename
              Scenario.silent_remote Scenario.whole_transfers Scenario.permissive
              Scenario.manager Scenario.start Scenario.start Scenario.built
              "mod_c" (Scenario.planned "c" "desktop" []))
    as [Hfields _].
  - vm_compute. reflexivity.
  - right. right. left. reflexivity.
  - split; [exact Hfields|]. vm_compute. reflexivity.
Defined.

(** ** Resolving a mod *)

Lemma string_length_app (a b : string) :
  String.length (a +:+ b) = (String.length a + String.length b)%nat.
Proof.
  induction a as [|x a IH]; [reflexivity|].
  rewrite string_app_cons. cbn [String.length]. now rewrite IH.
Qed.

Lemma substring_app_skip (a t : string) (k : nat) :
  String.substring (String.length a) k (a +:+ t) = String.substring 0 k t.
Proof.
  induction a as [|x a IH]; [reflexivity|].
  rewrite string_app_cons. cbn [String.length String.substring]. exact IH.
Qed.

Lemma endswith_app (a suffix : string) : Str.endswith suffix (a +:+ suffix) = true.
Proof.
  unfold Str.endswith. rewrite string_length_app.
  replace (String.length a + String.length suffix - String.length suffix)%nat
    with (String.length a) by lia.
  rewrite substring_app_skip.
  apply andb_true_iff. split; [apply Nat.leb_le; lia|].
  apply String.eqb_eq. clear a.
  induction suffix as [|x s IH]; [reflexivity|].
  cbn [String.length String.substring]. now rewrite IH.
Qed.

(** X11: [_resolve_custom_url] returns nothing when the mod has no
    [download_url]; what it returns otherwise is that URL, a [str],
    with a file name that always ends in [.jar]. *)
Theorem custom_url_filename_is_jar
  (py_repr : json -> string) (mod_config : json) (result : option (json * json)) :
  DownloadManager._resolve_custom_url py_repr mod_config = Ok result ->
  exists download_url : json,
    Py.get mod_config "download_url" JNull = Ok download_url
    /\ (result = None <-> Py.truthy download_url = false)
    /\ forall url filename : json,
         result = Some (url, filename) ->
         url = download_url
         /\ (exists u : string, url = JStr u)
         /\ exists f : string,
              filename = JStr f /\ Str.endswith ".jar" f = true.
Proof.
  unfold DownloadManager._resolve_custom_url. intros H.
  apply res_bind_inv in H as (download_url & Hget & H).
  exists download_url. split; [exact Hget|].
  destruct (Py.truthy download_url) eqn:Et; cbn [negb] in H.
  - destruct download_url as [| | | |u| |]; try discriminate.
    destruct (Str.endswith ".jar" (Str.split_head "?" (Str.split_last "/" u)))
      eqn:Ejar.
    + inversion H; subst. split; [split; discriminate|].
      intros url filename Hr. inversion Hr; subst.
      split; [reflexivity|]. split; [eauto|]. eauto.
    + apply res_bind_inv in H as (name & _ & H). inversion H; subst.
      split; [split; discriminate|].
      intros url filename Hr. inversion Hr; subst.
      split; [reflexivity|]. split; [eauto|].
      eexists. split; [reflexivity|]. apply endswith_app.
  - inversion H; subst. split; [tauto|]. intros url filename Hr. discriminate.
Qed.

Lemma custom_url_filename_is_jar_witness :
  exists f : string,
    Str.endswith ".jar" f = true
    /\ DownloadManager._resolve_custom_url Scenario.repr
         (Scenario.custom_mod "a" None)
       = Ok (Some (JStr "https://example.org/a.jar", JStr f)).
Proof.
  destruct (custom_url_filename_is_jar Scenario.repr
              (Scenario.custom_mod "a" None)
              (Some (JStr "https://example.org/a.jar", JStr "a.jar")) eq_refl)
    as (download_url & _ & _ & Hall).
  destruct (Hall _ _ eq_refl) as (_ & _ & f & Hf & Hjar).
  exists f. split; [exact Hjar|]. inversion Hf; subst f. reflexivity.
Defined.

(** X12: without a CurseForge API key (none set, or an empty one), a
    round of [build_download_list] on a mod whose source is [curseforge]
    leaves the plan as it is and sends no request: the mod is left out of
    the plan. *)
Theorem curseforge_mod_needs_api_key
  (py_repr : json -> string)
  (str_format : string -> list (string * json) -> res string)
  (path_join : string -> string -> string)
  (remote : list request -> request -> response)
  (self : DownloadManager.manager) (a_mod : json)
  (downloads : list (string * json)) (w : world) :
  DownloadManager.curseforge_api_key self = None
  \/ DownloadManager.curseforge_api_key self = Some EmptyString ->
  Py.get a_mod "source" (JStr "modrinth") = Ok (JStr "curseforge") ->
  exists w' : world,
    DownloadManager.add_mod py_repr str_format path_join remote self
      a_mod downloads w = (Ok (downloads, Next), w')
    /\ requests w' = requests w
    /\ files w' = files w.
Proof.
  intros Hkey Hsource.
  destruct a_mod as [| | | | | |fields]; try discriminate.
  unfold DownloadManager.add_mod, bind, lift. cbn [Py.get] in *.
  inversion Hsource as [Hsrc]. rewrite Hsrc.
  destruct (negb (Py.truthy _)); [unfold ret; eauto|].
  unfold DownloadManager.resolve_mod. cbn [Py.eq String.eqb Ascii.eqb Bool.eqb].
  unfold bind, lift. cbn [Py.get].
  destruct (Py.truthy (match Py.lookup "project_id" fields with
                       | Some x => x | None => JNull end));
    [|unfold ret; eauto].
  unfold DownloadManager._resolve_curseforge_url.
  destruct Hkey as [->| ->]; cbn [String.eqb];
    unfold bind, say, ret; cbn; eauto.
Qed.

Lemma curseforge_mod_needs_api_key_witness :
  exists w' : world,
    DownloadManager.add_mod Scenario.repr Scenario.plain_format Scenario.join
      Scenario.silent_remote Scenario.manager
      (JObj [("name", JStr "d"); ("version", JStr "1.0");
             ("source", JStr "curseforge"); ("project_id", JInt 42)])
      [] Scenario.start = (Ok ([], Next), w')
    /\ requests w' = requests Scenario.start
    /\ files w' = files Scenario.start.
Proof.
  apply (curseforge_mod_needs_api_key Scenario.repr Scenario.plain_format
           Scenario.join Scenario.silent_remote Scenario.manager).
  - left. reflexivity.
  - reflexivity.
Defined.

Section ModrinthFacts.

Variable py_repr : json -> string.
Variable str_format : string -> list (string * json) -> res string.
Variable remote : list request -> request -> response.
Variable self : DownloadManager.manager.

Lemma modrinth_candidate_return (project_id version ver_info : json) (u : unit)
  (url filename pid : json) :
  DownloadManager.modrinth_candidate py_repr self project_id version ver_info
    = Ok (u, Return (url, filename, pid)) ->
  pid = project_id
  /\ filename = JStr (Py.format py_repr project_id +:+ ".jar")
  /\ Py.truthy url = true.
Proof.
  unfold DownloadManager.modrinth_candidate. intros H.
  apply res_bind_inv in H as (number & _ & H).
  destruct (Py.eq number version); [|discriminate].
  apply res_bind_inv in H as (loaders & _ & H).
  apply res_bind_inv in H as (game_versions & _ & H).
  apply res_bind_inv in H as (fabric & _ & H).
  apply res_bind_inv in H as (current & _ & H).
  destruct current; [|discriminate].
  apply res_bind_inv in H as (files & _ & H).
  destruct (Py.truthy files); [|discriminate].
  apply res_bind_inv in H as (primary_file & _ & H).
  apply res_bind_inv in H as (download_url & _ & H).
  destruct (Py.truthy download_url) eqn:Et; [|discriminate].
  inversion H; subst. auto.
Qed.

End ModrinthFacts.

(** X13: [_resolve_modrinth_url] sends exactly one request (timeout 30),
    for the project found under the mod name in [project_mappings], else
    under the slug when there is one, else under the mod name itself: the
    URL of the request is the [manifest_url] template of the Modrinth
    source filled in with that project, and its User-Agent header is the
    [user_agent] of the source, or [minecraft-server-manager/1.0] when
    the source has none. What the call returns names that project, a
    download URL that is a true value, and the project's name followed by
    [.jar] as file name, whatever the version is. *)
Theorem modrinth_resolution_names_project
  (py_repr : json -> string)
  (str_format : string -> list (string * json) -> res string)
  (remote : list request -> request -> response)
  (self : DownloadManager.manager)
  (mod_name version slug : json) (w w' : world)
  (result : option (json * json * json)) :
  DownloadManager._resolve_modrinth_url py_repr str_format remote self
    mod_name version slug w = (Ok result, w') ->
  exists (source_config project_mappings project_id user_agent : json)
         (template address : string),
    DownloadManager.source_config self "modrinth" = Ok source_config
    /\ Py.get source_config "project_mappings" (JObj []) = Ok project_mappings
    /\ Py.get_key project_mappings mod_name
         (if Py.truthy slug then slug else mod_name) = Ok project_id
    /\ Py.getitem source_config "manifest_url" = Ok (JStr template)
    /\ str_format template [("project_id", project_id)] = Ok address
    /\ Py.get source_config "user_agent" (JStr "minecraft-server-manager/1.0")
       = Ok user_agent
    /\ requests w' = requests w ++
         [{| req_url := address;
             req_headers := [("User-Agent", user_agent)];
             req_timeout := 30 |}]
    /\ forall url filename pid : json,
         result = Some (url, filename, pid) ->
         pid = project_id
         /\ filename = JStr (Py.format py_repr project_id +:+ ".jar")
         /\ Py.truthy url = true.
Proof.
  unfold DownloadManager._resolve_modrinth_url. intros H.
  bind_inv H as source_config w1 H1. lift_inv H1 as E1.
  bind_inv H as project_mappings w2 H2. lift_inv H2 as E2.
  bind_inv H as project_id w3 H3. lift_inv H3 as E3.
  bind_inv H as manifest_url w4 H4. lift_inv H4 as E4.
  bind_inv H as user_agent w5 H5. lift_inv H5 as E5.
  bind_inv H as versions w6 H6.
  pose proof (fetch_json_requests _ _ _ _ _ _ _ H6) as Hreq.
  apply res_bind_inv in E4 as (template & Etemplate & E4).
  unfold DownloadManager.format_template in E4.
  destruct template as [| | | |t| |]; try discriminate.
  apply res_bind_inv in E4 as (address & Eaddress & E4).
  inversion E4; subst manifest_url. clear E4. cbn [Py.format] in Hreq.
  exists source_config, project_mappings, project_id, user_agent, t, address.
  split; [exact E1|]. split; [exact E2|]. split; [exact E3|].
  split; [exact Etemplate|]. split; [exact Eaddress|]. split; [exact E5|].
  destruct (negb (Py.truthy versions)).
  - apply ret_inv in H. destruct H as [H Hw]. subst.
    split; [exact Hreq|]. discriminate.
  - bind_inv H as infos w7 H7. lift_inv H7 as E7.
    bind_inv H as r w8 H8. apply ret_inv in H. destruct H as [H Hw]. subst.
    assert (Hsame : requests w8 = requests w6).
    { clear - H8. revert w6 H8. generalize tt at 1.
      induction infos as [|info infos IH]; intros u0 w6 H8; simpl in H8.
      - apply ret_inv in H8. destruct H8 as [_ ->]. reflexivity.
      - bind_inv H8 as r1 w9 H9. lift_inv H9 as E9.
        destruct (snd r1); [exact (IH _ _ H8)| |];
          apply ret_inv in H8; destruct H8 as [_ ->]; reflexivity. }
    split; [now rewrite Hsame|].
    intros url filename pid Hr. destruct r as [u0 r]. cbn [snd] in Hr. subst r.
    apply for_loop_return_inv in H8.
    destruct H8 as (info & s0 & w0 & _ & Hbody). lift_inv Hbody as Ebody.
    exact (modrinth_candidate_return _ _ _ _ _ _ _ _ _ Ebody).
Qed.

Lemma modrinth_resolution_names_project_witness :
  let run :=
    DownloadManager._resolve_modrinth_url Scenario.repr Scenario.plain_format
      Scenario.modrinth_remote Scenario.modrinth_manager
      (JStr "Lithium") (JStr "0.14.3") (JStr "lithium") Scenario.start in
  fst run = Ok (Some (JStr "https://cdn.example/lithium.jar",
                      JStr "lithium.jar", JStr "lithium"))
  /\ requests (snd run)
     = [{| req_url := "https://api.modrinth.com/v2/project/lithium/version";
           req_headers := [("User-Agent", JStr "minecraft-server-manager/1.0")];
           req_timeout := 30 |}].
Proof.
  intros run.
  assert (E : run = (Ok (Some (JStr "https://cdn.example/lithium.jar",
                               JStr "lithium.jar", JStr "lithium")), snd run))
    by (vm_compute; reflexivity).
  split; [now rewrite E|].
  destruct (modrinth_resolution_names_project Scenario.repr Scenario.plain_format
              Scenario.modrinth_remote Scenario.modrinth_manager
              (JStr "Lithium") (JStr "0.14.3") (JStr "lithium")
              Scenario.start (snd run) _ E)
    as (c & m & p & a & t & u & Hc & _ & _ & Ht & Hu & Ha & Hreq & _).
  rewrite Hreq. vm_compute in Hc. inversion Hc; subst c.
  vm_compute in Ht. inversion Ht; subst t.
  vm_compute in Hu. inversion Hu; subst u.
  vm_compute in Ha. inversion Ha; subst a.
  reflexivity.
Defined.

(** ** The cache *)

Section CacheFacts.

Variable json_dumps : json -> string.
Variable refused : gmap string node -> fs_op -> bool.
Variable self : DownloadManager.manager.

(** [_save_cache] never raises: it writes the file and says so, or
    prints a warning and leaves the files alone. *)
Lemma save_cache_cases (cache : json) (w : world) :
  exists w' : world,
    DownloadManager._save_cache json_dumps refused self cache w = (Ok tt, w')
    /\ requests w' = requests w
    /\ ((console w' = console w ++ [CacheSavedLine]
         /\ files w' = <[DownloadManager.cache_file self := File (json_dumps cache)]>
                         (files w))
        \/ (console w' = console w ++ [CacheWarningLine]
            /\ files w' = files w)).
Proof.
  unfold DownloadManager._save_cache, try_except, write_text, bind, say.
  destruct (files w !! DownloadManager.cache_file self) as [[c|]|];
    try (destruct (refused (files w) _));
    eexists; (split; [reflexivity|]); (split; [reflexivity|]); cbn; auto.
Qed.

End CacheFacts.

(** X14: when [download_all] returns its counters, its last line of
    output tells whether the cache was saved; if it was, the cache file
    holds the configured Minecraft version and the whole list that was
    executed, the entries whose download failed included. *)
Theorem download_all_saves_the_list
  (py_repr : json -> string)
  (str_format : string -> list (string * json) -> res string)
  (json_dumps : json -> string)
  (path_join : string -> string -> string)
  (path_dirname path_basename : string -> string)
  (remote : list request -> request -> response)
  (transfers : list request -> request -> transfer)
  (refused : gmap string node -> fs_op -> bool)
  (self : DownloadManager.manager)
  (download_list : json) (w w' : world) (counts : Z * Z) :
  DownloadManager.download_all py_repr str_format json_dumps path_join
    path_dirname path_basename remote transfers refused self download_list w
    = (Ok (Some counts), w') ->
  exists (entries : list (string * json)) (before : list line),
    (download_list = JObj entries
     \/ (download_list = JNull
         /\ exists w1 : world,
              DownloadManager.build_download_list py_repr str_format path_join
                remote self w = (Ok entries, w1)))
    /\ ((console w' = before ++ [CacheSavedLine]
         /\ files w' !! DownloadManager.cache_file self
            = Some (File (json_dumps
                            (JObj [("minecraft_version",
                                    DownloadManager.minecraft_version self);
                                   ("downloads", JObj entries)]))))
        \/ console w' = before ++ [CacheWarningLine]).
Proof.
  unfold DownloadManager.download_all. intros H.
  bind_inv H as given w1 Hgiven.
  destruct (negb (Py.truthy given)); [apply ret_inv in H; destruct H; discriminate|].
  bind_inv H as entries w2 Hitems. lift_inv Hitems as Eitems.
  bind_inv H as r w3 Hloop. bind_inv H as u w4 Hsave.
  apply ret_inv in H. destruct H as [_ ->].
  destruct given; try discriminate. cbn in Eitems. inversion Eitems; subst fields.
  destruct (save_cache_cases json_dumps refused self
              (JObj [("minecraft_version", DownloadManager.minecraft_version self);
                     ("downloads", JObj entries)]) w3)
    as (w5 & Hsave' & _ & Hcases).
  rewrite Hsave' in Hsave. inversion Hsave; subst w5. clear Hsave.
  exists entries, (console w3). split.
  - destruct download_list;
      try (apply ret_inv in Hgiven; destruct Hgiven as [Hgiven _];
           inversion Hgiven; subst; now left).
    bind_inv Hgiven as built w5 Hbuild.
    apply ret_inv in Hgiven. destruct Hgiven as [Hgiven Hw].
    inversion Hgiven; subst. right. split; [reflexivity|]. eexists. exact Hbuild.
  - destruct Hcases as [[Hc Hf]|[Hc _]]; [left|now right].
    split; [exact Hc|]. rewrite Hf. apply lookup_insert_eq.
Qed.

Lemma download_all_saves_the_list_witness :
  let run :=
    DownloadManager.download_all Scenario.repr Scenario.plain_format
      Scenario.dumps Scenario.join Scenario.dirname Scenario.basename
      Scenario.silent_remote Scenario.closed_transfers Scenario.permissive
      Scenario.manager Scenario.short_plan Scenario.start in
  fst run = Ok (Some (0, 2))
  /\ files (snd run) !! ".download_cache.json" = Some (File "{}").
Proof.
  intros run.
  assert (E : run = (Ok (Some (0, 2)), snd run)) by (vm_compute; reflexivity).
  split; [now rewrite E|].
  destruct (download_all_saves_the_list Scenario.repr Scenario.plain_format
              Scenario.dumps Scenario.join Scenario.dirname Scenario.basename
              Scenario.silent_remote Scenario.closed_transfers Scenario.permissive
              Scenario.manager Scenario.short_plan Scenario.start (snd run)
              (0, 2) E)
    as (entries & before & _ & [[_ Hfile]|Hwarn]).
  - exact Hfile.
  - exfalso. vm_compute in Hwarn.
    apply (f_equal (fun l => List.last l CacheSavedLine)) in Hwarn.
    rewrite List.last_last in Hwarn. discriminate.
Defined.

(** ** Requests of a compatibility check *)

Lemma sends_ret {A : Type} (a : A) : sends_at_most 0 (ret a).
Proof. intros w r w' H. unfold ret in H. inversion H. lia. Qed.

Lemma sends_lift {A : Type} (x : res A) : sends_at_most 0 (lift x).
Proof. intros w r w' H. unfold lift in H. inversion H. lia. Qed.

Lemma sends_more {A : Type} (n m : nat) (c : M A) :
  (n <= m)%nat -> sends_at_most n c -> sends_at_most m c.
Proof. intros Hle Hc w r w' H. specialize (Hc w r w' H). lia. Qed.

Lemma sends_bind {A B : Type} (n m : nat) (c : M A) (k : A -> M B) :
  sends_at_most n c -> (forall a : A, sends_at_most m (k a)) ->
  sends_at_most (n + m) (bind c k).
Proof.
  intros Hc Hk w r w' H. unfold bind in H.
  destruct (c w) as [[a|e] w1] eqn:E.
  - specialize (Hc w _ w1 E). specialize (Hk a w1 r w' H). lia.
  - inversion H; subst. specialize (Hc w _ w' E). lia.
Qed.

Lemma sends_fetch (remote : list request -> request -> response)
  (timeout : Z) (url : string) (headers : list (string * json)) :
  sends_at_most 1 (fetch_json remote timeout url headers).
Proof.
  intros w r w' H. rewrite (fetch_json_requests _ _ _ _ _ _ _ H).
  rewrite length_app. simpl. lia.
Qed.

Lemma sends_for_loop {X S R : Type} (n : nat) (body : X -> S -> M (S * flow R))
  (xs : list X) :
  (forall (x : X) (s : S), sends_at_most n (body x s)) ->
  forall s : S, sends_at_most (n * length xs) (for_loop xs body s).
Proof.
  intros Hb. induction xs as [|x xs IH]; intros s.
  - simpl. apply (sends_more 0); [lia|apply sends_ret].
  - cbn [for_loop length]. apply (sends_more (n + n * length xs)); [lia|].
    apply sends_bind; [apply Hb|].
    intros [s1 f]. cbn [fst snd].
    destruct f; [apply IH| |];
      (apply (sends_more 0); [lia|apply sends_ret]).
Qed.

Section CheckRequests.

Variable py_repr : json -> string.
Variable remote : list request -> request -> response.
Variable self : UpdateChecker.checker.

Lemma sends_search (mod_name : json) :
  sends_at_most 1 (UpdateChecker._search_modrinth_project py_repr remote mod_name).
Proof.
  unfold UpdateChecker._search_modrinth_project.
  apply (sends_bind 1 0); [apply sends_fetch|]. intros results.
  apply (sends_bind 0 0).
  { destruct (negb (Py.truthy results)); [apply sends_ret|].
    apply (sends_bind 0 0); [apply sends_lift|]. intros has. apply sends_ret. }
  intros no_hits. destruct no_hits; [apply sends_ret|].
  apply (sends_bind 0 0); [apply sends_lift|]. intros hits.
  destruct (negb (Py.truthy hits)); [apply sends_ret|].
  apply (sends_bind 0 0); [apply sends_lift|]. intros hit_list.
  apply (sends_bind 0 0); [apply sends_lift|]. intros found.
  destruct found; [apply sends_ret|].
  apply (sends_bind 0 0); [apply sends_lift|]. intros first. apply sends_lift.
Qed.

Lemma sends_versions (project_id mc_version : json) (loader : string) :
  sends_at_most 1
    (UpdateChecker._get_mod_versions py_repr remote project_id mc_version loader).
Proof.
  unfold UpdateChecker._get_mod_versions.
  apply (sends_bind 1 0); [apply sends_fetch|]. intros versions. apply sends_ret.
Qed.

Lemma sends_check_mod (mc_version a_mod : json)
  (locals : list (json * json) * list json) :
  sends_at_most 2 (UpdateChecker.check_mod py_repr remote mc_version a_mod locals).
Proof.
  unfold UpdateChecker.check_mod.
  apply (sends_bind 0 2); [apply sends_lift|]. intros mod_name.
  destruct (negb (Py.truthy mod_name));
    [apply (sends_more 0); [lia|apply sends_ret]|].
  apply (sends_bind 1 1); [apply sends_search|]. intros project_id.
  destruct (negb (Py.truthy project_id));
    [apply (sends_more 0); [lia|apply sends_ret]|].
  apply (sends_bind 1 0); [apply sends_versions|]. intros versions.
  destruct (negb (Py.truthy versions)); [apply sends_ret|].
  apply (sends_bind 0 0); [apply sends_lift|]. intros latest.
  apply (sends_bind 0 0); [apply sends_lift|]. intros latest_version.
  destruct (negb (Py.truthy latest_version)); [apply sends_ret|].
  apply (sends_bind 0 0); [apply sends_lift|]. intros files.
  apply (sends_bind 0 0); [apply sends_lift|]. intros file.
  apply (sends_bind 0 0); [apply sends_lift|]. intros url.
  apply (sends_bind 0 0); [apply sends_lift|]. intros details. apply sends_ret.
Qed.

End CheckRequests.

(** X15: a compatibility check sends at most two requests for each
    configured mod (one search, one version list), however it ends, and
    none when the configured mods cannot be iterated. *)
Theorem compatibility_check_request_bound
  (py_repr : json -> string) (remote : list request -> request -> response)
  (self : UpdateChecker.checker) (mc_version fabric_version : json) :
  (forall mod_list : list json,
     Py.iter (UpdateChecker.mods self) = Ok mod_list ->
     sends_at_most (2 * length mod_list)
       (UpdateChecker.check_full_compatibility py_repr remote self
          mc_version fabric_version))
  /\ (forall e : exn,
        Py.iter (UpdateChecker.mods self) = Raise e ->
        sends_at_most 0
          (UpdateChecker.check_full_compatibility py_repr remote self
             mc_version fabric_version)).
Proof.
  split.
  - intros mod_list Hiter w r w' H.
    unfold UpdateChecker.check_full_compatibility in H. rewrite Hiter in H.
    change (bind (for_loop mod_list
                    (UpdateChecker.check_mod py_repr remote mc_version) ([], []))
              (fun r0 =>
                 ret ((length (snd (fst r0)) =? 0)%nat, fst (fst r0), snd (fst r0)))
              w = (r, w')) in H.
    revert w r w' H.
    apply (sends_more (2 * length mod_list + 0)); [lia|].
    apply sends_bind; [|intros r0; apply sends_ret].
    apply sends_for_loop. intros x s. apply sends_check_mod.
  - intros e Hiter w r w' H.
    unfold UpdateChecker.check_full_compatibility in H. rewrite Hiter in H.
    unfold bind, lift in H. inversion H. lia.
Qed.

Lemma compatibility_check_request_bound_witness :
  (length (requests (snd (UpdateChecker.check_full_compatibility Scenario.repr
                            Scenario.late_mod_remote Scenario.self
                            (JStr "1.21.2") (JStr "0.16.1") Scenario.start)))
   <= length (requests Scenario.start) + 2 * 1)%nat.
Proof.
  apply (proj1 (compatibility_check_request_bound Scenario.repr
                  Scenario.late_mod_remote Scenario.self
                  (JStr "1.21.2") (JStr "0.16.1"))
           [JObj [("name", JStr "Lithium")]] eq_refl Scenario.start
           (fst (UpdateChecker.check_full_compatibility Scenario.repr
                   Scenario.late_mod_remote Scenario.self
                   (JStr "1.21.2") (JStr "0.16.1") Scenario.start))).
  apply surjective_pairing.
Defined.

(** ** Lines of a [.env] file *)

Lemma string_app_nil (s : string) : EmptyString +:+ s = s.
Proof. reflexivity. Qed.

Lemma lstrip_app (a t : string) (x : ascii) :
  EnvLoader.is_space x = false ->
  EnvLoader.lstrip (a +:+ String x t) = EnvLoader.lstrip a +:+ String x t.
Proof.
  intros Hx. induction a as [|c a IH].
  - rewrite string_app_nil. cbn [EnvLoader.lstrip]. now rewrite Hx.
  - rewrite string_app_cons. cbn [EnvLoader.lstrip].
    destruct (EnvLoader.is_space c); [exact IH|reflexivity].
Qed.

Lemma rstrip_cons (c : ascii) (s : string) :
  EnvLoader.is_space c = false ->
  EnvLoader.rstrip (String c s) = String c (EnvLoader.rstrip s).
Proof.
  intros Hc. cbn [EnvLoader.rstrip]. rewrite Hc.
  destruct (EnvLoader.rstrip s); reflexivity.
Qed.

Lemma rstrip_app (a t : string) (x : ascii) :
  EnvLoader.is_space x = false ->
  EnvLoader.rstrip (a +:+ String x t) = a +:+ String x (EnvLoader.rstrip t).
Proof.
  intros Hx. induction a as [|c a IH].
  - rewrite !string_app_nil. now apply rstrip_cons.
  - rewrite !string_app_cons. cbn [EnvLoader.rstrip]. rewrite IH.
    destruct a; reflexivity.
Qed.

Lemma lstrip_idem (s : string) :
  EnvLoader.lstrip (EnvLoader.lstrip s) = EnvLoader.lstrip s.
Proof.
  induction s as [|c s IH]; [reflexivity|]. cbn [EnvLoader.lstrip].
  destruct (EnvLoader.is_space c) eqn:E; [exact IH|].
  cbn [EnvLoader.lstrip]. now rewrite E.
Qed.

Lemma rstrip_step (c : ascii) (s : string) :
  EnvLoader.rstrip (String c s) =
  match EnvLoader.rstrip s with
  | EmptyString => if EnvLoader.is_space c then EmptyString else String c EmptyString
  | r => String c r
  end.
Proof. reflexivity. Qed.

Lemma rstrip_idem (s : string) :
  EnvLoader.rstrip (EnvLoader.rstrip s) = EnvLoader.rstrip s.
Proof.
  induction s as [|c s IH]; [reflexivity|]. rewrite rstrip_step.
  destruct (EnvLoader.rstrip s) as [|d r] eqn:E.
  - destruct (EnvLoader.is_space c) eqn:Ec; [reflexivity|].
    rewrite rstrip_step. cbn [EnvLoader.rstrip]. now rewrite Ec.
  - rewrite rstrip_step. now rewrite IH.
Qed.

Lemma has_app (c : ascii) (a b : string) :
  EnvLoader.has c (a +:+ b) = EnvLoader.has c a || EnvLoader.has c b.
Proof.
  induction a as [|x a IH]; [reflexivity|].
  rewrite string_app_cons. cbn [EnvLoader.has]. rewrite IH.
  now rewrite orb_assoc.
Qed.

Lemma has_lstrip (c : ascii) (s : string) :
  EnvLoader.has c s = false -> EnvLoader.has c (EnvLoader.lstrip s) = false.
Proof.
  induction s as [|x s IH]; [reflexivity|]. cbn [EnvLoader.has EnvLoader.lstrip].
  intros H. apply orb_false_iff in H. destruct H as [Hx Hs].
  destruct (EnvLoader.is_space x); [now apply IH|].
  cbn [EnvLoader.has]. now rewrite Hx, Hs.
Qed.

Lemma has_rstrip (c : ascii) (s : string) :
  EnvLoader.has c s = false -> EnvLoader.has c (EnvLoader.rstrip s) = false.
Proof.
  induction s as [|x s IH]; [reflexivity|]. cbn [EnvLoader.has EnvLoader.rstrip].
  intros H. apply orb_false_iff in H. destruct H as [Hx Hs].
  specialize (IH Hs).
  destruct (EnvLoader.rstrip s) as [|d r].
  - destruct (EnvLoader.is_space x); [reflexivity|].
    cbn [EnvLoader.has]. now rewrite Hx.
  - cbn [EnvLoader.has] in *. now rewrite Hx, IH.
Qed.

Lemma split_once_app (c : ascii) (a t : string) :
  EnvLoader.has c a = false ->
  EnvLoader.split_once c (a +:+ String c t) = (a, t).
Proof.
  induction a as [|x a IH]; intros H.
  - rewrite string_app_nil. cbn [EnvLoader.split_once]. now rewrite Ascii.eqb_refl.
  - cbn [EnvLoader.has] in H. apply orb_false_iff in H. destruct H as [Hx Ha].
    rewrite string_app_cons. cbn [EnvLoader.split_once]. rewrite Hx.
    now rewrite (IH Ha).
Qed.

Lemma endswith_last (c : ascii) (a : string) :
  EnvLoader.endswith c (a +:+ String c EmptyString) = true.
Proof.
  induction a as [|x a IH].
  - rewrite string_app_nil. cbn [EnvLoader.endswith]. apply Ascii.eqb_refl.
  - rewrite string_app_cons. cbn [EnvLoader.endswith].
    destruct a; [exact IH|rewrite string_app_cons in *; exact IH].
Qed.

Lemma substring_prefix (v t : string) :
  String.substring 0 (String.length v) (v +:+ t) = v.
Proof.
  induction v as [|x v IH].
  - rewrite string_app_nil. cbn [String.length]. destruct t; reflexivity.
  - rewrite string_app_cons. cbn [String.length String.substring]. now rewrite IH.
Qed.

Lemma inner_quoted (c : ascii) (v : string) :
  EnvLoader.inner (String c (v +:+ String c EmptyString)) = v.
Proof.
  unfold EnvLoader.inner. cbn [String.length]. rewrite string_length_app.
  cbn [String.length].
  replace (S (String.length v + 1) - 2)%nat with (String.length v) by lia.
  cbn [String.substring]. apply substring_prefix.
Qed.

Lemma before_first_id (c : ascii) (a : string) :
  EnvLoader.has c a = false -> Algorithm.before_first c a = a.
Proof.
  induction a as [|x a IH]; [reflexivity|]. cbn [EnvLoader.has].
  intros H. apply orb_false_iff in H. destruct H as [Hx Ha].
  simpl. rewrite Hx. now rewrite (IH Ha).
Qed.

Lemma split_head_app (c : ascii) (a t : string) :
  EnvLoader.has c a = false -> Str.split_head c (a +:+ String c t) = a.
Proof.
  intros H. rewrite split_head_before_first, before_first_app_sep.
  now apply before_first_id.
Qed.

Lemma startswith_lstrip_app (c x : ascii) (s t : string) :
  EnvLoader.has c s = false -> Ascii.eqb x c = false ->
  EnvLoader.startswith c (EnvLoader.lstrip s +:+ String x t) = false.
Proof.
  intros Hs Hx. induction s as [|y s IH]; [exact Hx|].
  cbn [EnvLoader.has] in Hs. apply orb_false_iff in Hs. destruct Hs as [Hy Hs].
  cbn [EnvLoader.lstrip]. destruct (EnvLoader.is_space y); [now apply IH|].
  rewrite string_app_cons. exact Hy.
Qed.

(** What [parse_line] does with a line [key=value] once the line is
    stripped and split. *)
Lemma parse_line_assignment (key rest : string) (env : list (string * string)) :
  EnvLoader.has "=" key = false ->
  EnvLoader.startswith "#" (EnvLoader.lstrip key) = false ->
  EnvLoader.strip (key +:+ String "=" rest)
    = EnvLoader.lstrip key +:+ String "=" (EnvLoader.rstrip rest)
  /\ EnvLoader.parse_line (key +:+ String "=" rest) env =
     let line := EnvLoader.lstrip key +:+ String "=" (EnvLoader.rstrip rest) in
     let value := EnvLoader.strip rest in
     let value :=
       if EnvLoader.startswith EnvLoader.dq value && EnvLoader.endswith EnvLoader.dq value
       then EnvLoader.inner value
       else if EnvLoader.startswith EnvLoader.sq value
               && EnvLoader.endswith EnvLoader.sq value
       then EnvLoader.inner value
       else value in
     let value :=
       if EnvLoader.has "#" value
          && negb (EnvLoader.has EnvLoader.dq line || EnvLoader.has EnvLoader.sq line)
       then EnvLoader.strip (Str.split_head "#" value)
       else value in
     EnvLoader.assign env (EnvLoader.strip key) value.
Proof.
  intros Heq Hhash.
  assert (Hstrip : EnvLoader.strip (key +:+ String "=" rest)
            = EnvLoader.lstrip key +:+ String "=" (EnvLoader.rstrip rest)).
  { unfold EnvLoader.strip. rewrite lstrip_app by reflexivity.
    now rewrite rstrip_app by reflexivity. }
  split; [exact Hstrip|].
  unfold EnvLoader.parse_line. rewrite Hstrip.
  set (lk := EnvLoader.lstrip key) in *.
  set (line := lk +:+ String "=" (EnvLoader.rstrip rest)).
  assert (Hne : String.eqb line EmptyString = false)
    by (subst line; destruct lk; reflexivity).
  assert (Hstart : EnvLoader.startswith "#" line = false)
    by (subst line; destruct lk; [reflexivity|exact Hhash]).
  assert (Hhas : EnvLoader.has "=" line = true).
  { subst line. rewrite has_app. cbn [EnvLoader.has]. rewrite Ascii.eqb_refl.
    cbn. apply orb_true_r. }
  rewrite Hne, Hstart, Hhas. cbn [orb].
  assert (Hlk : EnvLoader.has "=" lk = false) by (now apply has_lstrip).
  subst line. rewrite (split_once_app "=" lk _ Hlk). cbn [fst snd].
  assert (Hkey : EnvLoader.strip lk = EnvLoader.strip key).
  { unfold EnvLoader.strip. subst lk. now rewrite lstrip_idem. }
  assert (Hvalue : EnvLoader.strip (EnvLoader.rstrip rest) = EnvLoader.strip rest).
  { unfold EnvLoader.strip.
    assert (Hcomm : forall s, EnvLoader.lstrip (EnvLoader.rstrip s)
                              = EnvLoader.rstrip (EnvLoader.lstrip s)).
    { clear. induction s as [|c s IH]; [reflexivity|].
      cbn [EnvLoader.lstrip]. destruct (EnvLoader.is_space c) eqn:Ec.
      - rewrite <- IH. cbn [EnvLoader.rstrip].
        destruct (EnvLoader.rstrip s) as [|d r]; [now rewrite Ec|].
        cbn [EnvLoader.lstrip]. now rewrite Ec.
      - rewrite (rstrip_cons c s Ec). cbn [EnvLoader.lstrip]. now rewrite Ec. }
    rewrite Hcomm. now rewrite rstrip_idem. }
  rewrite Hkey, Hvalue. reflexivity.
Qed.

(** X16: a value in double quotes is kept as it is written between the
    quotes, with its spaces and its [#] characters: the line
    [key="value"] sets the variable named by the stripped key to
    [value]. *)
Theorem quoted_value_is_kept (key value : string) (env : list (string * string)) :
  EnvLoader.has "=" key = false ->
  EnvLoader.startswith "#" (EnvLoader.lstrip key) = false ->
  EnvLoader.parse_line
    (key +:+ String "=" (String EnvLoader.dq (value +:+ String EnvLoader.dq EmptyString)))
    env
  = EnvLoader.assign env (EnvLoader.strip key) value.
Proof.
  intros Heq Hhash.
  destruct (parse_line_assignment key
              (String EnvLoader.dq (value +:+ String EnvLoader.dq EmptyString))
              env Heq Hhash) as [_ ->].
  cbv zeta.
  assert (Hr : EnvLoader.rstrip
                 (String EnvLoader.dq (value +:+ String EnvLoader.dq EmptyString))
               = String EnvLoader.dq (value +:+ String EnvLoader.dq EmptyString)).
  { rewrite rstrip_cons by reflexivity. now rewrite rstrip_app by reflexivity. }
  assert (Hs : EnvLoader.strip
                 (String EnvLoader.dq (value +:+ String EnvLoader.dq EmptyString))
               = String EnvLoader.dq (value +:+ String EnvLoader.dq EmptyString)).
  { unfold EnvLoader.strip. cbn [EnvLoader.lstrip].
    change (EnvLoader.is_space EnvLoader.dq) with false. cbv iota. exact Hr. }
  rewrite Hs, Hr.
  assert (Hend : EnvLoader.endswith EnvLoader.dq
                   (String EnvLoader.dq (value +:+ String EnvLoader.dq EmptyString))
                 = true).
  { change (String EnvLoader.dq (value +:+ String EnvLoader.dq EmptyString))
      with (String EnvLoader.dq value +:+ String EnvLoader.dq EmptyString).
    apply endswith_last. }
  rewrite Hend. cbn [EnvLoader.startswith]. rewrite Ascii.eqb_refl. cbn [andb].
  rewrite inner_quoted.
  rewrite has_app. cbn [EnvLoader.has]. rewrite Ascii.eqb_refl.
  rewrite !orb_true_r. cbn [orb negb]. rewrite andb_false_r. reflexivity.
Qed.

Lemma quoted_value_is_kept_witness :
  EnvLoader.parse_line
    ("TOKEN" +:+ String "="
       (String EnvLoader.dq ("a #b " +:+ String EnvLoader.dq EmptyString))) []
  = [("TOKEN", "a #b ")].
Proof.
  exact (quoted_value_is_kept "TOKEN" "a #b " [] eq_refl eq_refl).
Defined.

(** X17: a value without quotes is cut at its first [#]: when the line
    holds no quote at all, [key=value#comment] sets the variable named by
    the stripped key to the stripped [value], also where no space stands
    before the [#]. *)
Theorem unquoted_value_is_cut_at_hash (key value comment : string)
  (env : list (string * string)) :
  EnvLoader.has "=" key = false ->
  EnvLoader.startswith "#" (EnvLoader.lstrip key) = false ->
  EnvLoader.has EnvLoader.dq key = false ->
  EnvLoader.has EnvLoader.sq key = false ->
  EnvLoader.has "#" value = false ->
  EnvLoader.has EnvLoader.dq value = false ->
  EnvLoader.has EnvLoader.sq value = false ->
  EnvLoader.has EnvLoader.dq comment = false ->
  EnvLoader.has EnvLoader.sq comment = false ->
  EnvLoader.parse_line (key +:+ String "=" (value +:+ String "#" comment)) env
  = EnvLoader.assign env (EnvLoader.strip key) (EnvLoader.strip value).
Proof.
  intros Heq Hhash Hkd Hks Hvh Hvd Hvs Hcd Hcs.
  destruct (parse_line_assignment key (value +:+ String "#" comment) env Heq Hhash)
    as [_ ->].
  cbv zeta.
  assert (Hr : EnvLoader.rstrip (value +:+ String "#" comment)
               = value +:+ String "#" (EnvLoader.rstrip comment))
    by (now rewrite rstrip_app by reflexivity).
  assert (Hs : EnvLoader.strip (value +:+ String "#" comment)
               = EnvLoader.lstrip value +:+ String "#" (EnvLoader.rstrip comment)).
  { unfold EnvLoader.strip. rewrite lstrip_app by reflexivity.
    now rewrite rstrip_app by reflexivity. }
  rewrite Hs, Hr.
  rewrite (startswith_lstrip_app EnvLoader.dq "#" value _ Hvd eq_refl).
  rewrite (startswith_lstrip_app EnvLoader.sq "#" value _ Hvs eq_refl).
  cbn [andb].
  assert (Hhas : EnvLoader.has "#"
                   (EnvLoader.lstrip value +:+ String "#" (EnvLoader.rstrip comment))
                 = true).
  { rewrite has_app. cbn [EnvLoader.has]. rewrite Ascii.eqb_refl.
    cbn [orb]. apply orb_true_r. }
  rewrite Hhas.
  assert (Hquote : forall q : ascii,
            Ascii.eqb "=" q = false -> Ascii.eqb "#" q = false ->
            EnvLoader.has q key = false -> EnvLoader.has q value = false ->
            EnvLoader.has q comment = false ->
            EnvLoader.has q
              (EnvLoader.lstrip key
               +:+ String "=" (value +:+ String "#" (EnvLoader.rstrip comment)))
            = false).
  { intros q He Hh Hk Hv Hc. rewrite has_app. cbn [EnvLoader.has].
    rewrite has_app. cbn [EnvLoader.has].
    rewrite (has_lstrip q key Hk), He, Hv, Hh, (has_rstrip q comment Hc).
    reflexivity. }
  rewrite (Hquote EnvLoader.dq eq_refl eq_refl Hkd Hvd Hcd).
  rewrite (Hquote EnvLoader.sq eq_refl eq_refl Hks Hvs Hcs).
  cbn [orb negb andb].
  rewrite (split_head_app "#" (EnvLoader.lstrip value) _ (has_lstrip "#" value Hvh)).
  unfold EnvLoader.strip. now rewrite lstrip_idem.
Qed.

Lemma unquoted_value_is_cut_at_hash_witness :
  EnvLoader.parse_line ("PASSWORD" +:+ String "=" ("abc" +:+ String "#" "123")) []
  = [("PASSWORD", "abc")].
Proof.
  exact (unquoted_value_is_cut_at_hash "PASSWORD" "abc" "123" []
           eq_refl eq_refl eq_refl eq_refl eq_refl eq_refl eq_refl eq_refl eq_refl).
Defined.

(** ** The process environment *)

Section EnvironFacts.

Variable putenv_error : string -> string -> option exn.

Lemma set_all_keeps (items : list (string * string))
  (environ environ' : gmap string string) (r : res unit) :
  EnvLoader.set_all putenv_error false items environ = (r, environ') ->
  forall (key value : string),
    environ !! key = Some value -> environ' !! key = Some value.
Proof.
  revert environ. induction items as [|[k v] items IH]; intros environ H key value Hk.
  - cbn in H. inversion H; subst. exact Hk.
  - cbn [EnvLoader.set_all orb] in H.
    destruct (environ !! k) as [x|] eqn:Ek.
    + exact (IH _ H key value Hk).
    + destruct (putenv_error k v); [inversion H; subst; exact Hk|].
      apply (IH _ H key value).
      rewrite lookup_insert_ne; [exact Hk|]. intros ->. congruence.
Qed.

Lemma set_all_lookup (items : list (string * string))
  (environ environ' : gmap string string) :
  EnvLoader.set_all putenv_error false items environ = (Ok tt, environ') ->
  forall key : string,
    environ' !! key =
    match environ !! key with
    | Some value => Some value
    | None => EnvLoader.lookup key items
    end.
Proof.
  revert environ. induction items as [|[k v] items IH]; intros environ H key.
  - cbn in H. inversion H; subst. cbn. destruct (environ' !! key); reflexivity.
  - cbn [EnvLoader.set_all orb EnvLoader.lookup] in *.
    destruct (environ !! k) as [x|] eqn:Ek.
    + rewrite (IH _ H key).
      destruct (environ !! key) eqn:Ekey; [reflexivity|].
      destruct (String.eqb_spec k key) as [->|_]; [congruence|reflexivity].
    + destruct (putenv_error k v); [discriminate|].
      rewrite (IH _ H key).
      destruct (String.eqb_spec k key) as [->|Hne].
      * now rewrite lookup_insert_eq, Ek.
      * now rewrite lookup_insert_ne.
Qed.

End EnvironFacts.

(** X18: [load_dotenv] without [override] never changes a variable the
    process has, however it ends; and when it completes, every variable
    reads afterwards in [os.environ] as [get_env] read it before: the
    value of the process first, that of the file otherwise. *)
Theorem load_dotenv_agrees_with_get_env
  (text_lines : string -> list string)
  (unreadable : gmap string node -> string -> bool)
  (putenv_error : string -> string -> option exn)
  (fs : gmap string node) (environ environ' : gmap string string)
  (env_file : string) (r : res unit) :
  EnvLoader.load_dotenv text_lines unreadable putenv_error fs environ env_file false
    = (r, environ') ->
  (forall key value : string,
     environ !! key = Some value -> environ' !! key = Some value)
  /\ (r = Ok tt ->
      forall key : string,
        environ' !! key
        = EnvLoader.get_env text_lines unreadable fs environ key None env_file).
Proof.
  unfold EnvLoader.load_dotenv. intros H. split.
  - exact (set_all_keeps putenv_error _ _ _ _ H).
  - intros -> key. unfold EnvLoader.get_env.
    rewrite (set_all_lookup putenv_error _ _ _ H key).
    destruct (environ !! key); [reflexivity|].
    destruct (EnvLoader.lookup key _); reflexivity.
Qed.

Lemma load_dotenv_agrees_with_get_env_witness :
  let run :=
    EnvLoader.load_dotenv Scenario.lines Scenario.readable Scenario.settable
      Scenario.dotenv Scenario.process_environ ".env" false in
  fst run = Ok tt
  /\ snd run !! "HOME" = Some "/root"
  /\ snd run !! "CURSEFORGE_API_KEY" = Some "abc".
Proof.
  intros run.
  assert (E : run = (Ok tt, snd run)) by (vm_compute; reflexivity).
  destruct (load_dotenv_agrees_with_get_env Scenario.lines Scenario.readable
              Scenario.settable Scenario.dotenv Scenario.process_environ
              (snd run) ".env" (Ok tt) E) as [Hkeep Hget].
  split; [now rewrite E|]. split.
  - apply Hkeep. vm_compute. reflexivity.
  - rewrite (Hget eq_refl). vm_compute. reflexivity.
Defined.

(** ** Requests of a run from the cache *)

Section SendsOnly.

Variable P : request -> Prop.

Lemma only_quiet {A : Type} (c : M A) :
  (forall w r w', c w = (r, w') -> requests w' = requests w) ->
  sends_only P c.
Proof.
  intros Hq w r w' H. exists []. rewrite app_nil_r. split; [eauto|constructor].
Qed.

Lemma only_ret {A : Type} (a : A) : sends_only P (ret a).
Proof. apply only_quiet. intros w r w' H. unfold ret in H. now inversion H. Qed.

Lemma only_lift {A : Type} (x : res A) : sends_only P (lift x).
Proof. apply only_quiet. intros w r w' H. unfold lift in H. now inversion H. Qed.

Lemma only_say (l : line) : sends_only P (say l).
Proof. apply only_quiet. intros w r w' H. unfold say in H. now inversion H. Qed.

Lemma only_bind {A B : Type} (c : M A) (k : A -> M B) :
  sends_only P c -> (forall a : A, sends_only P (k a)) ->
  sends_only P (bind c k).
Proof.
  intros Hc Hk w r w' H. unfold bind in H.
  destruct (c w) as [[a|e] w1] eqn:E.
  - destruct (Hc w _ w1 E) as (s1 & H1 & F1).
    destruct (Hk a w1 r w' H) as (s2 & H2 & F2).
    exists (s1 ++ s2). split; [now rewrite H2, H1, app_assoc|].
    apply Forall_app; auto.
  - inversion H; subst. exact (Hc w _ w' E).
Qed.

Lemma only_try {A : Type} (body : M A) (handler : exn -> M A) :
  sends_only P body -> (forall e : exn, sends_only P (handler e)) ->
  sends_only P (try_except body handler).
Proof.
  intros Hb Hh w r w' H. unfold try_except in H.
  destruct (body w) as [[a|e] w1] eqn:E.
  - inversion H; subst. exact (Hb w _ w' E).
  - destruct (Hb w _ w1 E) as (s1 & H1 & F1).
    destruct (Hh e w1 r w' H) as (s2 & H2 & F2).
    exists (s1 ++ s2). split; [now rewrite H2, H1, app_assoc|].
    apply Forall_app; auto.
Qed.

Lemma only_for_each {X : Type} (xs : list X) (body : X -> M unit) :
  (forall x : X, sends_only P (body x)) -> sends_only P (for_each xs body).
Proof.
  intros Hb. induction xs as [|x xs IH]; cbn [for_each].
  - apply only_ret.
  - apply only_bind; [apply Hb|]. intros _. exact IH.
Qed.

Lemma only_for_loop {X S R : Type} (xs : list X) (body : X -> S -> M (S * flow R)) :
  (forall (x : X) (s : S), sends_only P (body x s)) ->
  forall s : S, sends_only P (for_loop xs body s).
Proof.
  intros Hb. induction xs as [|x xs IH]; intros s; cbn [for_loop].
  - apply only_ret.
  - apply only_bind; [apply Hb|]. intros [s1 f]. cbn [fst snd].
    destruct f; [apply IH|apply only_ret|apply only_ret].
Qed.

End SendsOnly.

Section QuietFiles.

Variable P : request -> Prop.
Variable refused : gmap string node -> fs_op -> bool.
Variable path_join : string -> string -> string.
Variable path_basename : string -> string.

Lemma only_exists (p : json) : sends_only P (os_path_exists p).
Proof.
  unfold os_path_exists. apply only_bind; [apply only_lift|]. intros path.
  apply only_quiet. intros w r w' H. now inversion H.
Qed.

Lemma only_getsize (p : json) : sends_only P (os_path_getsize p).
Proof.
  unfold os_path_getsize. apply only_bind; [apply only_lift|]. intros path.
  apply only_quiet. intros w r w' H.
  destruct (files w !! path) as [[c|]|]; now inversion H.
Qed.

Lemma only_remove (p : json) : sends_only P (os_remove refused p).
Proof.
  unfold os_remove. apply only_bind; [apply only_lift|]. intros path.
  apply only_quiet. intros w r w' H.
  destruct (files w !! path) as [[c|]|]; try (now inversion H).
  destruct (refused _ _); now inversion H.
Qed.

Lemma only_makedirs (path : string) : sends_only P (os_makedirs refused path).
Proof.
  apply only_quiet. intros w r w' H. unfold os_makedirs in H.
  destruct (files w !! path) as [[c|]|]; try (now inversion H).
  destruct (refused _ _); now inversion H.
Qed.

Lemma only_open (path : string) : sends_only P (open_wb refused path).
Proof.
  apply only_quiet. intros w r w' H. unfold open_wb in H.
  destruct (files w !! path) as [[c|]|]; try (now inversion H);
    destruct (refused _ _); now inversion H.
Qed.

Lemma only_copyfileobj (body : string) (how : ending) (path : string) :
  sends_only P (copyfileobj body how path).
Proof.
  apply only_quiet. intros w r w' H. unfold copyfileobj in H.
  destruct how; now inversion H.
Qed.

Lemma only_copy2 (src dst : json) :
  sends_only P (shutil_copy2 refused path_join path_basename src dst).
Proof.
  unfold shutil_copy2. apply only_bind; [apply only_lift|]. intros s.
  apply only_bind; [apply only_lift|]. intros d.
  apply only_quiet. intros w r w' H.
  destruct (files w !! s) as [[c|]|]; try (now inversion H).
  destruct (_ || _); now inversion H.
Qed.

Lemma only_write_text (path content : string) :
  sends_only P (write_text refused path content).
Proof.
  apply only_quiet. intros w r w' H. unfold write_text in H.
  destruct (files w !! path) as [[c|]|]; try (now inversion H);
    destruct (refused _ _); now inversion H.
Qed.

End QuietFiles.

Section TransferRequests.

Variable py_repr : json -> string.
Variable json_dumps : json -> string.
Variable path_join : string -> string -> string.
Variable path_dirname : string -> string.
Variable path_basename : string -> string.
Variable transfers : list request -> request -> transfer.
Variable refused : gmap string node -> fs_op -> bool.
Variable self : DownloadManager.manager.

Lemma only_urlopen (url : json) :
  sends_only file_request (DownloadManager.urlopen_file py_repr transfers url).
Proof.
  intros w r w' H. unfold DownloadManager.urlopen_file in H.
  eexists [_]. destruct (transfers _ _); inversion H; subst; cbn;
    (split; [reflexivity|]); repeat constructor.
Qed.

Lemma only_download_file (url destination : json) :
  sends_only file_request (DownloadManager._download_file py_repr path_dirname transfers
                  refused url destination).
Proof.
  unfold DownloadManager._download_file. apply only_try.
  - unfold DownloadManager.download_try.
    apply only_bind; [apply only_lift|]. intros path.
    apply only_bind; [apply only_makedirs|]. intros _.
    apply only_bind; [apply only_say|]. intros _.
    apply only_bind; [apply only_urlopen|]. intros response.
    apply only_bind; [apply only_open|]. intros _.
    apply only_bind; [apply only_copyfileobj|]. intros _.
    apply only_bind; [apply only_getsize|]. intros size.
    apply only_bind; [apply only_say|]. intros _. apply only_ret.
  - intros e. unfold DownloadManager.download_except.
    apply only_bind; [apply only_say|]. intros _.
    apply only_bind; [apply only_exists|]. intros there.
    apply only_bind; [|intros _; apply only_ret].
    destruct there; [apply only_remove|apply only_ret].
Qed.

Lemma only_download_item (item : json) (counts : Z * Z) :
  sends_only file_request (DownloadManager.download_item py_repr path_join path_dirname
                  path_basename transfers refused item counts).
Proof.
  unfold DownloadManager.download_item.
  apply only_bind; [apply only_lift|]. intros _.
  apply only_bind; [apply only_lift|]. intros _.
  apply only_bind; [apply only_lift|]. intros _.
  apply only_bind; [apply only_lift|]. intros several. destruct several.
  - unfold DownloadManager.download_mod.
    apply only_bind; [apply only_lift|]. intros destinations.
    apply only_bind; [apply only_lift|]. intros slug.
    apply only_bind.
    { destruct (Py.truthy slug); [|apply only_ret].
      apply only_bind; [apply only_lift|]. intros dests.
      apply only_for_each. intros dest. unfold DownloadManager.remove_old.
      apply only_bind; [apply only_exists|]. intros there.
      destruct there; [|apply only_ret].
      apply only_bind; [apply only_getsize|]. intros size.
      apply only_bind; [apply only_say|]. intros _.
      apply only_try; [apply only_remove|intros e; apply only_say]. }
    intros _.
    apply only_bind; [apply only_lift|]. intros first_dest.
    apply only_bind; [apply only_lift|]. intros url.
    apply only_bind; [apply only_download_file|]. intros done.
    destruct done; [|apply only_ret].
    apply only_bind; [apply only_lift|]. intros others.
    apply only_bind; [|intros _; apply only_ret].
    apply only_for_each. intros dest. unfold DownloadManager.copy_to.
    apply only_try; [|intros e; apply only_say].
    apply only_bind; [apply only_say|]. intros _. apply only_copy2.
  - unfold DownloadManager.download_single.
    apply only_bind; [apply only_lift|]. intros destination.
    destruct (negb (Py.truthy destination)).
    { apply only_bind; [apply only_say|]. intros _. apply only_ret. }
    apply only_bind; [apply only_exists|]. intros there. destruct there.
    + apply only_bind; [apply only_getsize|]. intros size.
      apply only_bind; [apply only_say|]. intros _.
      apply only_bind; [apply only_say|]. intros _. apply only_ret.
    + apply only_bind; [apply only_lift|]. intros url.
      apply only_bind; [apply only_download_file|]. intros done.
      destruct done; apply only_ret.
Qed.

Lemma only_save_cache (cache : json) :
  sends_only file_request (DownloadManager._save_cache json_dumps refused self cache).
Proof.
  unfold DownloadManager._save_cache. apply only_try.
  - apply only_bind; [apply only_write_text|]. intros _. apply only_say.
  - intros e. apply only_say.
Qed.

End TransferRequests.

(** ** Executing a plan *)

Lemma sends_none {A : Type} (c : M A) :
  sends_only (fun _ => False) c ->
  forall (w : world) (r : res A) (w' : world),
    c w = (r, w') -> requests w' = requests w.
Proof.
  intros Hc w r w' H. destruct (Hc w r w' H) as (sent & Hsent & Hall).
  destruct sent as [|x sent]; [now rewrite app_nil_r in Hsent|].
  inversion Hall as [|y ys Hx]; subst. destruct Hx.
Qed.

Section ModRounds.

Variable py_repr : json -> string.
Variable path_join : string -> string -> string.
Variable path_dirname : string -> string.
Variable path_basename : string -> string.
Variable transfers : list request -> request -> transfer.
Variable refused : gmap string node -> fs_op -> bool.

(** The removal of old versions sends no request. *)
Lemma remove_old_quiet (dest : json) :
  sends_only (fun _ => False) (DownloadManager.remove_old py_repr refused dest).
Proof.
  unfold DownloadManager.remove_old.
  apply only_bind; [apply only_exists|]. intros there.
  destruct there; [|apply only_ret].
  apply only_bind; [apply only_getsize|]. intros size.
  apply only_bind; [apply only_say|]. intros _.
  apply only_try; [apply only_remove|intros e; apply only_say].
Qed.

(** A copy to a further destination sends no request and leaves the
    file it copies as it is. *)
Lemma copy_to_source (path : string) (dest : json) (w w' : world) (r : res unit) :
  DownloadManager.copy_to path_join path_basename refused (JStr path) dest w
    = (r, w') ->
  requests w' = requests w /\ files w' !! path = files w !! path.
Proof.
  unfold DownloadManager.copy_to, try_except, shutil_copy2, say.
  unfold bind, lift, print, set_files. cbn [Py.path files requests console].
  intros H.
  destruct (Py.path dest) as [d|x].
  2: { inversion H; subst. cbn. auto. }
  cbn beta iota in H.
  destruct (files w !! path) as [[content|]|] eqn:Efile.
  2, 3: inversion H; subst; cbn; auto.
  destruct (String.eqb path _ || refused _ _) eqn:Eno.
  - inversion H; subst. cbn. auto.
  - inversion H; subst. cbn. split; [reflexivity|].
    apply orb_false_iff in Eno. destruct Eno as [Ene _].
    apply String.eqb_neq in Ene. rewrite lookup_insert_ne by congruence.
    exact Efile.
Qed.

Lemma copies_source (path : string) (others : list json) :
  forall (w w' : world) (r : res unit),
    for_each others
      (DownloadManager.copy_to path_join path_basename refused (JStr path)) w
      = (r, w') ->
    requests w' = requests w /\ files w' !! path = files w !! path.
Proof.
  induction others as [|dest others IH]; intros w w' r H; cbn [for_each] in H.
  - unfold ret in H. inversion H; subst. auto.
  - unfold bind in H.
    destruct (DownloadManager.copy_to _ _ _ _ _ _) as [[u|x] w1] eqn:E.
    + destruct (copy_to_source _ _ _ _ _ E) as [Hr Hf].
      destruct (IH _ _ _ H) as [Hr' Hf']. split; congruence.
    + inversion H; subst. exact (copy_to_source _ _ _ _ _ E).
Qed.

(** A round for a mod with destinations that completes has downloaded
    the mod to its first destination, or has counted a failure and left
    nothing there. *)
Lemma download_mod_replaces (item url : json) (path : string) (others : list json)
  (counts counts' : Z * Z) (w w' : world) :
  Py.getitem item "destinations" = Ok (JArr (JStr path :: others)) ->
  Py.getitem item "url" = Ok url ->
  DownloadManager.download_mod py_repr path_join path_dirname path_basename
    transfers refused item counts w = (Ok counts', w') ->
  (counts' = (fst counts + 1, snd counts)
   /\ requests w' = requests w ++
        [{| req_url := Py.format py_repr url;
            req_headers := [("User-Agent", JStr "minecraft-server-manager/1.0")];
            req_timeout := 60 |}]
   /\ exists (body : string) (how : ending),
        transfers (requests w)
          {| req_url := Py.format py_repr url;
             req_headers := [("User-Agent", JStr "minecraft-server-manager/1.0")];
             req_timeout := 60 |} = Stream body how
        /\ files w' !! path = Some (File (received body how)))
  \/ (counts' = (fst counts, snd counts + 1) /\ files w' !! path = None).
Proof.
  intros Hdests Hurl H. unfold DownloadManager.download_mod in H.
  bind_inv H as destinations w1 H1. lift_inv H1 as E1.
  rewrite Hdests in E1. inversion E1; subst destinations. clear E1.
  bind_inv H as slug w2 H2. lift_inv H2 as E2.
  bind_inv H as u w3 H3.
  assert (Hquiet : requests w3 = requests w).
  { refine (sends_none _ _ _ _ _ H3).
    destruct (Py.truthy slug); [|apply only_ret].
    apply only_bind; [apply only_lift|]. intros dests.
    apply only_for_each. intros dest. apply remove_old_quiet. }
  bind_inv H as first_dest w4 H4. lift_inv H4 as E4.
  cbn in E4. inversion E4; subst first_dest. clear E4.
  bind_inv H as url' w5 H5. lift_inv H5 as E5.
  rewrite Hurl in E5. inversion E5; subst url'. clear E5.
  bind_inv H as done w6 H6. destruct done.
  - bind_inv H as rest w7 H7. lift_inv H7 as E7. cbn in E7.
    inversion E7; subst rest. clear E7.
    bind_inv H as u' w8 H8. apply ret_inv in H. destruct H as [Hc ->].
    left. split; [now symmetry|].
    destruct (copies_source _ _ _ _ _ H8) as [Hreq8 Hfile8].
    unfold DownloadManager._download_file, try_except in H6.
    destruct (DownloadManager.download_try _ _ _ _ _ _ _) as [[b|e] w9] eqn:Etry.
    + inversion H6; subst.
      destruct (download_try_ok _ _ _ _ _ _ _ _ _ Etry)
        as (body & how & Ht & _ & Hreq & Hfile & _).
      rewrite Hquiet in Ht, Hreq.
      split; [now rewrite Hreq8, Hreq|].
      exists body, how. split; [exact Ht|]. now rewrite Hfile8.
    + apply download_except_absent in H6. destruct H6. discriminate.
  - apply ret_inv in H. destruct H as [Hc ->].
    right. split; [now symmetry|].
    exact (download_file_false_absent _ _ _ _ _ _ _ _ H6).
Qed.

End ModRounds.

(** C7 (as amended): an entry of the plan that is not a mod with
    destinations (the engine and the loader) and whose destination exists
    is counted as a success without any request, and the files stay as
    they are, whatever the existing file holds. A mod entry with
    destinations is never skipped: a round that completes for it has
    either sent one request for its URL and left the bytes that arrived
    at the first destination, whatever was there before, or it has
    counted a failure and left no file at the first destination. *)
Theorem existing_destination_skipped_except_mods
  (py_repr : json -> string) (path_join : string -> string -> string)
  (path_dirname path_basename : string -> string)
  (transfers : list request -> request -> transfer)
  (refused : gmap string node -> fs_op -> bool) :
  (forall (fields : list (string * json)) (name version : json) (path : string)
          (present : node) (counts : Z * Z) (w : world),
     Py.lookup "name" fields = Some name ->
     Py.lookup "version" fields = Some version ->
     DownloadManager.has_destinations (JObj fields) = Ok false ->
     Py.lookup "destination" fields = Some (JStr path) ->
     path <> EmptyString ->
     files w !! path = Some present ->
     exists w' : world,
       DownloadManager.download_item py_repr path_join path_dirname path_basename
         transfers refused (JObj fields) counts w
       = (Ok (fst counts + 1, snd counts), w')
       /\ requests w' = requests w
       /\ files w' = files w)
  /\ (forall (item url : json) (path : string) (others : list json)
             (counts counts' : Z * Z) (w w' : world),
        DownloadManager.has_destinations item = Ok true ->
        Py.getitem item "destinations" = Ok (JArr (JStr path :: others)) ->
        Py.getitem item "url" = Ok url ->
        DownloadManager.download_item py_repr path_join path_dirname
          path_basename transfers refused item counts w = (Ok counts', w') ->
        (counts' = (fst counts + 1, snd counts)
         /\ requests w' = requests w ++
              [{| req_url := Py.format py_repr url;
                  req_headers :=
                    [("User-Agent", JStr "minecraft-server-manager/1.0")];
                  req_timeout := 60 |}]
         /\ exists (body : string) (how : ending),
              transfers (requests w)
                {| req_url := Py.format py_repr url;
                   req_headers :=
                     [("User-Agent", JStr "minecraft-server-manager/1.0")];
                   req_timeout := 60 |} = Stream body how
              /\ files w' !! path = Some (File (received body how)))
        \/ (counts' = (fst counts, snd counts + 1) /\ files w' !! path = None)).
Proof.
  split.
  - intros fields name version path present counts w
      Hname Hversion Hmod Hdest Hpath Hfile.
    unfold DownloadManager.download_item, bind, lift.
    cbn [Py.get Py.getitem]. rewrite Hname, Hversion, Hmod.
    unfold DownloadManager.download_single, bind, lift.
    cbn [Py.get]. rewrite Hdest. cbn [Py.truthy].
    destruct (String.eqb path EmptyString) eqn:E;
      [apply String.eqb_eq in E; contradiction|].
    cbn [negb]. unfold os_path_exists, os_path_getsize, bind, lift, say, ret.
    cbn [Py.path]. rewrite Hfile. cbn beta iota. rewrite Hfile.
    destruct present; eexists; (split; [reflexivity|split; reflexivity]).
  - intros item url path others counts counts' w w' Hhas Hdests Hurl H.
    destruct (download_item_cases _ _ _ _ _ _ _ _ _ _ _ H)
      as (several & Hhas' & Hround).
    rewrite Hhas in Hhas'. inversion Hhas'; subst several.
    exact (download_mod_replaces py_repr path_join path_dirname path_basename
             transfers refused item url path others counts counts' w w'
             Hdests Hurl Hround).
Qed.

Lemma existing_destination_skipped_except_mods_witness :
  (exists w' : world,
     DownloadManager.download_item Scenario.repr Scenario.join Scenario.dirname
       Scenario.basename Scenario.whole_transfers Scenario.permissive
       Scenario.engine_item (0, 0) Scenario.stocked
     = (Ok (1, 0), w')
     /\ requests w' = requests Scenario.stocked
     /\ files w' = files Scenario.stocked)
  /\ (let run :=
        DownloadManager.download_item Scenario.repr Scenario.join Scenario.dirname
          Scenario.basename Scenario.whole_transfers Scenario.permissive
          Scenario.slug_item (0, 0) Scenario.stocked in
      files Scenario.stocked !! "mods/a.jar" = Some (File "old")
      /\ fst run = Ok (1, 0)
      /\ length (requests (snd run)) = 1%nat
      /\ files (snd run) !! "mods/a.jar" = Some (File "new")).
Proof.
  destruct (existing_destination_skipped_except_mods Scenario.repr Scenario.join
              Scenario.dirname Scenario.basename Scenario.whole_transfers
              Scenario.permissive) as [Hsingle Hmod].
  split.
  - apply (Hsingle _ (JStr "Minecraft Server") (JStr "1.21.1")
             "mods/a.jar" (File "old") (0, 0) Scenario.stocked).
    + reflexivity.
    + reflexivity.
    + reflexivity.
    + reflexivity.
    + discriminate.
    + vm_compute. reflexivity.
  - intros run. split; [vm_compute; reflexivity|].
    assert (E : run = (Ok (1, 0), snd run)) by (vm_compute; reflexivity).
    split; [now rewrite E|].
    destruct (Hmod Scenario.slug_item (JStr "https://example.org/a.jar")
                "mods/a.jar" [] (0, 0) (1, 0) Scenario.stocked (snd run)
                eq_refl eq_refl eq_refl E)
      as [(_ & Hreq & body & how & Ht & Hfile)|[Hc _]]; [|discriminate].
    split; [now rewrite Hreq|].
    rewrite Hfile. unfold Scenario.whole_transfers in Ht. now inversion Ht.
Defined.

(** C7 as stated fails for mod entries: a mod whose destination exists is
    downloaded again and the file is overwritten. *)
Lemma existing_mod_file_is_replaced :
  let run :=
    DownloadManager.download_item Scenario.repr Scenario.join Scenario.dirname
      Scenario.basename Scenario.whole_transfers Scenario.permissive
      Scenario.mod_item (0, 0) Scenario.stocked in
  files Scenario.stocked !! "mods/a.jar" = Some (File "old")
  /\ fst run = Ok (1, 0)
  /\ length (requests (snd run)) = 1%nat
  /\ files (snd run) !! "mods/a.jar" = Some (File "new").
Proof. vm_compute. repeat split; reflexivity. Qed.

(** X19: a run from a cache that holds a list of downloads resolves
    nothing again: however [download_from_cache] ends, every request it
    sent is the request of a file (timeout 60), none a request to a
    registry (timeout 30). *)
Theorem cached_list_is_not_resolved_again
  (py_repr : json -> string)
  (str_format : string -> list (string * json) -> res string)
  (json_dumps : json -> string)
  (path_join : string -> string -> string)
  (path_dirname path_basename : string -> string)
  (remote : list request -> request -> response)
  (transfers : list request -> request -> transfer)
  (refused : gmap string node -> fs_op -> bool)
  (self : DownloadManager.manager)
  (fields : list (string * json)) (download_list : json) :
  DownloadManager.cache self = JObj fields ->
  Py.lookup "downloads" fields = Some download_list ->
  download_list <> JNull ->
  sends_only file_request
    (DownloadManager.download_from_cache py_repr str_format json_dumps path_join
       path_dirname path_basename remote transfers refused self).
Proof.
  intros Hcache Hlist Hnull.
  unfold DownloadManager.download_from_cache. rewrite Hcache.
  assert (Hvalid : (if Py.truthy (JObj fields)
                    then Py.contains (JStr "downloads") (JObj fields)
                    else Ok false) = Ok true).
  { cbn. rewrite Hlist. destruct fields; [discriminate|reflexivity]. }
  rewrite Hvalid.
  change (sends_only file_request
            (let! download_list0 := lift (Py.getitem (JObj fields) "downloads") in
             let! _ := lift (Py.get (JObj fields) "minecraft_version" JNull) in
             let! _ := lift (Py.len download_list0) in
             DownloadManager.download_all py_repr str_format json_dumps path_join
               path_dirname path_basename remote transfers refused self
               download_list0)).
  cbn [Py.getitem]. rewrite Hlist.
  intros w r w' H. unfold bind at 1, lift at 1 in H. revert w r w' H.
  apply only_bind; [apply only_lift|]. intros _.
  apply only_bind; [apply only_lift|]. intros _.
  unfold DownloadManager.download_all.
  apply only_bind.
  { destruct download_list; try apply only_ret. contradiction. }
  intros given. destruct (negb (Py.truthy given)); [apply only_ret|].
  apply only_bind; [apply only_lift|]. intros entries.
  apply only_bind.
  { apply only_for_loop. intros x s.
    apply only_bind; [apply only_download_item|]. intros c. apply only_ret. }
  intros r0.
  apply only_bind; [apply only_save_cache|]. intros _. apply only_ret.
Qed.

Lemma cached_list_is_not_resolved_again_witness :
  exists sent : list request,
    requests (snd (DownloadManager.download_from_cache Scenario.repr
                     Scenario.plain_format Scenario.dumps Scenario.join
                     Scenario.dirname Scenario.basename Scenario.silent_remote
                     Scenario.whole_transfers Scenario.permissive
                     Scenario.cached_manager Scenario.start))
    = requests Scenario.start ++ sent
    /\ Forall file_request sent.
Proof.
  apply (cached_list_is_not_resolved_again Scenario.repr Scenario.plain_format
           Scenario.dumps Scenario.join Scenario.dirname Scenario.basename
           Scenario.silent_remote Scenario.whole_transfers Scenario.permissive
           Scenario.cached_manager _ Scenario.short_plan eq_refl eq_refl)
    with (r := fst (DownloadManager.download_from_cache Scenario.repr
                      Scenario.plain_format Scenario.dumps Scenario.join
                      Scenario.dirname Scenario.basename Scenario.silent_remote
                      Scenario.whole_transfers Scenario.permissive
                      Scenario.cached_manager Scenario.start)).
  - discriminate.
  - apply surjective_pairing.
Defined.

(** ** The proposed loader version *)


Section LoaderFacts.

Variable py_repr : json -> string.
Variable remote : list request -> request -> response.
Variable self : UpdateChecker.checker.


End LoaderFacts.



(** ** Overriding the process environment *)

Lemma lookup_not_key (key : string) (items : list (string * string)) :
  ~ In key (map fst items) -> EnvLoader.lookup key items = None.
Proof.
  induction items as [|[k v] items IH]; [reflexivity|].
  cbn [map fst In EnvLoader.lookup]. intros Hn.
  destruct (String.eqb_spec k key) as [->|Hne]; [tauto|]. apply IH. tauto.
Qed.

Lemma assign_keys (env : list (string * string)) (key value k : string) :
  In k (map fst (EnvLoader.assign env key value)) ->
  k = key \/ In k (map fst env).
Proof.
  induction env as [|[k0 v0] env IH]; cbn [EnvLoader.assign map fst In].
  - intros [H|[]]. now left.
  - destruct (String.eqb_spec k0 key) as [->|Hne]; cbn [map fst In].
    + intros [H|H]; auto.
    + intros [H|H]; [auto|]. destruct (IH H); auto.
Qed.

Lemma assign_nodup (env : list (string * string)) (key value : string) :
  List.NoDup (map fst env) -> List.NoDup (map fst (EnvLoader.assign env key value)).
Proof.
  induction env as [|[k0 v0] env IH]; cbn [EnvLoader.assign map fst]; intros Hn.
  - constructor; [intros []|constructor].
  - inversion Hn as [|x xs Hx Hrest]; subst.
    destruct (String.eqb_spec k0 key) as [->|Hne]; cbn [map fst].
    + constructor; assumption.
    + constructor; [|now apply IH].
      intros Hin. destruct (assign_keys _ _ _ _ Hin); [congruence|contradiction].
Qed.

Lemma parse_line_nodup (line : string) (env : list (string * string)) :
  List.NoDup (map fst env) -> List.NoDup (map fst (EnvLoader.parse_line line env)).
Proof.
  intros Hn. unfold EnvLoader.parse_line.
  destruct (_ || _); [exact Hn|].
  destruct (EnvLoader.has "=" _); [|exact Hn].
  now apply assign_nodup.
Qed.

Lemma parse_lines_nodup (lines : list string) (env : list (string * string)) :
  List.NoDup (map fst env) ->
  List.NoDup (map fst (fold_left (fun env_vars line => EnvLoader.parse_line line env_vars)
                    lines env)).
Proof.
  revert env. induction lines as [|l lines IH]; intros env Hn; cbn [fold_left].
  - exact Hn.
  - apply IH. now apply parse_line_nodup.
Qed.

Section OverrideFacts.

Variable text_lines : string -> list string.
Variable unreadable : gmap string node -> string -> bool.
Variable putenv_error : string -> string -> option exn.

(** The variables of the file have names that differ from one another. *)
Lemma load_env_file_nodup (fs : gmap string node) (env_file : string) :
  List.NoDup (map fst (EnvLoader.load_env_file text_lines unreadable fs env_file)).
Proof.
  unfold EnvLoader.load_env_file.
  destruct (fs !! env_file) as [[content|]|]; try constructor.
  destruct (unreadable fs env_file); [constructor|].
  apply parse_lines_nodup. constructor.
Qed.

Lemma set_all_override (items : list (string * string))
  (environ environ' : gmap string string) :
  List.NoDup (map fst items) ->
  EnvLoader.set_all putenv_error true items environ = (Ok tt, environ') ->
  forall key : string,
    environ' !! key =
    match EnvLoader.lookup key items with
    | Some value => Some value
    | None => environ !! key
    end.
Proof.
  revert environ. induction items as [|[k v] items IH]; intros environ Hn H key.
  - cbn in H. inversion H; subst. reflexivity.
  - cbn [map fst] in Hn. inversion Hn as [|x xs Hx Hrest]; subst.
    cbn [EnvLoader.set_all orb EnvLoader.lookup] in *.
    destruct (putenv_error k v); [discriminate|].
    rewrite (IH _ Hrest H key).
    destruct (String.eqb_spec k key) as [->|Hne].
    + rewrite (lookup_not_key key items Hx). apply lookup_insert_eq.
    + destruct (EnvLoader.lookup key items); [reflexivity|].
      now apply lookup_insert_ne.
Qed.

End OverrideFacts.

(** X21: when [load_dotenv] with [override] completes, every variable of
    the file reads in [os.environ] as the file gives it, whatever the
    process had before, and every other variable is as it was. *)
Theorem load_dotenv_override_prefers_file
  (text_lines : string -> list string)
  (unreadable : gmap string node -> string -> bool)
  (putenv_error : string -> string -> option exn)
  (fs : gmap string node) (environ environ' : gmap string string)
  (env_file : string) :
  EnvLoader.load_dotenv text_lines unreadable putenv_error fs environ env_file true
    = (Ok tt, environ') ->
  forall key : string,
    environ' !! key =
    match EnvLoader.lookup key
            (EnvLoader.load_env_file text_lines unreadable fs env_file) with
    | Some value => Some value
    | None => environ !! key
    end.
Proof.
  unfold EnvLoader.load_dotenv. intros H.
  exact (set_all_override putenv_error _ _ _
           (load_env_file_nodup text_lines unreadable fs env_file) H).
Qed.

Lemma load_dotenv_override_prefers_file_witness :
  let run :=
    EnvLoader.load_dotenv Scenario.lines Scenario.readable Scenario.settable
      Scenario.dotenv Scenario.process_environ ".env" true in
  fst run = Ok tt /\ snd run !! "HOME" = Some "/tmp".
Proof.
  intros run.
  assert (E : run = (Ok tt, snd run)) by (vm_compute; reflexivity).
  split; [now rewrite E|].
  rewrite (load_dotenv_override_prefers_file Scenario.lines Scenario.readable
             Scenario.settable Scenario.dotenv Scenario.process_environ
             (snd run) ".env" E "HOME").
  vm_compute. reflexivity.
Defined.

(** ** A second run *)

Section SecondRound.

Variable py_repr : json -> string.
Variable path_join : string -> string -> string.
Variable path_dirname : string -> string.
Variable path_basename : string -> string.
Variable transfers : list request -> request -> transfer.
Variable refused : gmap string node -> fs_op -> bool.

(** A round for an entry with one destination that counts a success
    leaves something at the destination. *)
Lemma download_single_success (item : json) (counts : Z * Z) (w w' : world) :
  DownloadManager.download_single py_repr path_dirname transfers refused
    item counts w = (Ok (fst counts + 1, snd counts), w') ->
  exists path : string,
    Py.get item "destination" JNull = Ok (JStr path)
    /\ path <> EmptyString
    /\ files w' !! path <> None.
Proof.
  unfold DownloadManager.download_single. intros H.
  bind_inv H as destination w1 H1. lift_inv H1 as E1.
  destruct (Py.truthy destination) eqn:Et; cbn [negb] in H.
  2: { bind_inv H as u w2 H2. apply ret_inv in H. destruct H as [H _].
       inversion H. lia. }
  bind_inv H as there w2 H2.
  unfold os_path_exists in H2. bind_inv H2 as path w3 H3. lift_inv H3 as E3.
  destruct destination; try discriminate. cbn in E3. inversion E3; subst path.
  inversion H2; subst there w2. clear H2.
  exists s. split; [exact E1|]. split.
  { intros ->. discriminate. }
  destruct (files w !! s) as [n|] eqn:Efile.
  - bind_inv H as size w3 H3.
    assert (w3 = w).
    { unfold os_path_getsize, bind, lift in H3. cbn in H3. rewrite Efile in H3.
      destruct n; now inversion H3. }
    subst w3.
    bind_inv H as u1 w4 H4. bind_inv H as u2 w5 H5.
    apply ret_inv in H. destruct H as [_ ->].
    unfold say in H4, H5. inversion H4; subst. inversion H5; subst.
    cbn. now rewrite Efile.
  - bind_inv H as url w3 H3. lift_inv H3 as E4.
    bind_inv H as done w4 H4. destruct done.
    + apply ret_inv in H. destruct H as [_ ->].
      unfold DownloadManager._download_file, try_except in H4.
      destruct (DownloadManager.download_try _ _ _ _ _ _ _) as [[b|e] w5] eqn:Etry.
      * inversion H4; subst.
        destruct (download_try_ok _ _ _ _ _ _ _ _ _ Etry)
          as (body & how & _ & _ & _ & Hf & _).
        now rewrite Hf.
      * apply download_except_absent in H4. destruct H4. discriminate.
    + apply ret_inv in H. destruct H as [H _]. inversion H. lia.
Qed.

(** A round for an entry with one destination where something is at the
    destination skips the entry. *)
Lemma download_single_skip (item : json) (path : string) (counts : Z * Z)
  (w : world) :
  Py.get item "destination" JNull = Ok (JStr path) ->
  path <> EmptyString ->
  files w !! path <> None ->
  exists w' : world,
    DownloadManager.download_single py_repr path_dirname transfers refused
      item counts w = (Ok (fst counts + 1, snd counts), w')
    /\ requests w' = requests w
    /\ files w' = files w.
Proof.
  intros Hdest Hne Hfile.
  unfold DownloadManager.download_single, bind, lift. rewrite Hdest.
  cbn [Py.truthy].
  destruct (String.eqb_spec path EmptyString) as [Heq|Hneq]; [contradiction|].
  cbn [negb].
  unfold os_path_exists, os_path_getsize, bind, lift, say, ret. cbn [Py.path].
  destruct (files w !! path) as [nd|] eqn:E; [|contradiction].
  cbn beta iota. rewrite E.
  destruct nd; eexists; (split; [reflexivity|split; reflexivity]).
Qed.

End SecondRound.

(** X22: an entry with a single destination (the engine, the loader) for
    which a round of [download_all] counted a success is skipped by every
    later round that finds its destination in place: that round sends no
    request and changes no file. *)
Theorem downloaded_entry_is_skipped_later
  (py_repr : json -> string) (path_join : string -> string -> string)
  (path_dirname path_basename : string -> string)
  (transfers : list request -> request -> transfer)
  (refused : gmap string node -> fs_op -> bool)
  (item : json) (counts : Z * Z) (w w1 : world) :
  DownloadManager.has_destinations item = Ok false ->
  DownloadManager.download_item py_repr path_join path_dirname path_basename
    transfers refused item counts w
    = (Ok (fst counts + 1, snd counts), w1) ->
  exists path : string,
    Py.get item "destination" JNull = Ok (JStr path)
    /\ files w1 !! path <> None
    /\ forall (counts2 : Z * Z) (w2 : world),
         files w2 !! path <> None ->
         exists w3 : world,
           DownloadManager.download_item py_repr path_join path_dirname
             path_basename transfers refused item counts2 w2
           = (Ok (fst counts2 + 1, snd counts2), w3)
           /\ requests w3 = requests w2
           /\ files w3 = files w2.
Proof.
  intros Hhas H.
  unfold DownloadManager.download_item in H.
  bind_inv H as e w2 H2. lift_inv H2 as E2.
  bind_inv H as n w3 H3. lift_inv H3 as E3.
  bind_inv H as v w4 H4. lift_inv H4 as E4.
  bind_inv H as several w5 H5. lift_inv H5 as E5.
  rewrite Hhas in E5. inversion E5; subst several.
  destruct (download_single_success _ _ _ _ _ _ _ _ H)
    as (path & Hdest & Hne & Hfile).
  exists path. split; [exact Hdest|]. split; [exact Hfile|].
  intros counts2 w2' Hthere.
  destruct (download_single_skip py_repr path_dirname transfers refused
              item path counts2 w2' Hdest Hne Hthere) as (w3' & Hrun & Hreq & Hf).
  exists w3'. split; [|split; assumption].
  unfold DownloadManager.download_item, bind, lift.
  rewrite E2, E3, E4, Hhas. exact Hrun.
Qed.

Lemma downloaded_entry_is_skipped_later_witness :
  let run :=
    DownloadManager.download_item Scenario.repr Scenario.join Scenario.dirname
      Scenario.basename Scenario.whole_transfers Scenario.permissive
      Scenario.engine_item (0, 0) Scenario.start in
  fst run = Ok (1, 0)
  /\ exists path : string,
       Py.get Scenario.engine_item "destination" JNull = Ok (JStr path)
       /\ files (snd run) !! path <> None.
Proof.
  intros run.
  assert (E : run = (Ok (fst (0, 0) + 1, snd (0, 0)), snd run))
    by (vm_compute; reflexivity).
  split; [now rewrite E|].
  destruct (downloaded_entry_is_skipped_later Scenario.repr Scenario.join
              Scenario.dirname Scenario.basename Scenario.whole_transfers
              Scenario.permissive Scenario.engine_item (0, 0) Scenario.start
              (snd run) eq_refl E) as (path & Hdest & Hfile & _).
  exists path. split; assumption.
Defined.
